(** * ux-mirror: the double-buffered 3-D Game of Life engine and its
      compute-shader debugger

    A shallow embedding of the host-side orchestration code:

    - [ComputeShaderDebugger] (src/src/ComputeShaderDebugger.cpp,
      src/include/ComputeShaderDebugger.h): resource tracking tables,
      the bounded dispatch history, timestamp markers, barrier validation,
      the message ledgers and the statistics;
    - [GameOfLife3D] (src/src/GameOfLife3D.cpp, src/include/GameOfLife3D.h)
      with the two single-use command-buffer helpers of
      src/src/VulkanContext.cpp: the host grid mirror, the two generation
      buffers, the two descriptor sets and the ping-pong index;
    - [VulkanContext] and [VulkanMemoryManager]
      (src/src/VulkanContext.cpp, src/src/VulkanMemoryManager.cpp): the
      set-up of instance, device and command pool, and the destructors;
    - [printGrid] and [main] (src/src/main.cpp) and
      [printDispatchHistory], with the text they write to the streams.

    Conventions.  A [uint32_t] is a [Z] reduced with [wrap32], a
    [uint64_t]/[size_t] a [Z] reduced with [wrap64]; Vulkan handles are
    [Z] with [VK_NULL_HANDLE = 0]; [std::unordered_map] is a [gmap],
    [std::vector] a [list]; [double] is IEEE binary64 ([PrimFloat]).  The
    driver is an external collaborator: every answer it gives (result
    codes, clock readings, loaded function pointers) is an explicit
    argument of the operation that asks for it. *)

From Stdlib Require Import ZArith Lia PrimFloat SpecFloat FloatOps.
From stdpp Require Import gmap strings list pretty.

Local Open Scope Z_scope.

(** ** Machine integers *)

Definition wrap32 (z : Z) : Z := z mod 2 ^ 32.
Definition wrap64 (z : Z) : Z := z mod 2 ^ 64.

(** Conversion of an integer to [double] (round to nearest even). *)
Definition double_of_Z (z : Z) : float :=
  SF2Prim (binary_normalize prec emax z 0 false).

(** ** The slice of the Vulkan API the code talks to *)

Module Vk.

Inductive VkResult :=
| VK_SUCCESS
| VK_NOT_READY
| VK_TIMEOUT
| VK_ERROR_OUT_OF_HOST_MEMORY
| VK_ERROR_OUT_OF_DEVICE_MEMORY
| VK_ERROR_INITIALIZATION_FAILED
| VK_ERROR_DEVICE_LOST.

(** [r != VK_SUCCESS] *)
Definition failed (r : VkResult) : bool :=
  match r with VK_SUCCESS => false | _ => true end.

Definition VK_NULL_HANDLE : Z := 0.
Definition VK_WHOLE_SIZE : Z := 2 ^ 64 - 1.
Definition VK_ACCESS_SHADER_READ_BIT : Z := 32.
Definition VK_ACCESS_SHADER_WRITE_BIT : Z := 64.
Definition VK_PIPELINE_STAGE_COMPUTE_SHADER_BIT : Z := 2048.
Definition VK_PIPELINE_STAGE_BOTTOM_OF_PIPE_BIT : Z := 8192.

Record VkExtent3D := { width : Z; height : Z; depth : Z }.

Record VkMemoryBarrier := {
  mb_srcAccessMask : Z;
  mb_dstAccessMask : Z
}.

Record VkBufferMemoryBarrier := {
  bb_srcAccessMask : Z;
  bb_dstAccessMask : Z;
  bb_buffer : Z;
  bb_offset : Z;
  bb_size : Z
}.

Record VkImageMemoryBarrier := {
  ib_srcAccessMask : Z;
  ib_dstAccessMask : Z;
  ib_oldLayout : Z;
  ib_newLayout : Z;
  ib_image : Z
}.

(** [float color[4]] of a debug label. *)
Record Color := { red : float; green : float; blue : float; alpha : float }.

Record VkDescriptorBufferInfo := {
  dbi_buffer : Z;
  dbi_offset : Z;
  dbi_range : Z
}.

(** Commands recorded into a command buffer, in recording order. *)
Inductive Cmd :=
| CmdBindPipeline (pipeline : Z)
| CmdBindDescriptorSets (layout firstSet : Z) (sets : list Z)
| CmdPushConstants (layout offset : Z) (values : list Z)
| CmdDispatch (groupCountX groupCountY groupCountZ : Z)
| CmdWriteTimestamp (stage queryPool query : Z)
| CmdBeginDebugUtilsLabel (labelName : string) (color : Color)
| CmdEndDebugUtilsLabel
| CmdInsertDebugUtilsLabel (labelName : string) (color : Color).

End Vk.

Import Vk.

(** ** ComputeShaderDebugger *)

Module Debugger.

Record ComputeDispatchInfo := {
  groupCountX : Z;
  groupCountY : Z;
  groupCountZ : Z;
  shaderName : string;
  startTime : Z;   (* steady_clock ticks, nanoseconds *)
  endTime : Z;
  buffers : list Z;
  images : list Z
}.

Record BufferInfo := {
  bi_size : Z;
  bi_name : string;
  bi_lastAccessTime : Z
}.

Record ImageInfo := {
  ii_extent : VkExtent3D;
  ii_format : Z;
  ii_name : string;
  ii_lastAccessTime : Z
}.

(** The private members of the class.  The three [PFN_...] members are
    kept as booleans: whether the loaded pointer is non-null.  The two
    collaborator pointers [m_context] and [m_memoryManager] only lead to
    the driver, whose answers are arguments here. *)
Record t := {
  m_enabled : bool;
  m_trackedBuffers : gmap Z BufferInfo;
  m_trackedImages : gmap Z ImageInfo;
  m_dispatchHistory : list ComputeDispatchInfo;
  m_currentDispatch : ComputeDispatchInfo;
  m_inDispatch : bool;
  m_timestampQueryPool : Z;
  m_currentTimestampIndex : Z;
  m_timestampMarkers : list (Z * string);
  m_errors : list string;
  m_warnings : list string;
  vkCmdBeginDebugUtilsLabelEXT : bool;
  vkCmdEndDebugUtilsLabelEXT : bool;
  vkCmdInsertDebugUtilsLabelEXT : bool
}.

(** Field updates. *)
Definition set_enabled (v : bool) (d : t) : t :=
  {| m_enabled := v;
     m_trackedBuffers := m_trackedBuffers d;
     m_trackedImages := m_trackedImages d;
     m_dispatchHistory := m_dispatchHistory d;
     m_currentDispatch := m_currentDispatch d;
     m_inDispatch := m_inDispatch d;
     m_timestampQueryPool := m_timestampQueryPool d;
     m_currentTimestampIndex := m_currentTimestampIndex d;
     m_timestampMarkers := m_timestampMarkers d;
     m_errors := m_errors d;
     m_warnings := m_warnings d;
     vkCmdBeginDebugUtilsLabelEXT := vkCmdBeginDebugUtilsLabelEXT d;
     vkCmdEndDebugUtilsLabelEXT := vkCmdEndDebugUtilsLabelEXT d;
     vkCmdInsertDebugUtilsLabelEXT := vkCmdInsertDebugUtilsLabelEXT d |}.

Definition set_trackedBuffers (v : gmap Z BufferInfo) (d : t) : t :=
  {| m_enabled := m_enabled d;
     m_trackedBuffers := v;
     m_trackedImages := m_trackedImages d;
     m_dispatchHistory := m_dispatchHistory d;
     m_currentDispatch := m_currentDispatch d;
     m_inDispatch := m_inDispatch d;
     m_timestampQueryPool := m_timestampQueryPool d;
     m_currentTimestampIndex := m_currentTimestampIndex d;
     m_timestampMarkers := m_timestampMarkers d;
     m_errors := m_errors d;
     m_warnings := m_warnings d;
     vkCmdBeginDebugUtilsLabelEXT := vkCmdBeginDebugUtilsLabelEXT d;
     vkCmdEndDebugUtilsLabelEXT := vkCmdEndDebugUtilsLabelEXT d;
     vkCmdInsertDebugUtilsLabelEXT := vkCmdInsertDebugUtilsLabelEXT d |}.

Definition set_trackedImages (v : gmap Z ImageInfo) (d : t) : t :=
  {| m_enabled := m_enabled d;
     m_trackedBuffers := m_trackedBuffers d;
     m_trackedImages := v;
     m_dispatchHistory := m_dispatchHistory d;
     m_currentDispatch := m_currentDispatch d;
     m_inDispatch := m_inDispatch d;
     m_timestampQueryPool := m_timestampQueryPool d;
     m_currentTimestampIndex := m_currentTimestampIndex d;
     m_timestampMarkers := m_timestampMarkers d;
     m_errors := m_errors d;
     m_warnings := m_warnings d;
     vkCmdBeginDebugUtilsLabelEXT := vkCmdBeginDebugUtilsLabelEXT d;
     vkCmdEndDebugUtilsLabelEXT := vkCmdEndDebugUtilsLabelEXT d;
     vkCmdInsertDebugUtilsLabelEXT := vkCmdInsertDebugUtilsLabelEXT d |}.

(** The three dispatch members always change together or are rewritten
    with their old value. *)
Definition set_dispatch (h : list ComputeDispatchInfo)
    (c : ComputeDispatchInfo) (b : bool) (d : t) : t :=
  {| m_enabled := m_enabled d;
     m_trackedBuffers := m_trackedBuffers d;
     m_trackedImages := m_trackedImages d;
     m_dispatchHistory := h;
     m_currentDispatch := c;
     m_inDispatch := b;
     m_timestampQueryPool := m_timestampQueryPool d;
     m_currentTimestampIndex := m_currentTimestampIndex d;
     m_timestampMarkers := m_timestampMarkers d;
     m_errors := m_errors d;
     m_warnings := m_warnings d;
     vkCmdBeginDebugUtilsLabelEXT := vkCmdBeginDebugUtilsLabelEXT d;
     vkCmdEndDebugUtilsLabelEXT := vkCmdEndDebugUtilsLabelEXT d;
     vkCmdInsertDebugUtilsLabelEXT := vkCmdInsertDebugUtilsLabelEXT d |}.

Definition set_timestamps (i : Z) (ms : list (Z * string)) (d : t) : t :=
  {| m_enabled := m_enabled d;
     m_trackedBuffers := m_trackedBuffers d;
     m_trackedImages := m_trackedImages d;
     m_dispatchHistory := m_dispatchHistory d;
     m_currentDispatch := m_currentDispatch d;
     m_inDispatch := m_inDispatch d;
     m_timestampQueryPool := m_timestampQueryPool d;
     m_currentTimestampIndex := i;
     m_timestampMarkers := ms;
     m_errors := m_errors d;
     m_warnings := m_warnings d;
     vkCmdBeginDebugUtilsLabelEXT := vkCmdBeginDebugUtilsLabelEXT d;
     vkCmdEndDebugUtilsLabelEXT := vkCmdEndDebugUtilsLabelEXT d;
     vkCmdInsertDebugUtilsLabelEXT := vkCmdInsertDebugUtilsLabelEXT d |}.

Definition set_messages (es ws : list string) (d : t) : t :=
  {| m_enabled := m_enabled d;
     m_trackedBuffers := m_trackedBuffers d;
     m_trackedImages := m_trackedImages d;
     m_dispatchHistory := m_dispatchHistory d;
     m_currentDispatch := m_currentDispatch d;
     m_inDispatch := m_inDispatch d;
     m_timestampQueryPool := m_timestampQueryPool d;
     m_currentTimestampIndex := m_currentTimestampIndex d;
     m_timestampMarkers := m_timestampMarkers d;
     m_errors := es;
     m_warnings := ws;
     vkCmdBeginDebugUtilsLabelEXT := vkCmdBeginDebugUtilsLabelEXT d;
     vkCmdEndDebugUtilsLabelEXT := vkCmdEndDebugUtilsLabelEXT d;
     vkCmdInsertDebugUtilsLabelEXT := vkCmdInsertDebugUtilsLabelEXT d |}.

(** [m_errors.push_back(msg)], [m_warnings.push_back(msg)] *)
Definition push_error (msg : string) (d : t) : t :=
  set_messages (m_errors d ++ [msg]) (m_warnings d) d.
Definition push_warning (msg : string) (d : t) : t :=
  set_messages (m_errors d) (m_warnings d ++ [msg]) d.

(** *** Construction

    What the driver answers while the constructor runs: whether each
    [vkGetInstanceProcAddr] lookup finds its function, and the outcome of
    [vkCreateQueryPool]. *)
Record DriverAnswers := {
  hasBeginLabel : bool;
  hasEndLabel : bool;
  hasInsertLabel : bool;
  queryPoolResult : VkResult;
  queryPoolHandle : Z
}.

(** The constructor.  [ComputeDispatchInfo] has no member initialisers,
    so the three group counts of [m_currentDispatch] start with whatever
    the storage held ([junk]); its string, time points and vectors are
    default-constructed. *)
Definition construct (junk : Z * Z * Z) (a : DriverAnswers) : t :=
  let d0 :=
    {| m_enabled := true;
       m_trackedBuffers := ∅;
       m_trackedImages := ∅;
       m_dispatchHistory := [];
       m_currentDispatch :=
         {| groupCountX := junk.1.1; groupCountY := junk.1.2;
            groupCountZ := junk.2; shaderName := "";
            startTime := 0; endTime := 0; buffers := []; images := [] |};
       m_inDispatch := false;
       m_timestampQueryPool := VK_NULL_HANDLE;
       m_currentTimestampIndex := 0;
       m_timestampMarkers := [];
       m_errors := [];
       m_warnings := [];
       (* initDebugExtensions *)
       vkCmdBeginDebugUtilsLabelEXT := hasBeginLabel a;
       vkCmdEndDebugUtilsLabelEXT := hasEndLabel a;
       vkCmdInsertDebugUtilsLabelEXT := hasInsertLabel a |} in
  (* createTimestampQueryPool *)
  if failed (queryPoolResult a)
  then push_error "Failed to create timestamp query pool" d0
  else
    {| m_enabled := m_enabled d0;
       m_trackedBuffers := m_trackedBuffers d0;
       m_trackedImages := m_trackedImages d0;
       m_dispatchHistory := m_dispatchHistory d0;
       m_currentDispatch := m_currentDispatch d0;
       m_inDispatch := m_inDispatch d0;
       m_timestampQueryPool := queryPoolHandle a;
       m_currentTimestampIndex := m_currentTimestampIndex d0;
       m_timestampMarkers := m_timestampMarkers d0;
       m_errors := m_errors d0;
       m_warnings := m_warnings d0;
       vkCmdBeginDebugUtilsLabelEXT := vkCmdBeginDebugUtilsLabelEXT d0;
       vkCmdEndDebugUtilsLabelEXT := vkCmdEndDebugUtilsLabelEXT d0;
       vkCmdInsertDebugUtilsLabelEXT := vkCmdInsertDebugUtilsLabelEXT d0 |}.

(** *** Inline members of the header *)

Definition setEnabled (enabled : bool) (d : t) : t := set_enabled enabled d.
Definition isEnabled (d : t) : bool := m_enabled d.
Definition getErrors (d : t) : list string := m_errors d.
Definition getWarnings (d : t) : list string := m_warnings d.
Definition clearMessages (d : t) : t := set_messages [] [] d.

(** *** Shader validation *)

Definition validateShaderModule (shaderModule : Z) (name : string) (d : t)
  : bool * t :=
  if negb (m_enabled d) then (true, d)
  else if shaderModule =? VK_NULL_HANDLE
  then (false,
        push_error ("Shader module '" +:+ name +:+ "' is VK_NULL_HANDLE") d)
  else (true, d).

Definition validateComputePipeline (pipeline : Z) (name : string) (d : t)
  : bool * t :=
  if negb (m_enabled d) then (true, d)
  else if pipeline =? VK_NULL_HANDLE
  then (false,
        push_error ("Compute pipeline '" +:+ name +:+ "' is VK_NULL_HANDLE") d)
  else (true, d).

(** *** Resource tracking

    [now] is [steady_clock::now().time_since_epoch().count()], stored in a
    [uint64_t]. *)

Definition trackBuffer (buffer size : Z) (name : string) (now : Z) (d : t)
  : t :=
  if negb (m_enabled d) then d
  else
    let info := {| bi_size := size; bi_name := name;
                   bi_lastAccessTime := wrap64 now |} in
    set_trackedBuffers (<[buffer := info]> (m_trackedBuffers d)) d.

Definition trackImage (image : Z) (extent : VkExtent3D) (format : Z)
    (name : string) (now : Z) (d : t) : t :=
  if negb (m_enabled d) then d
  else
    let info := {| ii_extent := extent; ii_format := format;
                   ii_name := name; ii_lastAccessTime := wrap64 now |} in
    set_trackedImages (<[image := info]> (m_trackedImages d)) d.

Definition untrackBuffer (buffer : Z) (d : t) : t :=
  set_trackedBuffers (delete buffer (m_trackedBuffers d)) d.

Definition untrackImage (image : Z) (d : t) : t :=
  set_trackedImages (delete image (m_trackedImages d)) d.

(** *** Dispatch bookkeeping *)

Definition beginDispatch (name : string) (gx gy gz : Z) (now : Z) (d : t)
  : t :=
  if negb (m_enabled d) then d
  else
    set_dispatch (m_dispatchHistory d)
      {| groupCountX := gx; groupCountY := gy; groupCountZ := gz;
         shaderName := name;
         startTime := now;
         endTime := endTime (m_currentDispatch d);
         buffers := []; images := [] |}
      true d.

(** [m_currentDispatch.endTime = now] *)
Definition close_dispatch (now : Z) (c : ComputeDispatchInfo)
  : ComputeDispatchInfo :=
  {| groupCountX := groupCountX c; groupCountY := groupCountY c;
     groupCountZ := groupCountZ c; shaderName := shaderName c;
     startTime := startTime c; endTime := now;
     buffers := buffers c; images := images c |}.

Definition endDispatch (now : Z) (d : t) : t :=
  if negb (m_enabled d) || negb (m_inDispatch d) then d
  else
    let c := close_dispatch now (m_currentDispatch d) in
    let h := m_dispatchHistory d ++ [c] in
    (* Keep history size manageable *)
    let h' := if 1000 <? Z.of_nat (length h) then tail h else h in
    set_dispatch h' c false d.

(** *** Timestamps and debug labels: both record into the caller's
    command buffer [cb]. *)

Definition insertTimestamp (markerName : string) (d : t) (cb : list Cmd)
  : t * list Cmd :=
  if negb (m_enabled d) || (1000 <=? m_currentTimestampIndex d) then (d, cb)
  else
    (set_timestamps (wrap32 (m_currentTimestampIndex d + 1))
       (m_timestampMarkers d ++ [(m_currentTimestampIndex d, markerName)]) d,
     cb ++ [CmdWriteTimestamp VK_PIPELINE_STAGE_BOTTOM_OF_PIPE_BIT
              (m_timestampQueryPool d) (m_currentTimestampIndex d)]).

Definition beginDebugLabel (labelName : string) (color : Color) (d : t)
    (cb : list Cmd) : list Cmd :=
  if negb (m_enabled d) || negb (vkCmdBeginDebugUtilsLabelEXT d) then cb
  else cb ++ [CmdBeginDebugUtilsLabel labelName color].

Definition endDebugLabel (d : t) (cb : list Cmd) : list Cmd :=
  if negb (m_enabled d) || negb (vkCmdEndDebugUtilsLabelEXT d) then cb
  else cb ++ [CmdEndDebugUtilsLabel].

Definition insertDebugLabel (labelName : string) (color : Color) (d : t)
    (cb : list Cmd) : list Cmd :=
  if negb (m_enabled d) || negb (vkCmdInsertDebugUtilsLabelEXT d) then cb
  else cb ++ [CmdInsertDebugUtilsLabel labelName color].

(** *** Barrier validation *)

Definition validateMemoryBarrier (barrier : VkMemoryBarrier) (d : t)
  : bool * t :=
  if negb (m_enabled d) then (true, d)
  else
    (* Check for common issues *)
    if (mb_srcAccessMask barrier =? 0) && (mb_dstAccessMask barrier =? 0)
    then (true,
          push_warning
            "Memory barrier has both srcAccessMask and dstAccessMask set to 0"
            d)
    else (true, d).

Definition validateBufferMemoryBarrier (barrier : VkBufferMemoryBarrier)
    (d : t) : bool * t :=
  if negb (m_enabled d) then (true, d)
  else if bb_buffer barrier =? VK_NULL_HANDLE
  then (false,
        push_error "Buffer memory barrier has VK_NULL_HANDLE buffer" d)
  else if bb_size barrier =? 0
  then (true, push_warning "Buffer memory barrier has size of 0" d)
  else (true, d).

Definition validateImageMemoryBarrier (barrier : VkImageMemoryBarrier)
    (d : t) : bool * t :=
  if negb (m_enabled d) then (true, d)
  else if ib_image barrier =? VK_NULL_HANDLE
  then (false,
        push_error "Image memory barrier has VK_NULL_HANDLE image" d)
  else (true, d).

Definition checkSynchronizationHazards
    (srcStage dstStage srcAccess dstAccess : Z) (d : t) : t :=
  if negb (m_enabled d) then d
  else
    (* Check for write-after-write hazards *)
    let d1 :=
      if negb (Z.land srcAccess VK_ACCESS_SHADER_WRITE_BIT =? 0)
         && negb (Z.land dstAccess VK_ACCESS_SHADER_WRITE_BIT =? 0)
      then push_warning "Potential write-after-write hazard detected" d
      else d in
    (* Check for missing stages *)
    if (srcStage =? 0) || (dstStage =? 0)
    then push_error "Pipeline barrier has invalid stage flags" d1
    else d1.

(** *** Stubs: the bodies are empty in the source. *)
Definition captureBufferData (buffer offset size : Z) (d : t) : t := d.
Definition captureImageData (image : Z) (d : t) : t := d.
Definition retrieveTimestamps (timings : gmap string float) (d : t)
  : gmap string float * t := (timings, d).

(** *** Statistics *)

Record DebugStatistics := {
  totalDispatches : Z;
  totalBufferBytes : Z;
  totalImagePixels : Z;
  averageDispatchTimeMs : float;
  dispatchCounts : gmap string Z;
  shaderTimings : gmap string float
}.

(** [duration_cast<microseconds>(endTime - startTime).count() / 1000.0] *)
Definition duration_ms (c : ComputeDispatchInfo) : float :=
  (double_of_Z (Z.quot (endTime c - startTime c) 1000) / 1000)%float.

(** [info.extent.width * info.extent.height * info.extent.depth], a
    [uint32_t] product. *)
Definition pixels (e : VkExtent3D) : Z :=
  wrap32 (wrap32 (width e * height e) * depth e).

(** The body of the loop over the history: [totalTime], then
    [dispatchCounts[name]++] and [shaderTimings[name] += duration], where
    [operator[]] starts a missing entry at zero. *)
Definition account (acc : float * gmap string Z * gmap string float)
    (c : ComputeDispatchInfo) : float * gmap string Z * gmap string float :=
  let duration := duration_ms c in
  let name := shaderName c in
  ((acc.1.1 + duration)%float,
   <[name := wrap64 (default 0 (acc.1.2 !! name) + 1)]> acc.1.2,
   <[name := (default 0%float (acc.2 !! name) + duration)%float]> acc.2).

Definition getStatistics (d : t) : DebugStatistics :=
  let h := m_dispatchHistory d in
  (* Calculate total buffer bytes *)
  let bytes :=
    map_fold (fun _ info acc => wrap64 (acc + bi_size info)) 0
      (m_trackedBuffers d) in
  (* Calculate total image pixels *)
  let px :=
    map_fold (fun _ info acc => wrap64 (acc + pixels (ii_extent info))) 0
      (m_trackedImages d) in
  (* Calculate average dispatch time and counts *)
  match h with
  | [] =>
      {| totalDispatches := Z.of_nat (length h);
         totalBufferBytes := bytes;
         totalImagePixels := px;
         averageDispatchTimeMs := 0%float;
         dispatchCounts := ∅;
         shaderTimings := ∅ |}
  | _ :: _ =>
      let r := fold_left account h (0%float, ∅, ∅) in
      {| totalDispatches := Z.of_nat (length h);
         totalBufferBytes := bytes;
         totalImagePixels := px;
         averageDispatchTimeMs :=
           (r.1.1 / double_of_Z (Z.of_nat (length h)))%float;
         dispatchCounts := r.1.2;
         shaderTimings := r.2 |}
  end.

(** *** Call sequences

    A client drives the debugger through its public members; the
    command buffer being recorded is threaded along. *)
Inductive Op :=
| SetEnabled (enabled : bool)
| ClearMessages
| ValidateShaderModule (shaderModule : Z) (name : string)
| ValidateComputePipeline (pipeline : Z) (name : string)
| TrackBuffer (buffer size : Z) (name : string) (now : Z)
| TrackImage (image : Z) (extent : VkExtent3D) (format : Z) (name : string)
    (now : Z)
| UntrackBuffer (buffer : Z)
| UntrackImage (image : Z)
| BeginDispatch (name : string) (gx gy gz : Z) (now : Z)
| EndDispatch (now : Z)
| InsertTimestamp (markerName : string)
| BeginDebugLabel (labelName : string) (color : Color)
| EndDebugLabel
| InsertDebugLabel (labelName : string) (color : Color)
| ValidateMemoryBarrier (barrier : VkMemoryBarrier)
| ValidateBufferMemoryBarrier (barrier : VkBufferMemoryBarrier)
| ValidateImageMemoryBarrier (barrier : VkImageMemoryBarrier)
| CheckSynchronizationHazards (srcStage dstStage srcAccess dstAccess : Z).

Definition exec (o : Op) (s : t * list Cmd) : t * list Cmd :=
  let '(d, cb) := s in
  match o with
  | SetEnabled b => (setEnabled b d, cb)
  | ClearMessages => (clearMessages d, cb)
  | ValidateShaderModule m n => ((validateShaderModule m n d).2, cb)
  | ValidateComputePipeline p n => ((validateComputePipeline p n d).2, cb)
  | TrackBuffer b sz n now => (trackBuffer b sz n now d, cb)
  | TrackImage i e f n now => (trackImage i e f n now d, cb)
  | UntrackBuffer b => (untrackBuffer b d, cb)
  | UntrackImage i => (untrackImage i d, cb)
  | BeginDispatch n gx gy gz now => (beginDispatch n gx gy gz now d, cb)
  | EndDispatch now => (endDispatch now d, cb)
  | InsertTimestamp n => insertTimestamp n d cb
  | BeginDebugLabel n c => (d, beginDebugLabel n c d cb)
  | EndDebugLabel => (d, endDebugLabel d cb)
  | InsertDebugLabel n c => (d, insertDebugLabel n c d cb)
  | ValidateMemoryBarrier b => ((validateMemoryBarrier b d).2, cb)
  | ValidateBufferMemoryBarrier b => ((validateBufferMemoryBarrier b d).2, cb)
  | ValidateImageMemoryBarrier b => ((validateImageMemoryBarrier b d).2, cb)
  | CheckSynchronizationHazards ss ds sa da =>
      (checkSynchronizationHazards ss ds sa da d, cb)
  end.

Definition run (ops : list Op) (s : t * list Cmd) : t * list Cmd :=
  fold_left (fun s o => exec o s) ops s.

End Debugger.

(** ** GameOfLife3D and the single-use command-buffer helpers *)

Module Engine.

(** *** Results of running host code *)

Inductive Outcome (A : Type) :=
| Done (a : A)                (* returned normally *)
| Throws (what : string)      (* an exception derived from
                                 [std::exception] left the call;
                                 [what] is its [what()] *)
| Undefined.                  (* the behaviour is undefined: by the C++
                                 rules, or by the valid-usage rules of
                                 the Vulkan API *)
Arguments Done {A} a.
Arguments Throws {A} what.
Arguments Undefined {A}.

(** A C array of two elements, indexed by a [uint32_t]. *)
Definition at2 (a : Z * Z) (i : Z) : option Z :=
  if i =? 0 then Some a.1 else if i =? 1 then Some a.2 else None.

Definition put2 (a : Z * Z) (i : Z) (v : Z) : Z * Z :=
  if i =? 0 then (v, a.2) else (a.1, v).

(** *** The members of [GameOfLife3D]

    The [context] and [memoryManager] pointers only lead to the driver,
    which is the [Device] below.

    The constructor gives a value to [currentBuffer] only, and
    [gridState] is a default-constructed vector.  Every other member is
    without a value until [init] assigns it, and reading it before that
    is undefined.  [assigned] lists the members that have been given a
    value; the three sizes are always given theirs together, and so are
    [gridBuffers[i]] and [gridAllocations[i]]. *)
Inductive Member :=
| GridSizes
| ComputePipeline
| PipelineLayout
| GridBuffer (i : Z)
| DescriptorSetLayout
| DescriptorPool
| DescriptorSet (i : Z)
| ComputeShader.

Definition member_eqb (m n : Member) : bool :=
  match m, n with
  | GridSizes, GridSizes => true
  | ComputePipeline, ComputePipeline => true
  | PipelineLayout, PipelineLayout => true
  | GridBuffer i, GridBuffer j => i =? j
  | DescriptorSetLayout, DescriptorSetLayout => true
  | DescriptorPool, DescriptorPool => true
  | DescriptorSet i, DescriptorSet j => i =? j
  | ComputeShader, ComputeShader => true
  | _, _ => false
  end.

Record GameOfLife3D := {
  gridSizeX : Z;
  gridSizeY : Z;
  gridSizeZ : Z;
  computePipeline : Z;
  pipelineLayout : Z;
  gridBuffers : Z * Z;          (* VkBuffer gridBuffers[2] *)
  gridAllocations : Z * Z;
  currentBuffer : Z;
  descriptorSetLayout : Z;
  descriptorPool : Z;
  descriptorSets : Z * Z;       (* VkDescriptorSet descriptorSets[2] *)
  computeShader : Z;
  gridState : list Z;
  assigned : list Member
}.

(** Whether member [m] has been given a value. *)
Definition holds (m : Member) (g : GameOfLife3D) : bool :=
  existsb (member_eqb m) (assigned g).

(** *** The device as the host code sees it

    Handles are handed out from a counter, so live objects have distinct
    handles.  The descriptor store is what [vkUpdateDescriptorSets]
    writes; a command buffer has the state the API gives it on the host
    side and holds what has been recorded into it; [submissions] lists
    what [vkQueueSubmit] received.  Execution on the queue is not
    modelled. *)
Inductive CommandBufferState := Initial | Recording | Executable | Invalid.

Record CommandBuffer := {
  cb_state : CommandBufferState;
  cb_commands : list Cmd
}.

Record Device := {
  nextHandle : Z;
  bufferSizes : gmap Z Z;
  descriptors : gmap (Z * Z) VkDescriptorBufferInfo;
  commandBuffers : gmap Z CommandBuffer;
  submissions : list (list Cmd)
}.

Record World := { device : Device; game : GameOfLife3D }.

(** What the host allocator, the file system and the driver answer
    during [init]. *)
Record InitAnswers := {
  growGrid : option string;         (* when the vector has to grow: [None]
                                       if it gets its storage, [Some what]
                                       if [std::bad_alloc] is thrown, with
                                       the text of its [what()] *)
  shaderFile : option (list Z);     (* bytes of the .spv file, if it opens *)
  codeBuffer : option string;       (* [std::vector<char> code(fileSize)]:
                                       [None] if it gets its storage,
                                       [Some what] if its construction
                                       throws *)
  createShaderModule : VkResult;
  createDescriptorSetLayout : VkResult;
  createPipelineLayout : VkResult;
  createComputePipelines : VkResult;
  createBuffer : Z -> VkResult;               (* per loop index *)
  createDescriptorPool : VkResult;
  allocateDescriptorSets : Z -> VkResult      (* per loop index *)
}.

(** What the driver answers during one [update]. *)
Record StepAnswers := {
  allocateCommandBuffers : VkResult;
  beginCommandBuffer : VkResult;
  endCommandBuffer : VkResult;
  queueSubmit : VkResult;
  queueWaitIdle : VkResult
}.

(** *** Field updates *)

Definition set_dims (sx sy sz : Z) (g : GameOfLife3D) : GameOfLife3D :=
  {| gridSizeX := sx; gridSizeY := sy; gridSizeZ := sz;
     computePipeline := computePipeline g;
     pipelineLayout := pipelineLayout g;
     gridBuffers := gridBuffers g;
     gridAllocations := gridAllocations g;
     currentBuffer := currentBuffer g;
     descriptorSetLayout := descriptorSetLayout g;
     descriptorPool := descriptorPool g;
     descriptorSets := descriptorSets g;
     computeShader := computeShader g;
     gridState := gridState g;
     assigned := assigned g |}.

Definition set_gridState (v : list Z) (g : GameOfLife3D) : GameOfLife3D :=
  {| gridSizeX := gridSizeX g; gridSizeY := gridSizeY g;
     gridSizeZ := gridSizeZ g;
     computePipeline := computePipeline g;
     pipelineLayout := pipelineLayout g;
     gridBuffers := gridBuffers g;
     gridAllocations := gridAllocations g;
     currentBuffer := currentBuffer g;
     descriptorSetLayout := descriptorSetLayout g;
     descriptorPool := descriptorPool g;
     descriptorSets := descriptorSets g;
     computeShader := computeShader g;
     gridState := v;
     assigned := assigned g |}.

Definition set_currentBuffer (v : Z) (g : GameOfLife3D) : GameOfLife3D :=
  {| gridSizeX := gridSizeX g; gridSizeY := gridSizeY g;
     gridSizeZ := gridSizeZ g;
     computePipeline := computePipeline g;
     pipelineLayout := pipelineLayout g;
     gridBuffers := gridBuffers g;
     gridAllocations := gridAllocations g;
     currentBuffer := v;
     descriptorSetLayout := descriptorSetLayout g;
     descriptorPool := descriptorPool g;
     descriptorSets := descriptorSets g;
     computeShader := computeShader g;
     gridState := gridState g;
     assigned := assigned g |}.

(** The pipeline objects made by [createComputePipeline]. *)
Definition set_pipeline (shader dsl layout pipeline : Z) (g : GameOfLife3D)
  : GameOfLife3D :=
  {| gridSizeX := gridSizeX g; gridSizeY := gridSizeY g;
     gridSizeZ := gridSizeZ g;
     computePipeline := pipeline;
     pipelineLayout := layout;
     gridBuffers := gridBuffers g;
     gridAllocations := gridAllocations g;
     currentBuffer := currentBuffer g;
     descriptorSetLayout := dsl;
     descriptorPool := descriptorPool g;
     descriptorSets := descriptorSets g;
     computeShader := shader;
     gridState := gridState g;
     assigned := assigned g |}.

Definition set_buffers (bs allocs : Z * Z) (g : GameOfLife3D)
  : GameOfLife3D :=
  {| gridSizeX := gridSizeX g; gridSizeY := gridSizeY g;
     gridSizeZ := gridSizeZ g;
     computePipeline := computePipeline g;
     pipelineLayout := pipelineLayout g;
     gridBuffers := bs;
     gridAllocations := allocs;
     currentBuffer := currentBuffer g;
     descriptorSetLayout := descriptorSetLayout g;
     descriptorPool := descriptorPool g;
     descriptorSets := descriptorSets g;
     computeShader := computeShader g;
     gridState := gridState g;
     assigned := assigned g |}.

Definition set_descriptors (pool : Z) (sets : Z * Z) (g : GameOfLife3D)
  : GameOfLife3D :=
  {| gridSizeX := gridSizeX g; gridSizeY := gridSizeY g;
     gridSizeZ := gridSizeZ g;
     computePipeline := computePipeline g;
     pipelineLayout := pipelineLayout g;
     gridBuffers := gridBuffers g;
     gridAllocations := gridAllocations g;
     currentBuffer := currentBuffer g;
     descriptorSetLayout := descriptorSetLayout g;
     descriptorPool := pool;
     descriptorSets := sets;
     computeShader := computeShader g;
     gridState := gridState g;
     assigned := assigned g |}.

Definition set_assigned (v : list Member) (g : GameOfLife3D) : GameOfLife3D :=
  {| gridSizeX := gridSizeX g; gridSizeY := gridSizeY g;
     gridSizeZ := gridSizeZ g;
     computePipeline := computePipeline g;
     pipelineLayout := pipelineLayout g;
     gridBuffers := gridBuffers g;
     gridAllocations := gridAllocations g;
     currentBuffer := currentBuffer g;
     descriptorSetLayout := descriptorSetLayout g;
     descriptorPool := descriptorPool g;
     descriptorSets := descriptorSets g;
     computeShader := computeShader g;
     gridState := gridState g;
     assigned := v |}.

(** Member [m] has just been given a value. *)
Definition assign (m : Member) (g : GameOfLife3D) : GameOfLife3D :=
  set_assigned (m :: assigned g) g.

Definition with_game (f : GameOfLife3D -> GameOfLife3D) (w : World) : World :=
  {| device := device w; game := f (game w) |}.

Definition with_device (f : Device -> Device) (w : World) : World :=
  {| device := f (device w); game := game w |}.

(** *** A state-and-exception monad over [World] *)

Definition M (A : Type) : Type := World -> Outcome A * World.

Definition ret {A} (a : A) : M A := fun w => (Done a, w).

Definition bind {A B} (m : M A) (k : A -> M B) : M B :=
  fun w =>
    match m w with
    | (Done a, w') => k a w'
    | (Throws s, w') => (Throws s, w')
    | (Undefined, w') => (Undefined, w')
    end.

Definition throw {A} (what : string) : M A := fun w => (Throws what, w).
Definition undefined {A} : M A := fun w => (Undefined, w).
Definition get : M World := fun w => (Done w, w).
Definition modify (f : World -> World) : M unit := fun w => (Done tt, f w).

Declare Scope host_scope.
Delimit Scope host_scope with host.
Notation "x <- m ;; k" := (bind m (fun x => k))
  (at level 100, m at next level, right associativity) : host_scope.
Notation "m ;; k" := (bind m (fun _ => k))
  (at level 100, right associativity) : host_scope.
Local Open Scope host_scope.

(** [if (r != VK_SUCCESS) throw std::runtime_error(what)] *)
Definition check (r : VkResult) (what : string) : M unit :=
  if failed r then throw what else ret tt.

(** A creation call that succeeds returns a fresh handle. *)
Definition fresh : M Z :=
  fun w =>
    (Done (nextHandle (device w)),
     with_device (fun d =>
       {| nextHandle := nextHandle d + 1;
          bufferSizes := bufferSizes d;
          descriptors := descriptors d;
          commandBuffers := commandBuffers d;
          submissions := submissions d |}) w).

Definition the_game : M GameOfLife3D := fun w => (Done (game w), w).

Definition update_game (f : GameOfLife3D -> GameOfLife3D) : M unit :=
  modify (with_game f).

(** The code is about to read the members [ms]: undefined unless each
    of them has been given a value. *)
Definition reading (ms : list Member) : M unit :=
  g <- the_game;;
  if forallb (fun m => holds m g) ms then ret tt else undefined.

(** [vmaCreateBuffer] registers the new buffer with its byte size. *)
Definition register_buffer (b size : Z) : M unit :=
  modify (with_device (fun d =>
    {| nextHandle := nextHandle d;
       bufferSizes := <[b := size]> (bufferSizes d);
       descriptors := descriptors d;
       commandBuffers := commandBuffers d;
       submissions := submissions d |})).

(** One [VkWriteDescriptorSet] with [descriptorCount = 1] and
    [dstArrayElement = 0]. *)
Definition write_descriptor (set binding : Z) (info : VkDescriptorBufferInfo)
    (d : Device) : Device :=
  {| nextHandle := nextHandle d;
     bufferSizes := bufferSizes d;
     descriptors := <[(set, binding) := info]> (descriptors d);
     commandBuffers := commandBuffers d;
     submissions := submissions d |}.

Definition set_commandBuffers (v : gmap Z CommandBuffer) (d : Device)
  : Device :=
  {| nextHandle := nextHandle d;
     bufferSizes := bufferSizes d;
     descriptors := descriptors d;
     commandBuffers := v;
     submissions := submissions d |}.

Definition set_submissions (v : list (list Cmd)) (d : Device) : Device :=
  {| nextHandle := nextHandle d;
     bufferSizes := bufferSizes d;
     descriptors := descriptors d;
     commandBuffers := commandBuffers d;
     submissions := v |}.

(** The command buffer a handle names.  Passing the driver a handle that
    names no live command buffer (the null handle among them) is outside
    the valid usage of every call below: undefined. *)
Definition command_buffer (cmdBuffer : Z) : M CommandBuffer :=
  fun w =>
    match commandBuffers (device w) !! cmdBuffer with
    | Some c => (Done c, w)
    | None => (Undefined, w)
    end.

Definition put_command_buffer (cmdBuffer : Z) (c : CommandBuffer) : M unit :=
  modify (with_device (fun d =>
    set_commandBuffers (<[cmdBuffer := c]> (commandBuffers d)) d)).

(** A [vkCmd...] call appends to the command buffer it names, which must
    be in the recording state. *)
Definition record (cmdBuffer : Z) (cs : list Cmd) : M unit :=
  c <- command_buffer cmdBuffer;;
  match cb_state c with
  | Recording =>
      put_command_buffer cmdBuffer
        {| cb_state := Recording; cb_commands := cb_commands c ++ cs |}
  | _ => undefined
  end.

(** *** GameOfLife3D.cpp *)

(** The constructor initialises [currentBuffer] only; [gridState] is a
    default-constructed vector and no other member has a value: what the
    storage held is not to be read. *)
Definition construct (storage : GameOfLife3D) : GameOfLife3D :=
  set_assigned [] (set_gridState [] (set_currentBuffer 0 storage)).

Definition createComputePipeline (a : InitAnswers) : M unit :=
  (* Load compute shader *)
  match shaderFile a with
  | None => throw "Failed to open compute shader file"
  | Some code =>
    match codeBuffer a with
    | Some what => throw what
    | None =>
      (* Create shader module *)
      check (createShaderModule a) "Failed to create compute shader module";;
      shader <- fresh;;
      update_game (fun g =>
        assign ComputeShader
          (set_pipeline shader (descriptorSetLayout g) (pipelineLayout g)
             (computePipeline g) g));;
      (* Create descriptor set layout *)
      check (createDescriptorSetLayout a)
        "Failed to create descriptor set layout";;
      dsl <- fresh;;
      update_game (fun g =>
        assign DescriptorSetLayout
          (set_pipeline (computeShader g) dsl (pipelineLayout g)
             (computePipeline g) g));;
      (* Create pipeline layout *)
      reading [DescriptorSetLayout];;
      check (createPipelineLayout a) "Failed to create pipeline layout";;
      layout <- fresh;;
      update_game (fun g =>
        assign PipelineLayout
          (set_pipeline (computeShader g) (descriptorSetLayout g) layout
             (computePipeline g) g));;
      (* Create compute pipeline *)
      reading [ComputeShader; PipelineLayout];;
      check (createComputePipelines a) "Failed to create compute pipeline";;
      pipeline <- fresh;;
      update_game (fun g =>
        assign ComputePipeline
          (set_pipeline (computeShader g) (descriptorSetLayout g)
             (pipelineLayout g) pipeline g))
    end
  end.

(** The body of the loop of [createBuffers] at index [i]. *)
Definition createBuffers_body (a : InitAnswers) (i : Z) : M unit :=
  check (createBuffer a i) "Failed to create grid buffer";;
  g <- the_game;;
  b <- fresh;;
  al <- fresh;;
  (* bufferInfo.size = gridState.size() * sizeof(uint32_t) *)
  register_buffer b (wrap64 (Z.of_nat (length (gridState g)) * 4));;
  update_game (fun g =>
    assign (GridBuffer i)
      (set_buffers (put2 (gridBuffers g) i b) (put2 (gridAllocations g) i al)
         g)).

Definition createBuffers (a : InitAnswers) : M unit :=
  createBuffers_body a 0;; createBuffers_body a 1.

(** The body of the loop of [createDescriptorSets] at index [i]. *)
Definition createDescriptorSets_body (a : InitAnswers) (i : Z) : M unit :=
  check (allocateDescriptorSets a i) "Failed to allocate descriptor set";;
  ds <- fresh;;
  update_game (fun g =>
    assign (DescriptorSet i)
      (set_descriptors (descriptorPool g) (put2 (descriptorSets g) i ds) g));;
  (* Update descriptor set *)
  reading [GridBuffer i; GridBuffer (1 - i); DescriptorSet i];;
  g <- the_game;;
  match at2 (gridBuffers g) i, at2 (gridBuffers g) (1 - i),
        at2 (descriptorSets g) i with
  | Some b0, Some b1, Some dstSet =>
      modify (with_device (fun d =>
        write_descriptor dstSet 1
          {| dbi_buffer := b1; dbi_offset := 0; dbi_range := VK_WHOLE_SIZE |}
          (write_descriptor dstSet 0
             {| dbi_buffer := b0; dbi_offset := 0;
                dbi_range := VK_WHOLE_SIZE |} d)))
  | _, _, _ => undefined
  end.

Definition createDescriptorSets (a : InitAnswers) : M unit :=
  (* Create descriptor pool *)
  check (createDescriptorPool a) "Failed to create descriptor pool";;
  pool <- fresh;;
  update_game (fun g =>
    assign DescriptorPool (set_descriptors pool (descriptorSets g) g));;
  (* Allocate descriptor sets *)
  reading [DescriptorPool; DescriptorSetLayout];;
  createDescriptorSets_body a 0;; createDescriptorSets_body a 1.

(** [gridState.resize(totalCells, 0)].  Only a vector that has to grow
    asks for storage, and only then can [std::bad_alloc] leave the call;
    the vector is then as it was. *)
Definition has_to_grow (v : list Z) (size : nat) : bool :=
  (length v <? size)%nat.
Arguments has_to_grow : simpl never.

Definition resizeGrid (a : InitAnswers) (totalCells : nat) : M unit :=
  g <- the_game;;
  match growGrid a with
  | Some what =>
      if has_to_grow (gridState g) totalCells then throw what
      else update_game (set_gridState (resize totalCells 0 (gridState g)))
  | None => update_game (set_gridState (resize totalCells 0 (gridState g)))
  end.

Definition init (a : InitAnswers) (sx sy sz : Z) : M unit :=
  update_game (fun g => assign GridSizes (set_dims sx sy sz g));;
  (* Initialize grid state: size_t totalCells = gridSizeX * gridSizeY *
     gridSizeZ, a product of [uint32_t]s *)
  resizeGrid a (Z.to_nat (wrap32 (wrap32 (sx * sy) * sz)));;
  createComputePipeline a;;
  createBuffers a;;
  createDescriptorSets a.

(** [(gridSize + 7) / 8] on [uint32_t]. *)
Definition groupCount (gridSize : Z) : Z := wrap32 (gridSize + 7) / 8.

Definition recordComputeCommands (cmdBuffer : Z) : M unit :=
  g <- the_game;;
  reading [ComputePipeline; PipelineLayout; DescriptorSet (currentBuffer g);
           GridSizes];;
  match at2 (descriptorSets g) (currentBuffer g) with
  | None => undefined   (* descriptorSets[currentBuffer] out of the array *)
  | Some ds =>
      record cmdBuffer
        [ (* Bind compute pipeline *)
          CmdBindPipeline (computePipeline g);
          (* Bind descriptor set *)
          CmdBindDescriptorSets (pipelineLayout g) 0 [ds];
          (* Push constants for grid dimensions *)
          CmdPushConstants (pipelineLayout g) 0
            [gridSizeX g; gridSizeY g; gridSizeZ g];
          (* Dispatch compute shader *)
          CmdDispatch (groupCount (gridSizeX g)) (groupCount (gridSizeY g))
            (groupCount (gridSizeZ g)) ]
  end.

Definition swapBuffers (g : GameOfLife3D) : GameOfLife3D :=
  set_currentBuffer (wrap32 (1 - currentBuffer g)) g.

(** [size_t index = x + y * gridSizeX + z * gridSizeX * gridSizeY], every
    operation on [uint32_t]. *)
Definition cellIndex (g : GameOfLife3D) (x y z : Z) : Z :=
  wrap32 (wrap32 (x + wrap32 (y * gridSizeX g))
          + wrap32 (wrap32 (z * gridSizeX g) * gridSizeY g)).

Definition setCell (x y z state : Z) (g : GameOfLife3D)
  : Outcome GameOfLife3D :=
  if negb (holds GridSizes g) then Undefined   (* the sizes have no value *)
  else if (gridSizeX g <=? x) || (gridSizeY g <=? y) || (gridSizeZ g <=? z)
  then Done g
  else
    let index := cellIndex g x y z in
    if index <? Z.of_nat (length (gridState g))
    then Done (set_gridState (<[Z.to_nat index := state]> (gridState g)) g)
    else Undefined.   (* operator[] past the end of the vector *)

Definition reset (g : GameOfLife3D) : GameOfLife3D :=
  set_gridState (replicate (length (gridState g)) 0) g.

Definition getGridState (g : GameOfLife3D) : list Z := gridState g.

(** *** The driver calls of one step

    Each call returns the [VkResult] the driver answers, and is undefined
    where the valid usage of the API is not met.  A failed
    [vkAllocateCommandBuffers] hands back a null handle, a successful one
    a fresh command buffer in the initial state.  A successful
    [vkBeginCommandBuffer] puts the buffer into the recording state, a
    failed one leaves it as it was.  [vkEndCommandBuffer] must find it
    recording and makes it executable, or invalid when it fails.
    [vkQueueSubmit] must find it executable, and the queue takes the
    commands of a submission it accepts.  [vkFreeCommandBuffers] accepts
    the null handle. *)
Definition vkAllocateCommandBuffers (r : VkResult) : M (VkResult * Z) :=
  if failed r then ret (r, VK_NULL_HANDLE)
  else
    cb <- fresh;;
    put_command_buffer cb {| cb_state := Initial; cb_commands := [] |};;
    ret (r, cb).

Definition vkBeginCommandBuffer (r : VkResult) (cmdBuffer : Z) : M VkResult :=
  c <- command_buffer cmdBuffer;;
  match cb_state c with
  | Recording => undefined
  | _ =>
      if failed r then ret r
      else
        put_command_buffer cmdBuffer
          {| cb_state := Recording; cb_commands := [] |};;
        ret r
  end.

Definition vkEndCommandBuffer (r : VkResult) (cmdBuffer : Z) : M VkResult :=
  c <- command_buffer cmdBuffer;;
  match cb_state c with
  | Recording =>
      put_command_buffer cmdBuffer
        {| cb_state := if failed r then Invalid else Executable;
           cb_commands := cb_commands c |};;
      ret r
  | _ => undefined
  end.

Definition vkQueueSubmit (r : VkResult) (cmdBuffer : Z) : M VkResult :=
  c <- command_buffer cmdBuffer;;
  match cb_state c with
  | Executable =>
      (if failed r then ret tt
       else modify (with_device (fun d =>
              set_submissions (submissions d ++ [cb_commands c]) d)));;
      ret r
  | _ => undefined
  end.

Definition vkQueueWaitIdle (r : VkResult) : M VkResult := ret r.

Definition vkFreeCommandBuffers (cmdBuffer : Z) : M unit :=
  if cmdBuffer =? VK_NULL_HANDLE then ret tt
  else
    _ <- command_buffer cmdBuffer;;
    modify (with_device (fun d =>
      set_commandBuffers (delete cmdBuffer (commandBuffers d)) d)).

(** *** VulkanContext.cpp: single-use command buffers

    No [VkResult] is looked at. *)
Definition beginSingleTimeCommands (a : StepAnswers) : M Z :=
  rc <- vkAllocateCommandBuffers (allocateCommandBuffers a);;
  _ <- vkBeginCommandBuffer (beginCommandBuffer a) rc.2;;
  ret rc.2.

Definition endSingleTimeCommands (a : StepAnswers) (cmdBuffer : Z) : M unit :=
  _ <- vkEndCommandBuffer (endCommandBuffer a) cmdBuffer;;
  _ <- vkQueueSubmit (queueSubmit a) cmdBuffer;;
  _ <- vkQueueWaitIdle (queueWaitIdle a);;
  vkFreeCommandBuffers cmdBuffer.

Definition update (a : StepAnswers) : M unit :=
  (* Record and submit compute commands *)
  cmdBuffer <- beginSingleTimeCommands a;;
  recordComputeCommands cmdBuffer;;
  endSingleTimeCommands a cmdBuffer;;
  (* Swap buffers for next frame *)
  update_game swapBuffers.

(** *** Call sequences on an engine *)

Inductive Call :=
| Update (a : StepAnswers)
| SetCell (x y z state : Z)
| Reset.

Definition call (c : Call) : M unit :=
  match c with
  | Update a => update a
  | SetCell x y z s =>
      g <- the_game;;
      match setCell x y z s g with
      | Done g' => update_game (fun _ => g')
      | Throws what => throw what
      | Undefined => undefined
      end
  | Reset => update_game reset
  end.

Fixpoint calls (cs : list Call) : M unit :=
  match cs with
  | [] => ret tt
  | c :: cs' => call c;; calls cs'
  end.

(** [n] consecutive steps, one set of driver answers per step. *)
Definition steps (answers : list StepAnswers) : M unit :=
  calls (map Update answers).

End Engine.

(** ** VulkanContext and VulkanMemoryManager *)

Module Context.
Import Engine.

Definition VK_QUEUE_COMPUTE_BIT : Z := 2.
Definition VK_EXT_DEBUG_UTILS_EXTENSION_NAME : string := "VK_EXT_debug_utils".
Definition VK_KHR_SWAPCHAIN_EXTENSION_NAME : string := "VK_KHR_swapchain".

(** The members of [VulkanContext]; the two name lists are constants of
    the class. *)
Record VulkanContext := {
  instance : Z;
  physicalDevice : Z;
  device : Z;
  commandPool : Z;
  computeQueueFamily : Z
}.

Definition validationLayers : list string := ["VK_LAYER_KHRONOS_validation"].
Definition deviceExtensions : list string := [VK_KHR_SWAPCHAIN_EXTENSION_NAME].

(** What the loader and the driver answer while a context is set up: the
    instance layers on offer, the physical devices with the flags of their
    queue families, and the result and handle of each creation call. *)
Record ContextAnswers := {
  availableLayers : list string;
  createInstanceResult : VkResult;
  instanceHandle : Z;
  physicalDevices : list (Z * list Z);
  createDeviceResult : VkResult;
  deviceHandle : Z;
  createCommandPoolResult : VkResult;
  commandPoolHandle : Z
}.

(** What [vkCreateInstance] and [vkCreateDevice] are asked for. *)
Record InstanceRequest := {
  enabledExtensions : list string;
  enabledLayers : list string
}.

Definition construct : VulkanContext :=
  {| instance := VK_NULL_HANDLE; physicalDevice := VK_NULL_HANDLE;
     device := VK_NULL_HANDLE; commandPool := VK_NULL_HANDLE;
     computeQueueFamily := 0 |}.

(** The inner loop of [checkValidationLayerSupport]: [strcmp] against
    each available layer, leaving at the first match. *)
Fixpoint layerFound (layerName : string) (available : list string) : bool :=
  match available with
  | [] => false
  | layerProperties :: rest =>
      if String.eqb layerName layerProperties then true
      else layerFound layerName rest
  end.

(** The outer loop, returning [false] at the first layer not found. *)
Fixpoint allLayersFound (layers available : list string) : bool :=
  match layers with
  | [] => true
  | layerName :: rest =>
      if negb (layerFound layerName available) then false
      else allLayersFound rest available
  end.

Definition checkValidationLayerSupport (a : ContextAnswers) : bool :=
  allLayersFound validationLayers (availableLayers a).

(** [glfwExtensionCount] is 0 and [glfwExtensions] null, so the vector
    starts empty. *)
Definition getRequiredExtensions (a : ContextAnswers) : list string :=
  let extensions := [] in
  if checkValidationLayerSupport a
  then extensions ++ [VK_EXT_DEBUG_UTILS_EXTENSION_NAME]
  else extensions.

(** The create-info [createInstance] fills in. *)
Definition instanceRequest (a : ContextAnswers) : InstanceRequest :=
  {| enabledExtensions := getRequiredExtensions a;
     enabledLayers :=
       if checkValidationLayerSupport a then validationLayers else [] |}.

(** A creation call that fails leaves the handle it was to fill as it
    was. *)
Definition createInstance (a : ContextAnswers) (c : VulkanContext)
  : Outcome unit * VulkanContext :=
  if failed (createInstanceResult a)
  then (Throws "Failed to create Vulkan instance", c)
  else (Done tt,
        {| instance := instanceHandle a;
           physicalDevice := physicalDevice c; device := device c;
           commandPool := commandPool c;
           computeQueueFamily := computeQueueFamily c |}).

(** The loop over the queue families of one device, from index [i] on.
    The index is a [uint32_t] below the family count, so it does not
    wrap. *)
Fixpoint findComputeFamily (queueFamilies : list Z) (i : Z) : option Z :=
  match queueFamilies with
  | [] => None
  | queueFlags :: rest =>
      if negb (Z.land queueFlags VK_QUEUE_COMPUTE_BIT =? 0) then Some i
      else findComputeFamily rest (i + 1)
  end.

(** The loop over the devices. *)
Fixpoint findComputeDevice (devices : list (Z * list Z)) : option (Z * Z) :=
  match devices with
  | [] => None
  | (dev, queueFamilies) :: rest =>
      match findComputeFamily queueFamilies 0 with
      | Some i => Some (dev, i)
      | None => findComputeDevice rest
      end
  end.

Definition pickPhysicalDevice (a : ContextAnswers) (c : VulkanContext)
  : Outcome unit * VulkanContext :=
  if Z.of_nat (length (physicalDevices a)) =? 0
  then (Throws "Failed to find GPUs with Vulkan support", c)
  else
    (* Find a device with compute queue support *)
    match findComputeDevice (physicalDevices a) with
    | Some (dev, i) =>
        (Done tt,
         {| instance := instance c;
            physicalDevice := dev; device := device c;
            commandPool := commandPool c;
            computeQueueFamily := i |})
    | None => (Throws "Failed to find a suitable GPU", c)
    end.

Definition createLogicalDevice (a : ContextAnswers) (c : VulkanContext)
  : Outcome unit * VulkanContext :=
  if failed (createDeviceResult a)
  then (Throws "Failed to create logical device", c)
  else (Done tt,
        {| instance := instance c;
           physicalDevice := physicalDevice c; device := deviceHandle a;
           commandPool := commandPool c;
           computeQueueFamily := computeQueueFamily c |}).

Definition createCommandPool (a : ContextAnswers) (c : VulkanContext)
  : Outcome unit * VulkanContext :=
  if failed (createCommandPoolResult a)
  then (Throws "Failed to create command pool", c)
  else (Done tt,
        {| instance := instance c;
           physicalDevice := physicalDevice c; device := device c;
           commandPool := commandPoolHandle a;
           computeQueueFamily := computeQueueFamily c |}).

(** Run [k] after [m] unless [m] threw. *)
Definition andThen (m k : VulkanContext -> Outcome unit * VulkanContext)
    (c : VulkanContext) : Outcome unit * VulkanContext :=
  match m c with
  | (Done _, c') => k c'
  | r => r
  end.

Definition initVulkan (a : ContextAnswers)
  : VulkanContext -> Outcome unit * VulkanContext :=
  andThen (createInstance a)
    (andThen (pickPhysicalDevice a)
       (andThen (createLogicalDevice a) (createCommandPool a))).

(** The objects a destructor hands back to the driver, in call order. *)
Inductive Release :=
| DestroyCommandPool (device pool : Z)
| DestroyDevice (device : Z)
| DestroyInstance (instance : Z)
| DestroyAllocator (allocator : Z)
| DestroyPipeline (device pipeline : Z)
| DestroyPipelineLayout (device layout : Z)
| DestroyDescriptorSetLayout (device layout : Z)
| DestroyDescriptorPool (device pool : Z)
| DestroyShaderModule (device shader : Z)
| DestroyBuffer (allocator buffer allocation : Z).

(** [~VulkanContext]: each object is released only if its handle is not
    null. *)
Definition destroy (c : VulkanContext) : list Release :=
  (if negb (commandPool c =? VK_NULL_HANDLE)
   then [DestroyCommandPool (device c) (commandPool c)] else [])
  ++ (if negb (device c =? VK_NULL_HANDLE)
      then [DestroyDevice (device c)] else [])
  ++ (if negb (instance c =? VK_NULL_HANDLE)
      then [DestroyInstance (instance c)] else []).

(** [VulkanMemoryManager]: its constructor creates the allocator or
    throws; its destructor destroys it. *)
Definition createAllocator (result : VkResult) (handle : Z) : Outcome Z :=
  if failed result then Throws "Failed to create VMA allocator"
  else Done handle.

Definition destroyAllocator (allocator : Z) : list Release :=
  [DestroyAllocator allocator].

(** [~GameOfLife3D] releases every object, whatever its handle.  It
    reads the five pipeline and descriptor members and both elements of
    [gridBuffers] and [gridAllocations]: undefined unless [init] got far
    enough to give each of them a value. *)
Definition destroyGame (c : VulkanContext) (allocator : Z) (g : GameOfLife3D)
  : Outcome (list Release) :=
  if forallb (fun m => holds m g)
       [ComputePipeline; PipelineLayout; DescriptorSetLayout; DescriptorPool;
        ComputeShader; GridBuffer 0; GridBuffer 1]
  then
    Done
      [ DestroyPipeline (device c) (computePipeline g);
        DestroyPipelineLayout (device c) (pipelineLayout g);
        DestroyDescriptorSetLayout (device c) (descriptorSetLayout g);
        DestroyDescriptorPool (device c) (descriptorPool g);
        DestroyShaderModule (device c) (computeShader g);
        DestroyBuffer allocator (gridBuffers g).1 (gridAllocations g).1;
        DestroyBuffer allocator (gridBuffers g).2 (gridAllocations g).2 ]
  else Undefined.

End Context.

(** ** Text written to the standard streams *)

Module Text.

(** [std::endl] *)
Definition endl : string := String (Ascii.ascii_of_nat 10) "".

(** ["\033[2J\033[1;1H"]: clear the screen, cursor to the top left. *)
Definition clearScreen : string :=
  String (Ascii.ascii_of_nat 27) "[2J"
  +:+ String (Ascii.ascii_of_nat 27) "[1;1H".

(** [operator<<] on an integer: its decimal digits. *)
Definition decimal (n : Z) : string := pretty n.

(** The pieces written to a stream, one after the other. *)
Definition written (pieces : list string) : string :=
  foldr String.append "" pieces.

(** [std::setw(n)] before an item: blanks on the left up to width [n],
    nothing cut off. *)
Definition setw (n : nat) (item : string) : string :=
  String.concat "" (replicate (n - String.length item) " ") +:+ item.

End Text.

(** ** ComputeShaderDebugger: printDispatchHistory *)

Module Report.
Import Debugger Engine Text.

(** The line printed for the record at index [i].  How the stream formats
    a [double] is the library's business: [show_double] stands for it. *)
Definition dispatchLine (show_double : float -> string) (i : nat)
    (dispatch : ComputeDispatchInfo) : string :=
  setw 3 (decimal (Z.of_nat i)) +:+ ": " +:+ shaderName dispatch
  +:+ " [" +:+ decimal (groupCountX dispatch) +:+ ","
  +:+ decimal (groupCountY dispatch) +:+ ","
  +:+ decimal (groupCountZ dispatch) +:+ "]"
  +:+ " - " +:+ show_double (duration_ms dispatch) +:+ " ms" +:+ endl.

(** The loop [for (size_t i = start; i < size; ++i)], reading
    [m_dispatchHistory[i]]. *)
Fixpoint printDispatches (show_double : float -> string)
    (h : list ComputeDispatchInfo) (i count : nat) : Outcome string :=
  match count with
  | O => Done ""
  | S count' =>
      match h !! i with
      | None => Undefined   (* operator[] past the end of the vector *)
      | Some dispatch =>
          match printDispatches show_double h (S i) count' with
          | Done rest => Done (dispatchLine show_double i dispatch +:+ rest)
          | other => other
          end
      end
  end.

Definition printDispatchHistory (show_double : float -> string) (d : t)
  : Outcome string :=
  let h := m_dispatchHistory d in
  let size := length h in
  let start := if (10 <? size)%nat then (size - 10)%nat else O in
  match printDispatches show_double h start (size - start) with
  | Done lines => Done ("=== Dispatch History (last 10) ===" +:+ endl +:+ lines)
  | other => other
  end.

End Report.

(** ** main.cpp *)

Module App.
Import Engine Context Text.

Definition GRID_SIZE : Z := 32.

(** The glyph for one cell: [grid[index] ? filled : empty]. *)
Definition glyph (cell : Z) : string := if cell =? 0 then "□ " else "■ ".

(** [uint32_t index = z * size * size + y * size + x] *)
Definition printIndex (size x y z : Z) : Z :=
  wrap32 (wrap32 (wrap32 (wrap32 (z * size) * size) + wrap32 (y * size)) + x).

(** A [for] loop that prints: the texts of the iterations, one after the
    other. *)
Fixpoint printEach (range : list Z) (body : Z -> Outcome string)
  : Outcome string :=
  match range with
  | [] => Done ""
  | i :: rest =>
      match body i with
      | Done text =>
          match printEach rest body with
          | Done more => Done (text +:+ more)
          | other => other
          end
      | other => other
      end
  end.

(** Append [suffix] to what was printed. *)
Definition followedBy (suffix : string) (o : Outcome string) : Outcome string :=
  match o with
  | Done text => Done (text +:+ suffix)
  | other => other
  end.

Definition printGrid (grid : list Z) (size : Z) : Outcome string :=
  printEach (seqZ 0 size) (fun z =>
    match
      printEach (seqZ 0 size) (fun y =>
        followedBy endl
          (printEach (seqZ 0 size) (fun x =>
             let index := printIndex size x y z in
             match grid !! Z.to_nat index with
             | Some cell => Done (glyph cell)
             | None => Undefined   (* operator[] past the end of the vector *)
             end)))
    with
    | Done rows =>
        Done ("Layer " +:+ decimal z +:+ ":" +:+ endl +:+ rows +:+ endl)
    | other => other
    end).

(** Everything outside the program that [main] depends on. *)
Record MainAnswers := {
  contextAnswers : ContextAnswers;
  allocatorResult : VkResult;
  allocatorHandle : Z;
  gameStorage : GameOfLife3D;        (* what the storage of [game] held *)
  initAnswers : InitAnswers;
  stepAnswers : Z -> StepAnswers;    (* per iteration of the loop *)
  driver : Device
}.

(** What a run of [main] leaves: the value returned, both streams, and
    what the destructors handed back to the driver, in order. *)
Record MainRun := {
  exitCode : Z;
  stdout : string;
  stderr : string;
  released : list Release
}.

(** [catch (const std::exception& e)] after the destructors of the
    objects already constructed have run. *)
Definition caught (what : string) (out : string) (rel : list Release)
  : MainRun :=
  {| exitCode := -1; stdout := out; stderr := what +:+ endl;
     released := rel |}.

(** Create a simple glider pattern *)
Definition seed (g : GameOfLife3D) : Outcome GameOfLife3D :=
  match setCell 0 0 0 1 g with
  | Done g1 =>
    match setCell 1 0 0 1 g1 with
    | Done g2 =>
      match setCell 2 0 0 1 g2 with
      | Done g3 =>
        match setCell 1 1 0 1 g3 with
        | Done g4 =>
          match setCell 2 1 0 1 g4 with
          | Done g5 => setCell 2 2 0 1 g5
          | other => other
          end
        | other => other
        end
      | other => other
      end
    | other => other
    end
  | other => other
  end.

(** The main simulation loop from iteration [i] on, [count] iterations
    left, returning how it ended, the engine and what was printed; the
    pause between iterations leaves no trace. *)
Fixpoint simulate (a : MainAnswers) (i : Z) (count : nat) (w : World)
    (out : string) : Outcome unit * World * string :=
  match count with
  | O => (Done tt, w, out)
  | S count' =>
      let out1 := out +:+ clearScreen +:+ "Step " +:+ decimal i +:+ endl in
      (* Update simulation *)
      match update (stepAnswers a i) w with
      | (Done _, w') =>
          (* Print current state *)
          match printGrid (getGridState (game w')) GRID_SIZE with
          | Done text => simulate a (i + 1) count' w' (out1 +:+ text)
          | Throws what => (Throws what, w', out1)
          | Undefined => (Undefined, w', out1)
          end
      | (other, w') => (other, w', out1)
      end
  end.

(** What the destructors of [game], [memoryManager] and [context] hand
    back, in that order, when the three objects go out of scope. *)
Definition unwind (context : VulkanContext) (allocator : Z)
    (g : GameOfLife3D) : Outcome (list Release) :=
  match destroyGame context allocator g with
  | Done gone =>
      Done (gone ++ destroyAllocator allocator ++ destroy context)
  | Throws what => Throws what
  | Undefined => Undefined
  end.

(** An exception leaves the [try] block while [game] exists: the three
    destructors run, then the handler. *)
Definition unwinding (what out : string) (context : VulkanContext)
    (allocator : Z) (g : GameOfLife3D) : Outcome MainRun :=
  match unwind context allocator g with
  | Done rel => Done (caught what out rel)
  | _ => Undefined
  end.

Definition main (a : MainAnswers) : Outcome MainRun :=
  (* Initialize Vulkan context *)
  match initVulkan (contextAnswers a) Context.construct with
  | (Undefined, _) => Undefined
  | (Throws what, context) => Done (caught what "" (destroy context))
  | (Done _, context) =>
    (* Initialize memory manager *)
    match createAllocator (allocatorResult a) (allocatorHandle a) with
    | Undefined => Undefined
    | Throws what => Done (caught what "" (destroy context))
    | Done allocator =>
      (* Create and initialize Game of Life *)
      let game0 := Engine.construct (gameStorage a) in
      match init (initAnswers a) GRID_SIZE GRID_SIZE GRID_SIZE
              {| Engine.device := driver a; game := game0 |} with
      | (Undefined, _) => Undefined
      | (Throws what, w) => unwinding what "" context allocator (game w)
      | (Done _, w) =>
        match seed (game w) with
        | Undefined => Undefined
        | Throws what => unwinding what "" context allocator (game w)
        | Done seeded =>
          match simulate a 0 100
                  {| Engine.device := Engine.device w; game := seeded |} ""
          with
          | (Undefined, _, _) => Undefined
          | (Throws what, w', out) =>
              unwinding what out context allocator (game w')
          | (Done _, w', out) =>
              match unwind context allocator (game w') with
              | Done rel =>
                  Done {| exitCode := 0; stdout := out; stderr := "";
                          released := rel |}
              | _ => Undefined
              end
          end
        end
      end
    end
  end.

End App.

(** * Example states and stated properties *)

Module DebuggerSpec.
Import Debugger.

(** Example states used to exercise the theorems below. *)
Definition plain_driver : DriverAnswers :=
  {| hasBeginLabel := true; hasEndLabel := true; hasInsertLabel := true;
     queryPoolResult := VK_SUCCESS; queryPoolHandle := 41 |}.

Definition fresh_debugger : t := construct (0, 0, 0) plain_driver.

(** A debugger that was switched off after a buffer and an image had been
    registered. *)
Definition switched_off : t :=
  setEnabled false
    (trackImage 9 {| width := 4; height := 4; depth := 4 |} 37 "volume" 11
       (trackBuffer 7 1024 "grid" 10 fresh_debugger)).

Definition sample_record : ComputeDispatchInfo :=
  {| groupCountX := 1; groupCountY := 1; groupCountZ := 1;
     shaderName := "game_of_life_3d"; startTime := 0; endTime := 5000000;
     buffers := []; images := [] |}.

(** A debugger whose history is full, with a dispatch open. *)
Definition full_history : t :=
  beginDispatch "last" 2 2 2 100
    (set_dispatch (replicate 1000 sample_record) sample_record false
       fresh_debugger).

End DebuggerSpec.

Module EngineSpec.
Import Engine.
Local Open Scope host_scope.

Definition blank_storage : GameOfLife3D :=
  {| gridSizeX := 0; gridSizeY := 0; gridSizeZ := 0;
     computePipeline := 0; pipelineLayout := 0;
     gridBuffers := (0, 0); gridAllocations := (0, 0);
     currentBuffer := 0;
     descriptorSetLayout := 0; descriptorPool := 0;
     descriptorSets := (0, 0); computeShader := 0;
     gridState := []; assigned := [] |}.

Definition blank_device : Device :=
  {| nextHandle := 1; bufferSizes := ∅; descriptors := ∅;
     commandBuffers := ∅; submissions := [] |}.

Definition new_world : World :=
  {| device := blank_device; game := construct blank_storage |}.

Definition init_ok : InitAnswers :=
  {| growGrid := None;
     shaderFile := Some [3; 2; 35; 7];
     codeBuffer := None;
     createShaderModule := VK_SUCCESS;
     createDescriptorSetLayout := VK_SUCCESS;
     createPipelineLayout := VK_SUCCESS;
     createComputePipelines := VK_SUCCESS;
     createBuffer := fun _ => VK_SUCCESS;
     createDescriptorPool := VK_SUCCESS;
     allocateDescriptorSets := fun _ => VK_SUCCESS |}.

Definition step_ok : StepAnswers :=
  {| allocateCommandBuffers := VK_SUCCESS; beginCommandBuffer := VK_SUCCESS;
     endCommandBuffer := VK_SUCCESS; queueSubmit := VK_SUCCESS;
     queueWaitIdle := VK_SUCCESS |}.

(** The device is lost while the host waits for the queue. *)
Definition wait_fails : StepAnswers :=
  {| allocateCommandBuffers := VK_SUCCESS; beginCommandBuffer := VK_SUCCESS;
     endCommandBuffer := VK_SUCCESS; queueSubmit := VK_SUCCESS;
     queueWaitIdle := VK_ERROR_DEVICE_LOST |}.

(** The queue refuses the submission. *)
Definition submit_fails : StepAnswers :=
  {| allocateCommandBuffers := VK_SUCCESS; beginCommandBuffer := VK_SUCCESS;
     endCommandBuffer := VK_SUCCESS;
     queueSubmit := VK_ERROR_OUT_OF_DEVICE_MEMORY;
     queueWaitIdle := VK_SUCCESS |}.

(** A 4x4x4 engine after [init]. *)
Definition engine444 : World := (init init_ok 4 4 4 new_world).2.

(** The descriptor a set holds for a whole buffer. *)
Definition whole (b : Z) : VkDescriptorBufferInfo :=
  {| dbi_buffer := b; dbi_offset := 0; dbi_range := VK_WHOLE_SIZE |}.

(** Set [i] reads buffer [i] at binding 0 and writes buffer [1 - i] at
    binding 1. *)
Definition wired (w : World) : Prop :=
  forall i, i = 0 \/ i = 1 ->
    exists ds src dst,
      at2 (descriptorSets (game w)) i = Some ds
      /\ at2 (gridBuffers (game w)) i = Some src
      /\ at2 (gridBuffers (game w)) (1 - i) = Some dst
      /\ descriptors (device w) !! (ds, 0) = Some (whole src)
      /\ descriptors (device w) !! (ds, 1) = Some (whole dst).

(** What no call on an initialised engine changes. *)
Definition same_wiring (w w' : World) : Prop :=
  descriptorSets (game w') = descriptorSets (game w)
  /\ gridBuffers (game w') = gridBuffers (game w)
  /\ descriptors (device w') = descriptors (device w).

Definition index_ok (w : World) : Prop :=
  currentBuffer (game w) = 0 \/ currentBuffer (game w) = 1.

(** What the driver calls of a step leave alone, however they end. *)
Definition device_only (w w' : World) : Prop :=
  game w' = game w
  /\ descriptors (device w') = descriptors (device w)
  /\ bufferSizes (device w') = bufferSizes (device w).

(** What a step leaves alone, however it ends: at most the index has
    been flipped. *)
Definition step_frame (w w' : World) : Prop :=
  (game w' = game w \/ game w' = swapBuffers (game w))
  /\ descriptors (device w') = descriptors (device w)
  /\ bufferSizes (device w') = bufferSizes (device w).

(** Every member has been given a value, as after a successful [init]. *)
Definition members : list Member :=
  [GridSizes; ComputeShader; DescriptorSetLayout; PipelineLayout;
   ComputePipeline; GridBuffer 0; GridBuffer 1; DescriptorPool;
   DescriptorSet 0; DescriptorSet 1].

Definition initialised (g : GameOfLife3D) : Prop :=
  forallb (fun m => holds m g) members = true.

(** The command buffer of a step is allocated, begun and ended with
    success: the step's commands are recorded. *)
Definition recorded (a : StepAnswers) : bool :=
  negb (failed (allocateCommandBuffers a))
  && negb (failed (beginCommandBuffer a))
  && negb (failed (endCommandBuffer a)).

(** The commands one step hands to the queue. *)
Definition stepCommands (g : GameOfLife3D) (ds : Z) : list Cmd :=
  [ CmdBindPipeline (computePipeline g);
    CmdBindDescriptorSets (pipelineLayout g) 0 [ds];
    CmdPushConstants (pipelineLayout g) 0
      [gridSizeX g; gridSizeY g; gridSizeZ g];
    CmdDispatch (groupCount (gridSizeX g)) (groupCount (gridSizeY g))
      (groupCount (gridSizeZ g)) ].

(** The wiring contract of an initialised engine [w1]: the pairing
    holds, no later call changes it, and a step binds the set selected
    by the current-buffer index. *)
Definition wiring_contract (w1 : World) : Prop :=
  wired w1
  /\ (forall cs, same_wiring w1 (calls cs w1).2 /\ wired (calls cs w1).2)
  /\ (forall cs a',
        recorded a' = true ->
        failed (queueSubmit a') = false ->
        exists ds,
          at2 (descriptorSets (game w1)) (currentBuffer (game (calls cs w1).2))
            = Some ds
          /\ submissions (device (update a' (calls cs w1).2).2) =
               submissions (device (calls cs w1).2)
               ++ [stepCommands (game (calls cs w1).2) ds]).

(** A 4294967295 x 1 x 1 engine after [init]. *)
Definition long_engine : World :=
  (init init_ok 4294967295 1 1 new_world).2.

(** A grid whose cell count fits in 32 bits, as [init] sizes it. *)
Definition sized (g : GameOfLife3D) : Prop :=
  holds GridSizes g = true
  /\ 0 <= gridSizeX g /\ 0 <= gridSizeY g /\ 0 <= gridSizeZ g
  /\ gridSizeX g * gridSizeY g * gridSizeZ g < 2 ^ 32
  /\ Z.of_nat (length (gridState g))
     = gridSizeX g * gridSizeY g * gridSizeZ g.

(** A 256 x 16777217 x 1 grid: 2^32 + 256 cells, of which the host
    mirror holds 256. *)
Definition wide_engine : World :=
  (init init_ok 256 16777217 1 new_world).2.

(** What [setCell] returns, if it returns. *)
Definition returned (o : Outcome GameOfLife3D) : option GameOfLife3D :=
  match o with Done g => Some g | _ => None end.

(** The shader file cannot be opened. *)
Definition no_shader_file : InitAnswers :=
  {| growGrid := None;
     shaderFile := None;
     codeBuffer := None;
     createShaderModule := VK_SUCCESS;
     createDescriptorSetLayout := VK_SUCCESS;
     createPipelineLayout := VK_SUCCESS;
     createComputePipelines := VK_SUCCESS;
     createBuffer := fun _ => VK_SUCCESS;
     createDescriptorPool := VK_SUCCESS;
     allocateDescriptorSets := fun _ => VK_SUCCESS |}.

End EngineSpec.

(** ** Notions used to state further properties of the debugger *)

Module DebuggerNotions.
Import Debugger.

(** How many records of a history carry a given shader name. *)
Definition dispatches_named (name : string) (h : list ComputeDispatchInfo)
  : Z :=
  Z.of_nat (length (filter (fun c => shaderName c = name) h)).

(** The timestamp writes among recorded commands, in order, each as
    (stage, query pool, query index). *)
Definition timestamp_writes (cs : list Cmd) : list (Z * Z * Z) :=
  omap (fun c =>
          match c with
          | CmdWriteTimestamp stage pool query => Some (stage, pool, query)
          | _ => None
          end) cs.

(** A call other than [clearMessages]. *)
Definition keeps_messages (o : Op) : bool :=
  match o with ClearMessages => false | _ => true end.

(** The record [endDispatch] files for a dispatch begun with these
    arguments. *)
Definition filed (name : string) (gx gy gz t0 t1 : Z) : ComputeDispatchInfo :=
  {| groupCountX := gx; groupCountY := gy; groupCountZ := gz;
     shaderName := name; startTime := t0; endTime := t1;
     buffers := []; images := [] |}.

(** The timestamp writes that fill the query slots 0 .. [n - 1] of [pool]
    in order. *)
Definition stamped (pool n : Z) : list (Z * Z * Z) :=
  (fun q => (VK_PIPELINE_STAGE_BOTTOM_OF_PIPE_BIT, pool, q)) <$> seqZ 0 n.

End DebuggerNotions.

(** ** Notions used to state further properties of the engine *)

Module EngineNotions.
Import Engine.

(** The shader file opens, its bytes are loaded and every driver call of
    [init] succeeds. *)
Definition all_succeed (a : InitAnswers) : bool :=
  match shaderFile a with Some _ => true | None => false end
  && match codeBuffer a with None => true | Some _ => false end
  && negb (failed (createShaderModule a))
  && negb (failed (createDescriptorSetLayout a))
  && negb (failed (createPipelineLayout a))
  && negb (failed (createComputePipelines a))
  && negb (failed (createBuffer a 0))
  && negb (failed (createBuffer a 1))
  && negb (failed (createDescriptorPool a))
  && negb (failed (allocateDescriptorSets a 0))
  && negb (failed (allocateDescriptorSets a 1)).

(** [init] gets the storage of the mirror: the vector need not grow, or
    the allocator grants what it asks for. *)
Definition grid_fits (a : InitAnswers) (sx sy sz : Z) (g : GameOfLife3D)
  : bool :=
  match growGrid a with
  | None => true
  | Some _ =>
      negb (has_to_grow (gridState g)
              (Z.to_nat (wrap32 (wrap32 (sx * sy) * sz))))
  end.

(** [init] gets as far as the descriptor pool: every member that the
    destructor reads has its value. *)
Definition pool_reached (a : InitAnswers) : bool :=
  match shaderFile a with Some _ => true | None => false end
  && match codeBuffer a with None => true | Some _ => false end
  && negb (failed (createShaderModule a))
  && negb (failed (createDescriptorSetLayout a))
  && negb (failed (createPipelineLayout a))
  && negb (failed (createComputePipelines a))
  && negb (failed (createBuffer a 0))
  && negb (failed (createBuffer a 1))
  && negb (failed (createDescriptorPool a)).

(** The steps of a call sequence all get their commands recorded. *)
Definition step_recorded (c : Call) : Prop :=
  match c with
  | Update a => EngineSpec.recorded a = true
  | _ => True
  end.

(** The handle supply is ahead of every live command buffer, and the null
    handle names none. *)
Definition handles_ok (d : Device) : Prop :=
  0 < nextHandle d
  /\ forall k, is_Some (commandBuffers d !! k) -> 0 < k < nextHandle d.

(** The arguments of a call are values of [uint32_t]'s lower half of
    the integers: none is negative. *)
Definition uint32_args (c : Call) : Prop :=
  match c with
  | SetCell x y z _ => 0 <= x /\ 0 <= y /\ 0 <= z
  | _ => True
  end.

End EngineNotions.

(** ** Notions used to state properties of the context and of main *)

Module AppNotions.
Import Engine Context Text App.

(** A queue family that can run compute work. *)
Definition computes (queueFlags : Z) : Prop :=
  Z.land queueFlags VK_QUEUE_COMPUTE_BIT <> 0.

(** No queue family of the device can run compute work. *)
Definition no_compute (dev : Z * list Z) : Prop :=
  Forall (fun queueFlags => ~ computes queueFlags) dev.2.

(** How far [initVulkan] gets: the instance exists, a device was picked,
    the logical device exists, the command pool exists. *)
Definition instance_made (a : ContextAnswers) : bool :=
  negb (failed (createInstanceResult a)).
Definition device_picked (a : ContextAnswers) : bool :=
  instance_made a
  && match findComputeDevice (physicalDevices a) with
     | Some _ => true | None => false end.
Definition device_made (a : ContextAnswers) : bool :=
  device_picked a && negb (failed (createDeviceResult a)).
Definition pool_made (a : ContextAnswers) : bool :=
  device_made a && negb (failed (createCommandPoolResult a)).

(** A context set-up in which everything succeeds on a single device with
    one graphics-and-compute queue family. *)
Definition context_ok : ContextAnswers :=
  {| availableLayers := ["VK_LAYER_KHRONOS_validation"];
     createInstanceResult := VK_SUCCESS; instanceHandle := 101;
     physicalDevices := [(102, [1; 3])];
     createDeviceResult := VK_SUCCESS; deviceHandle := 103;
     createCommandPoolResult := VK_SUCCESS; commandPoolHandle := 104 |}.

(** The text of a cubic grid: layer by layer, row by row, the glyph of
    [cell x y z] in column [x] of row [y] of layer [z]. *)
Definition render (cell : Z -> Z -> Z -> Z) (size : Z) : string :=
  written
    ((fun z =>
        "Layer " +:+ decimal z +:+ ":" +:+ endl
        +:+ written
              ((fun y =>
                  written ((fun x => glyph (cell x y z)) <$> seqZ 0 size)
                  +:+ endl) <$> seqZ 0 size)
        +:+ endl) <$> seqZ 0 size).

(** The cell of a cubic mirror at a coordinate, dead when out of range. *)
Definition cellAt (grid : list Z) (size x y z : Z) : Z :=
  default 0 (grid !! Z.to_nat (x + y * size + z * size * size)).

(** What [count] iterations of the loop print, from iteration [i] on,
    when every iteration shows the same grid text. *)
Fixpoint frames (gridText : string) (i : Z) (count : nat) : string :=
  match count with
  | O => ""
  | S count' =>
      clearScreen +:+ "Step " +:+ decimal i +:+ endl +:+ gridText
      +:+ frames gridText (i + 1) count'
  end.

(** The six cells [main] sets, and the grid that holds exactly them. *)
Definition seeds : list (Z * Z * Z) :=
  [(0, 0, 0); (1, 0, 0); (2, 0, 0); (1, 1, 0); (2, 1, 0); (2, 2, 0)].

Definition glider (x y z : Z) : Z :=
  if bool_decide ((x, y, z) ∈ seeds) then 1 else 0.

(** The context, the allocator and the engine are all set up. *)
Definition setup_ok (a : MainAnswers) : bool :=
  pool_made (contextAnswers a)
  && negb (failed (allocatorResult a))
  && match growGrid (initAnswers a) with None => true | Some _ => false end
  && EngineNotions.all_succeed (initAnswers a).

(** Each of the 100 steps gets its command buffer allocated, begun and
    ended with success. *)
Definition all_recorded (a : MainAnswers) : bool :=
  forallb (fun i => EngineSpec.recorded (stepAnswers a i)) (seqZ 0 100).

(** Everything succeeds. *)
Definition main_ok : MainAnswers :=
  {| contextAnswers := context_ok;
     allocatorResult := VK_SUCCESS; allocatorHandle := 105;
     gameStorage := EngineSpec.blank_storage;
     initAnswers := EngineSpec.init_ok;
     stepAnswers := fun _ => EngineSpec.step_ok;
     driver := EngineSpec.blank_device |}.

(** The shader file is missing; the storage of [game] holds leftovers. *)
Definition main_no_shader : MainAnswers :=
  {| contextAnswers := context_ok;
     allocatorResult := VK_SUCCESS; allocatorHandle := 105;
     gameStorage :=
       {| gridSizeX := 7; gridSizeY := 7; gridSizeZ := 7;
          computePipeline := 9001; pipelineLayout := 9002;
          gridBuffers := (9003, 9004); gridAllocations := (9005, 9006);
          currentBuffer := 9;
          descriptorSetLayout := 9007; descriptorPool := 9008;
          descriptorSets := (9009, 9010); computeShader := 9011;
          gridState := [5; 5]; assigned := [] |};
     initAnswers := EngineSpec.no_shader_file;
     stepAnswers := fun _ => EngineSpec.step_ok;
     driver := EngineSpec.blank_device |}.

End AppNotions.

(** * Machine integers in range *)

Lemma wrap32_small z : 0 <= z < 2 ^ 32 -> wrap32 z = z.
Proof. intros H. unfold wrap32. apply Z.mod_small. exact H. Qed.

Lemma wrap32_range z : 0 <= wrap32 z < 2 ^ 32.
Proof. unfold wrap32. apply Z.mod_pos_bound. lia. Qed.

Lemma wrap64_small z : 0 <= z < 2 ^ 64 -> wrap64 z = z.
Proof. intros H. unfold wrap64. apply Z.mod_small. exact H. Qed.

(** * Properties of the debugger *)

Module DebuggerFacts.
Import Debugger DebuggerSpec.

(** ** What does not change the history *)

Ltac cases :=
  repeat match goal with
    | |- context [if ?b then _ else _] => destruct b
    end.

Lemma exec_history o d cb :
  m_dispatchHistory (exec o (d, cb)).1 = m_dispatchHistory d
  \/ exists now, o = EndDispatch now.
Proof.
  destruct o; try (right; eexists; reflexivity); left; simpl;
    unfold validateShaderModule, validateComputePipeline, trackBuffer,
      trackImage, beginDispatch, insertTimestamp, validateMemoryBarrier,
      validateBufferMemoryBarrier, validateImageMemoryBarrier,
      checkSynchronizationHazards;
    cases; reflexivity.
Qed.

Lemma length_tail {A} (l : list A) : length (tail l) = (length l - 1)%nat.
Proof. destruct l; simpl; lia. Qed.

Lemma endDispatch_history_bound now d :
  (length (m_dispatchHistory d) <= 1000)%nat ->
  (length (m_dispatchHistory (endDispatch now d)) <= 1000)%nat.
Proof.
  intros H. unfold endDispatch.
  destruct (negb (m_enabled d) || negb (m_inDispatch d)); [exact H |].
  cbn [m_dispatchHistory set_dispatch].
  destruct (Z.ltb_spec 1000
              (Z.of_nat (length (m_dispatchHistory d
                                 ++ [close_dispatch now (m_currentDispatch d)])))) as [Hlt | Hge].
  - rewrite length_tail, length_app. simpl. lia.
  - lia.
Qed.

Lemma exec_history_bound o d cb :
  (length (m_dispatchHistory d) <= 1000)%nat ->
  (length (m_dispatchHistory (exec o (d, cb)).1) <= 1000)%nat.
Proof.
  intros H. destruct (exec_history o d cb) as [-> | [now ->]]; [exact H |].
  simpl. apply endDispatch_history_bound, H.
Qed.

Lemma run_history_bound ops s :
  (length (m_dispatchHistory s.1) <= 1000)%nat ->
  (length (m_dispatchHistory (run ops s).1) <= 1000)%nat.
Proof.
  revert s. induction ops as [| o ops IH]; intros [d cb] H; [exact H |].
  unfold run. simpl fold_left. apply IH.
  apply exec_history_bound. exact H.
Qed.

Lemma construct_history junk a : m_dispatchHistory (construct junk a) = [].
Proof. unfold construct. destruct (failed (queryPoolResult a)); reflexivity. Qed.

(** What [endDispatch] does to the history when it records. *)
Lemma endDispatch_records now d :
  m_enabled d = true -> m_inDispatch d = true ->
  m_dispatchHistory (endDispatch now d) =
    let h := m_dispatchHistory d ++ [close_dispatch now (m_currentDispatch d)] in
    if 1000 <? Z.of_nat (length h) then tail h else h.
Proof.
  intros He Hi. unfold endDispatch. rewrite He, Hi. reflexivity.
Qed.

(** C4. From construction on, whatever sequence of calls is made
    (beginDispatch and endDispatch among them), the dispatch history
    holds at most 1000 records.  An [endDispatch] that closes a dispatch
    appends the closed record at the back; when the history already held
    1000 records, the one dropped is the oldest (the front), and the
    999 others keep their order ahead of the new record. *)
Theorem history_bounded_fifo :
  (forall junk a ops cb,
      (length (m_dispatchHistory (run ops (construct junk a, cb)).1)
       <= 1000)%nat)
  /\ (forall now d,
        m_enabled d = true -> m_inDispatch d = true ->
        (length (m_dispatchHistory d) < 1000)%nat ->
        m_dispatchHistory (endDispatch now d) =
          m_dispatchHistory d ++ [close_dispatch now (m_currentDispatch d)])
  /\ (forall now d,
        m_enabled d = true -> m_inDispatch d = true ->
        length (m_dispatchHistory d) = 1000%nat ->
        m_dispatchHistory (endDispatch now d) =
          tail (m_dispatchHistory d)
            ++ [close_dispatch now (m_currentDispatch d)]
        /\ length (m_dispatchHistory (endDispatch now d)) = 1000%nat).
Proof.
  split; [| split].
  - intros junk a ops cb. apply run_history_bound. simpl.
    rewrite construct_history. simpl. lia.
  - intros now d He Hi Hlen. rewrite endDispatch_records by assumption.
    cbv zeta. rewrite length_app. simpl.
    destruct (Z.ltb_spec 1000 (Z.of_nat (length (m_dispatchHistory d) + 1)));
      [lia | reflexivity].
  - intros now d He Hi Hlen. rewrite endDispatch_records by assumption.
    cbv zeta. rewrite length_app. simpl.
    destruct (Z.ltb_spec 1000 (Z.of_nat (length (m_dispatchHistory d) + 1)));
      [| lia].
    destruct (m_dispatchHistory d) as [| r h] eqn:Hh; [discriminate |].
    simpl. split; [reflexivity |].
    rewrite length_app. simpl in *. lia.
Qed.

Lemma history_bounded_fifo_witness :
  m_dispatchHistory (endDispatch 200 full_history) =
    tail (m_dispatchHistory full_history)
      ++ [close_dispatch 200 (m_currentDispatch full_history)]
  /\ length (m_dispatchHistory (endDispatch 200 full_history)) = 1000%nat.
Proof.
  apply (proj2 (proj2 history_bounded_fifo) 200 full_history);
    vm_compute; reflexivity.
Defined.

(** ** The enabled flag *)

(** C1, as the code has it.  On a disabled debugger the gated
    operations (trackBuffer, trackImage, beginDispatch, endDispatch,
    insertTimestamp, the debug labels, the shader, pipeline and barrier
    validators, checkSynchronizationHazards) leave every member and the
    command buffer as they were, and the validators answer [true].
    untrackBuffer and untrackImage are not gated: the handle is erased
    from its table all the same, the other handles and every other member
    (the query pool and the three loaded label entry points included)
    staying as they were: putting the table back gives the debugger as it
    was. *)
Theorem disabled_operations d :
  m_enabled d = false ->
  (forall b sz n now, trackBuffer b sz n now d = d)
  /\ (forall i e f n now, trackImage i e f n now d = d)
  /\ (forall n gx gy gz now, beginDispatch n gx gy gz now d = d)
  /\ (forall now, endDispatch now d = d)
  /\ (forall n cb, insertTimestamp n d cb = (d, cb))
  /\ (forall n c cb, beginDebugLabel n c d cb = cb)
  /\ (forall cb, endDebugLabel d cb = cb)
  /\ (forall n c cb, insertDebugLabel n c d cb = cb)
  /\ (forall m n, validateShaderModule m n d = (true, d))
  /\ (forall p n, validateComputePipeline p n d = (true, d))
  /\ (forall b, validateMemoryBarrier b d = (true, d))
  /\ (forall b, validateBufferMemoryBarrier b d = (true, d))
  /\ (forall b, validateImageMemoryBarrier b d = (true, d))
  /\ (forall ss ds sa da, checkSynchronizationHazards ss ds sa da d = d)
  /\ (forall b,
        let d' := untrackBuffer b d in
        m_trackedBuffers d' !! b = None
        /\ (forall b', b' <> b ->
              m_trackedBuffers d' !! b' = m_trackedBuffers d !! b')
        /\ m_enabled d' = false
        /\ m_trackedImages d' = m_trackedImages d
        /\ m_dispatchHistory d' = m_dispatchHistory d
        /\ m_currentDispatch d' = m_currentDispatch d
        /\ m_inDispatch d' = m_inDispatch d
        /\ m_currentTimestampIndex d' = m_currentTimestampIndex d
        /\ m_timestampMarkers d' = m_timestampMarkers d
        /\ m_errors d' = m_errors d
        /\ m_warnings d' = m_warnings d
        /\ m_timestampQueryPool d' = m_timestampQueryPool d
        /\ vkCmdBeginDebugUtilsLabelEXT d' = vkCmdBeginDebugUtilsLabelEXT d
        /\ vkCmdEndDebugUtilsLabelEXT d' = vkCmdEndDebugUtilsLabelEXT d
        /\ vkCmdInsertDebugUtilsLabelEXT d' = vkCmdInsertDebugUtilsLabelEXT d
        /\ set_trackedBuffers (m_trackedBuffers d) d' = d)
  /\ (forall i,
        let d' := untrackImage i d in
        m_trackedImages d' !! i = None
        /\ (forall i', i' <> i ->
              m_trackedImages d' !! i' = m_trackedImages d !! i')
        /\ m_enabled d' = false
        /\ m_trackedBuffers d' = m_trackedBuffers d
        /\ m_dispatchHistory d' = m_dispatchHistory d
        /\ m_currentDispatch d' = m_currentDispatch d
        /\ m_inDispatch d' = m_inDispatch d
        /\ m_currentTimestampIndex d' = m_currentTimestampIndex d
        /\ m_timestampMarkers d' = m_timestampMarkers d
        /\ m_errors d' = m_errors d
        /\ m_warnings d' = m_warnings d
        /\ m_timestampQueryPool d' = m_timestampQueryPool d
        /\ vkCmdBeginDebugUtilsLabelEXT d' = vkCmdBeginDebugUtilsLabelEXT d
        /\ vkCmdEndDebugUtilsLabelEXT d' = vkCmdEndDebugUtilsLabelEXT d
        /\ vkCmdInsertDebugUtilsLabelEXT d' = vkCmdInsertDebugUtilsLabelEXT d
        /\ set_trackedImages (m_trackedImages d) d' = d).
Proof.
  intros Hd.
  unfold trackBuffer, trackImage, beginDispatch, endDispatch,
    insertTimestamp, beginDebugLabel, endDebugLabel, insertDebugLabel,
    validateShaderModule, validateComputePipeline, validateMemoryBarrier,
    validateBufferMemoryBarrier, validateImageMemoryBarrier,
    checkSynchronizationHazards.
  rewrite Hd. cbn [negb orb].
  repeat (split; [intros; reflexivity |]).
  split.
  - intros b. unfold untrackBuffer. cbn.
    repeat split; try reflexivity; try assumption.
    + apply lookup_delete_eq.
    + intros b' Hne. apply lookup_delete_ne. congruence.
    + destruct d; reflexivity.
  - intros i. unfold untrackImage. cbn.
    repeat split; try reflexivity; try assumption.
    + apply lookup_delete_eq.
    + intros i' Hne. apply lookup_delete_ne. congruence.
    + destruct d; reflexivity.
Qed.

Lemma disabled_operations_witness :
  m_enabled switched_off = false
  /\ trackBuffer 8 2048 "next" 12 switched_off = switched_off
  /\ validateBufferMemoryBarrier
       {| bb_srcAccessMask := 64; bb_dstAccessMask := 32; bb_buffer := 0;
          bb_offset := 0; bb_size := 0 |} switched_off
     = (true, switched_off).
Proof.
  assert (H : m_enabled switched_off = false) by reflexivity.
  pose proof (disabled_operations switched_off H) as P.
  split; [exact H |]. split.
  - apply (proj1 P).
  - apply (proj1 (proj2 (proj2 (proj2 (proj2 (proj2 (proj2 (proj2
             (proj2 (proj2 (proj2 (proj2 P)))))))))))).
Defined.

(** C1 as stated fails: on the disabled debugger [switched_off],
    [untrackBuffer] removes the tracked buffer 7 (and [untrackImage] the
    tracked image 9), so the tracked-resource tables do change. *)
Lemma disabled_untrack_changes_tables :
  m_enabled switched_off = false
  /\ m_trackedBuffers switched_off !! 7
     = Some {| bi_size := 1024; bi_name := "grid"; bi_lastAccessTime := 10 |}
  /\ m_trackedBuffers (untrackBuffer 7 switched_off) !! 7 = None
  /\ untrackBuffer 7 switched_off <> switched_off
  /\ is_Some (m_trackedImages switched_off !! 9)
  /\ m_trackedImages (untrackImage 9 switched_off) !! 9 = None
  /\ untrackImage 9 switched_off <> switched_off.
Proof.
  split; [reflexivity |]. split; [vm_compute; reflexivity |].
  split; [vm_compute; reflexivity |]. split.
  { intros E. apply (f_equal (fun d => m_trackedBuffers d !! 7)) in E.
    vm_compute in E. discriminate E. }
  split; [vm_compute; eexists; reflexivity |].
  split; [vm_compute; reflexivity |].
  intros E. apply (f_equal (fun d => m_trackedImages d !! 9)) in E.
  vm_compute in E. discriminate E.
Qed.

(** [setEnabled(false)] is how a debugger gets disabled; it changes no
    other member. *)
Lemma setEnabled_false d :
  m_enabled (setEnabled false d) = false
  /\ m_trackedBuffers (setEnabled false d) = m_trackedBuffers d
  /\ m_trackedImages (setEnabled false d) = m_trackedImages d
  /\ m_dispatchHistory (setEnabled false d) = m_dispatchHistory d
  /\ m_timestampMarkers (setEnabled false d) = m_timestampMarkers d
  /\ m_errors (setEnabled false d) = m_errors d
  /\ m_warnings (setEnabled false d) = m_warnings d.
Proof. repeat split. Qed.

(** [endDispatch] with no dispatch open changes nothing. *)
Lemma endDispatch_without_begin now d :
  m_inDispatch d = false -> endDispatch now d = d.
Proof.
  intros H. unfold endDispatch. rewrite H.
  destruct (m_enabled d); reflexivity.
Qed.

(** Once 1000 timestamps have been written, further requests are dropped. *)
Lemma insertTimestamp_exhausted name d cb :
  1000 <= m_currentTimestampIndex d -> insertTimestamp name d cb = (d, cb).
Proof.
  intros H. unfold insertTimestamp.
  destruct (Z.leb_spec 1000 (m_currentTimestampIndex d)); [| lia].
  destruct (m_enabled d); reflexivity.
Qed.

(** Tracking a handle again overwrites its metadata. *)
Lemma trackBuffer_last_write_wins b sz1 n1 t1 sz2 n2 t2 d :
  m_enabled d = true ->
  m_trackedBuffers (trackBuffer b sz2 n2 t2 (trackBuffer b sz1 n1 t1 d)) !! b
  = Some {| bi_size := sz2; bi_name := n2; bi_lastAccessTime := wrap64 t2 |}.
Proof.
  intros H. unfold trackBuffer. rewrite H. cbn. rewrite H. cbn.
  apply lookup_insert_eq.
Qed.

(** ** Barrier validation *)

(** C7. On an enabled debugger: a buffer barrier (and likewise an image
    barrier) whose handle is null is rejected, and the error ledger grows
    by exactly one message while the warnings stay as they were; a
    buffer barrier on a non-null handle with size 0, and a memory barrier
    with both access masks 0, are accepted, and the warning ledger grows
    by exactly one message while the errors stay as they were. *)
Theorem barrier_validation d :
  m_enabled d = true ->
  (forall b, bb_buffer b = VK_NULL_HANDLE ->
     exists d', validateBufferMemoryBarrier b d = (false, d')
       /\ m_errors d' =
            m_errors d ++ ["Buffer memory barrier has VK_NULL_HANDLE buffer"]
       /\ m_warnings d' = m_warnings d)
  /\ (forall b, ib_image b = VK_NULL_HANDLE ->
     exists d', validateImageMemoryBarrier b d = (false, d')
       /\ m_errors d' =
            m_errors d ++ ["Image memory barrier has VK_NULL_HANDLE image"]
       /\ m_warnings d' = m_warnings d)
  /\ (forall b, bb_buffer b <> VK_NULL_HANDLE -> bb_size b = 0 ->
     exists d', validateBufferMemoryBarrier b d = (true, d')
       /\ m_warnings d' =
            m_warnings d ++ ["Buffer memory barrier has size of 0"]
       /\ m_errors d' = m_errors d)
  /\ (forall b, mb_srcAccessMask b = 0 -> mb_dstAccessMask b = 0 ->
     exists d', validateMemoryBarrier b d = (true, d')
       /\ m_warnings d' =
            m_warnings d
            ++ ["Memory barrier has both srcAccessMask and dstAccessMask set to 0"]
       /\ m_errors d' = m_errors d).
Proof.
  intros He. repeat split.
  - intros b Hb. unfold validateBufferMemoryBarrier. rewrite He, Hb.
    cbn. eexists. repeat split.
  - intros b Hb. unfold validateImageMemoryBarrier. rewrite He, Hb.
    cbn. eexists. repeat split.
  - intros b Hb Hs. unfold validateBufferMemoryBarrier. rewrite He, Hs.
    cbn [negb]. destruct (Z.eqb_spec (bb_buffer b) VK_NULL_HANDLE) as [E | _];
      [contradiction |].
    cbn. eexists. repeat split.
  - intros b Hs Hd. unfold validateMemoryBarrier. rewrite He, Hs, Hd.
    cbn. eexists. repeat split.
Qed.

Lemma barrier_validation_witness :
  exists d',
    validateBufferMemoryBarrier
      {| bb_srcAccessMask := 64; bb_dstAccessMask := 32; bb_buffer := 0;
         bb_offset := 0; bb_size := 2 ^ 64 - 1 |} fresh_debugger
    = (false, d')
    /\ m_errors d' =
         m_errors fresh_debugger
         ++ ["Buffer memory barrier has VK_NULL_HANDLE buffer"]
    /\ m_warnings d' = m_warnings fresh_debugger.
Proof.
  apply (proj1 (barrier_validation fresh_debugger eq_refl)). reflexivity.
Defined.

(** ** Statistics *)

(** The divisor of the average, as the [double] it is converted to, is
    not zero for any history size from 1 to 1000. *)
Lemma history_size_as_double_nonzero n :
  (1 <= n <= 1000)%nat -> double_of_Z (Z.of_nat n) <> 0%float.
Proof.
  intros Hn E.
  assert (Hall : forallb
            (fun k => negb (PrimFloat.eqb (double_of_Z (Z.of_nat k)) 0))
            (seq 1 1000) = true) by (vm_compute; reflexivity).
  rewrite forallb_forall in Hall.
  specialize (Hall n). rewrite E in Hall.
  assert (Hin : In n (seq 1 1000)) by (apply in_seq; lia).
  specialize (Hall Hin). vm_compute in Hall. discriminate Hall.
Qed.

(** C10. With an empty dispatch history, whatever the tracked-resource
    tables hold, the statistics report 0 dispatches, an average of 0 and
    empty per-shader maps: the division is not evaluated.  With a
    non-empty history the average is the accumulated time divided by the
    number of records, which is at least 1; in every state reached from
    construction that divisor, converted to [double], is not zero. *)
Theorem statistics_empty_history :
  (forall d,
     m_dispatchHistory d = [] ->
     totalDispatches (getStatistics d) = 0
     /\ averageDispatchTimeMs (getStatistics d) = 0%float
     /\ dispatchCounts (getStatistics d) = ∅
     /\ shaderTimings (getStatistics d) = ∅)
  /\ (forall d,
       m_dispatchHistory d <> [] ->
       averageDispatchTimeMs (getStatistics d) =
         ((fold_left account (m_dispatchHistory d) (0%float, ∅, ∅)).1.1
          / double_of_Z (Z.of_nat (length (m_dispatchHistory d))))%float
       /\ 1 <= Z.of_nat (length (m_dispatchHistory d)))
  /\ (forall junk a ops cb,
       m_dispatchHistory (run ops (construct junk a, cb)).1 <> [] ->
       double_of_Z
         (Z.of_nat (length (m_dispatchHistory
                              (run ops (construct junk a, cb)).1)))
       <> 0%float).
Proof.
  split; [| split].
  - intros d Hd. unfold getStatistics. rewrite Hd. repeat split.
  - intros d Hne. unfold getStatistics.
    destruct (m_dispatchHistory d) as [| r h]; [congruence |].
    split; [reflexivity | simpl; lia].
  - intros junk a ops cb Hne.
    apply history_size_as_double_nonzero. split.
    + destruct (m_dispatchHistory (run ops (construct junk a, cb)).1);
        [congruence | simpl; lia].
    + apply run_history_bound. simpl. rewrite construct_history. simpl. lia.
Qed.

Lemma statistics_empty_history_witness :
  totalDispatches (getStatistics switched_off) = 0
  /\ averageDispatchTimeMs (getStatistics switched_off) = 0%float
  /\ dispatchCounts (getStatistics switched_off) = ∅
  /\ shaderTimings (getStatistics switched_off) = ∅.
Proof.
  apply (proj1 statistics_empty_history switched_off). reflexivity.
Defined.

(** The scenario of the specification: two tracked buffers of 1024 and
    2048 bytes add up to 3072; after one is untracked, 2048 remain. *)
Example statistics_two_buffers :
  let d := trackBuffer 2 2048 "b" 1 (trackBuffer 1 1024 "a" 0 fresh_debugger) in
  totalBufferBytes (getStatistics d) = 3072
  /\ totalBufferBytes (getStatistics (untrackBuffer 1 d)) = 2048.
Proof. vm_compute. split; reflexivity. Qed.

(** One recorded dispatch of 5 ms. *)
Example statistics_one_dispatch :
  let d := endDispatch 5000000
             (beginDispatch "game_of_life_3d" 1 1 1 0 fresh_debugger) in
  let s := getStatistics d in
  totalDispatches s = 1
  /\ dispatchCounts s !! "game_of_life_3d" = Some 1
  /\ averageDispatchTimeMs s = 5%float.
Proof. vm_compute. repeat split. Qed.

End DebuggerFacts.

(** * Properties of the engine *)

Module EngineFacts.
Import Engine EngineSpec.
Local Open Scope host_scope.

(** ** The example engine *)

Example engine444_init : (init init_ok 4 4 4 new_world).1 = Done tt.
Proof. reflexivity. Qed.

Ltac break_matches :=
  repeat match goal with
    | |- context [match ?x with _ => _ end] => destruct x
    end.

(** ** One step *)

Lemma initialised_holds g :
  initialised g ->
  holds GridSizes g = true /\ holds ComputeShader g = true
  /\ holds DescriptorSetLayout g = true /\ holds PipelineLayout g = true
  /\ holds ComputePipeline g = true /\ holds (GridBuffer 0) g = true
  /\ holds (GridBuffer 1) g = true /\ holds DescriptorPool g = true
  /\ holds (DescriptorSet 0) g = true /\ holds (DescriptorSet 1) g = true.
Proof.
  unfold initialised, members. cbn [forallb]. intros H.
  repeat (apply andb_prop in H as [? H]). repeat split; assumption.
Qed.

(** A step whose commands are recorded goes through: the command buffer
    is the fresh handle, it is freed again, and the queue has taken the
    four commands unless it refused the submission. *)
Lemma update_result a w :
  initialised (game w) -> index_ok w -> recorded a = true ->
  exists ds dev',
    at2 (descriptorSets (game w)) (currentBuffer (game w)) = Some ds
    /\ update a w =
         (Done tt, {| device := dev'; game := swapBuffers (game w) |})
    /\ descriptors dev' = descriptors (device w)
    /\ bufferSizes dev' = bufferSizes (device w)
    /\ nextHandle dev' = nextHandle (device w) + 1
    /\ submissions dev' =
         submissions (device w)
         ++ (if failed (queueSubmit a) then []
             else [stepCommands (game w) ds])
    /\ (nextHandle (device w) <> VK_NULL_HANDLE ->
        commandBuffers dev' =
          delete (nextHandle (device w)) (commandBuffers (device w))).
Proof.
  intros Hinit Hcb Hrec.
  destruct (initialised_holds _ Hinit)
    as (Hsz & _ & _ & Hpl & Hcp & _ & _ & _ & Hd0 & Hd1).
  unfold recorded in Hrec.
  apply andb_prop in Hrec as [Hrec He]. apply andb_prop in Hrec as [Ha Hb].
  apply negb_true_iff in Ha, Hb, He.
  assert (Hds : exists ds,
            at2 (descriptorSets (game w)) (currentBuffer (game w)) = Some ds
            /\ holds (DescriptorSet (currentBuffer (game w))) (game w) = true).
  { unfold at2. destruct Hcb as [-> | ->]; cbn; eauto. }
  destruct Hds as (ds & Hds & Hhd). exists ds.
  unfold update, beginSingleTimeCommands, endSingleTimeCommands,
    recordComputeCommands, vkAllocateCommandBuffers, vkBeginCommandBuffer,
    vkEndCommandBuffer, vkQueueSubmit, vkQueueWaitIdle, vkFreeCommandBuffers,
    record, reading, command_buffer, put_command_buffer, bind, ret, fresh,
    modify, the_game, update_game, undefined.
  rewrite Ha, Hb, He. cbn.
  rewrite lookup_insert_eq. cbn. rewrite Hcp, Hpl, Hhd, Hsz, Hds. cbn.
  rewrite lookup_insert_eq. cbn.
  rewrite lookup_insert_eq. cbn.
  rewrite lookup_insert_eq. cbn.
  destruct (failed (queueSubmit a)); cbn;
    (destruct (Z.eqb_spec (nextHandle (device w)) VK_NULL_HANDLE) as [E | E];
     cbn; [| rewrite lookup_insert_eq; cbn]);
    eexists; (split; [reflexivity |]); (split; [reflexivity |]); cbn;
    rewrite ?app_nil_r; repeat split; try contradiction;
    intros _; rewrite !delete_insert_eq; reflexivity.
Qed.

(** A step whose command buffer is not allocated, not begun or not ended
    with success makes a call outside the valid usage of the API: on the
    null handle, on a buffer that is not recording, or on one that is
    not executable. *)
Lemma update_undefined a w :
  commandBuffers (device w) !! VK_NULL_HANDLE = None ->
  recorded a = false ->
  (update a w).1 = Undefined.
Proof.
  intros Hnull Hrec.
  unfold update, beginSingleTimeCommands, endSingleTimeCommands,
    recordComputeCommands, vkAllocateCommandBuffers, vkBeginCommandBuffer,
    vkEndCommandBuffer, vkQueueSubmit, vkQueueWaitIdle, vkFreeCommandBuffers,
    record, reading, command_buffer, put_command_buffer, bind, ret, fresh,
    modify, the_game, update_game, undefined.
  unfold recorded in Hrec.
  destruct (failed (allocateCommandBuffers a)); cbn.
  { rewrite Hnull. reflexivity. }
  rewrite lookup_insert_eq. cbn.
  destruct (failed (beginCommandBuffer a)); cbn.
  { destruct (holds ComputePipeline (game w) && _); cbn; [| reflexivity].
    destruct (at2 _ _); cbn; [| reflexivity].
    rewrite lookup_insert_eq. reflexivity. }
  destruct (failed (endCommandBuffer a)); cbn in Hrec; [| discriminate].
  destruct (holds ComputePipeline (game w) && _); cbn; [| reflexivity].
  destruct (at2 _ _); cbn; [| reflexivity].
  rewrite lookup_insert_eq. cbn. rewrite lookup_insert_eq. cbn.
  rewrite lookup_insert_eq. reflexivity.
Qed.

Lemma swapBuffers_flip g :
  currentBuffer g = 0 \/ currentBuffer g = 1 ->
  currentBuffer (swapBuffers g) = 1 - currentBuffer g
  /\ (currentBuffer (swapBuffers g) = 0 \/ currentBuffer (swapBuffers g) = 1).
Proof.
  intros [H | H]; unfold swapBuffers; cbn; rewrite H; vm_compute; auto.
Qed.

(** *** What a step leaves alone, however it ends *)

Lemma device_only_refl w : device_only w w.
Proof. repeat split. Qed.

Lemma device_only_bind {A B} (m : M A) (k : A -> M B) :
  (forall w, device_only w (m w).2) ->
  (forall x w, device_only w (k x w).2) ->
  forall w, device_only w (bind m k w).2.
Proof.
  intros Hm Hk w. unfold bind. specialize (Hm w).
  destruct (m w) as [[x | what |] w1]; cbn [snd] in *; try exact Hm.
  destruct (Hk x w1) as (G & D & B0). destruct Hm as (G1 & D1 & B1).
  repeat split; congruence.
Qed.

Lemma step_frame_bind {A B} (m : M A) (k : A -> M B) :
  (forall w, device_only w (m w).2) ->
  (forall x w, step_frame w (k x w).2) ->
  forall w, step_frame w (bind m k w).2.
Proof.
  intros Hm Hk w. unfold bind. specialize (Hm w).
  destruct (m w) as [[x | what |] w1]; cbn [snd] in *.
  - destruct (Hk x w1) as (G & D & B0). destruct Hm as (G1 & D1 & B1).
    rewrite G1 in G. split; [exact G | split; congruence].
  - destruct Hm as (G1 & D1 & B1). repeat split; auto.
  - destruct Hm as (G1 & D1 & B1). repeat split; auto.
Qed.

Lemma command_buffer_only cmdBuffer w :
  device_only w (command_buffer cmdBuffer w).2.
Proof.
  unfold command_buffer. destruct (_ !! _); apply device_only_refl.
Qed.

Lemma put_command_buffer_only cmdBuffer c w :
  device_only w (put_command_buffer cmdBuffer c w).2.
Proof. repeat split. Qed.

Lemma record_only cmdBuffer cs w : device_only w (record cmdBuffer cs w).2.
Proof.
  apply device_only_bind; [apply command_buffer_only |].
  intros c w1. destruct (cb_state c); repeat split.
Qed.

Lemma reading_only ms w : device_only w (reading ms w).2.
Proof.
  unfold reading, bind, the_game. destruct (forallb _ _); repeat split.
Qed.

Lemma beginSingleTimeCommands_only a w :
  device_only w (beginSingleTimeCommands a w).2.
Proof.
  unfold beginSingleTimeCommands.
  apply device_only_bind.
  - intros w1. unfold vkAllocateCommandBuffers.
    destruct (failed _); repeat split.
  - intros rc w1. apply device_only_bind; [| repeat split].
    intros w2. unfold vkBeginCommandBuffer.
    apply device_only_bind; [apply command_buffer_only |].
    intros c w3. destruct (cb_state c); try destruct (failed _); repeat split.
Qed.

Lemma recordComputeCommands_only cmdBuffer w :
  device_only w (recordComputeCommands cmdBuffer w).2.
Proof.
  unfold recordComputeCommands.
  apply device_only_bind; [repeat split |].
  intros g w1. apply device_only_bind; [apply reading_only |].
  intros _ w2. destruct (at2 _ _); [apply record_only | repeat split].
Qed.

Lemma endSingleTimeCommands_only a cmdBuffer w :
  device_only w (endSingleTimeCommands a cmdBuffer w).2.
Proof.
  unfold endSingleTimeCommands.
  apply device_only_bind.
  { intros w1. unfold vkEndCommandBuffer.
    apply device_only_bind; [apply command_buffer_only |].
    intros c w2. destruct (cb_state c); repeat split. }
  intros _ w1. apply device_only_bind.
  { intros w2. unfold vkQueueSubmit.
    apply device_only_bind; [apply command_buffer_only |].
    intros c w3. destruct (cb_state c); try destruct (failed _); repeat split. }
  intros _ w2. apply device_only_bind; [repeat split |].
  intros _ w3. unfold vkFreeCommandBuffers.
  destruct (_ =? _); [repeat split |].
  apply device_only_bind; [apply command_buffer_only | repeat split].
Qed.

Lemma update_frame a w : step_frame w (update a w).2.
Proof.
  unfold update.
  apply step_frame_bind; [apply beginSingleTimeCommands_only |].
  intros cmdBuffer w1.
  apply step_frame_bind; [apply recordComputeCommands_only |].
  intros _ w2.
  apply step_frame_bind; [apply endSingleTimeCommands_only |].
  intros _ w3. split; [right; reflexivity | split; reflexivity].
Qed.




(** ** Sequences of steps *)

Lemma steps_cons a answers w :
  steps (a :: answers) w =
    match update a w with
    | (Done _, w') => steps answers w'
    | (Throws s, w') => (Throws s, w')
    | (Undefined, w') => (Undefined, w')
    end.
Proof. reflexivity. Qed.

Lemma steps_parity answers : forall w,
  initialised (game w) ->
  currentBuffer (game w) = 0 \/ currentBuffer (game w) = 1 ->
  forallb recorded answers = true ->
  (steps answers w).1 = Done tt
  /\ currentBuffer (game (steps answers w).2) =
       (currentBuffer (game w) + Z.of_nat (length answers)) mod 2.
Proof.
  induction answers as [| a answers IH]; intros w Hinit Hcb Hrec.
  - split; [reflexivity |]. cbn. destruct Hcb as [-> | ->]; reflexivity.
  - cbn [forallb] in Hrec. apply andb_prop in Hrec as [Ha Hrec].
    rewrite steps_cons.
    destruct (update_result a w Hinit Hcb Ha) as (ds & dev' & _ & -> & _).
    destruct (swapBuffers_flip (game w) Hcb) as [Hflip Hrange].
    destruct (IH {| device := dev'; game := swapBuffers (game w) |}
                Hinit Hrange Hrec)
      as [Hdone Hpar].
    split; [exact Hdone |]. rewrite Hpar. cbn [game]. rewrite Hflip.
    cbn [length]. rewrite Nat2Z.inj_succ.
    destruct Hcb as [-> | ->]; Z.div_mod_to_equations; lia.
Qed.

Ltac run_init :=
  unfold init, resizeGrid, createComputePipeline, createBuffers,
    createBuffers_body, createDescriptorSets, createDescriptorSets_body,
    reading, check, bind, throw, ret, fresh, update_game, register_buffer,
    modify, the_game, undefined;
  change (1 - 0) with 1; change (1 - 1) with 0.

Lemma init_keeps_currentBuffer a sx sy sz w :
  currentBuffer (game (init a sx sy sz w).2) = currentBuffer (game w).
Proof.
  run_init. cbn.
  destruct (growGrid a);
    [destruct (has_to_grow _ _); cbn; [reflexivity |] |];
    (destruct (shaderFile a); [| reflexivity]);
    (destruct (codeBuffer a); [reflexivity |]);
    (destruct (failed (createShaderModule a)); cbn; [reflexivity |]);
    (destruct (failed (createDescriptorSetLayout a)); cbn; [reflexivity |]);
    (destruct (failed (createPipelineLayout a)); cbn; [reflexivity |]);
    (destruct (failed (createComputePipelines a)); cbn; [reflexivity |]);
    (destruct (failed (createBuffer a 0)); cbn; [reflexivity |]);
    (destruct (failed (createBuffer a 1)); cbn; [reflexivity |]);
    (destruct (failed (createDescriptorPool a)); cbn; [reflexivity |]);
    (destruct (failed (allocateDescriptorSets a 0)); cbn; [reflexivity |]);
    destruct (failed (allocateDescriptorSets a 1)); cbn; reflexivity.
Qed.

(** C5. The constructor starts the current-buffer index at 0 and
    [init] does not touch it; from index 0 on an initialised engine, any
    [n] steps whose commands are recorded all return normally, whatever
    the queue answers, and leave the index at [n mod 2], which is 0 or
    1. *)
Theorem current_buffer_parity :
  (forall storage, currentBuffer (construct storage) = 0)
  /\ (forall a sx sy sz w,
        currentBuffer (game (init a sx sy sz w).2) = currentBuffer (game w))
  /\ (forall answers w,
        initialised (game w) ->
        currentBuffer (game w) = 0 ->
        forallb recorded answers = true ->
        (steps answers w).1 = Done tt
        /\ currentBuffer (game (steps answers w).2)
           = Z.of_nat (length answers) mod 2
        /\ (currentBuffer (game (steps answers w).2) = 0
            \/ currentBuffer (game (steps answers w).2) = 1)).
Proof.
  split; [reflexivity |]. split; [apply init_keeps_currentBuffer |].
  intros answers w Hinit H0 Hrec.
  destruct (steps_parity answers w Hinit (or_introl H0) Hrec)
    as [Hdone Hpar].
  rewrite H0, Z.add_0_l in Hpar.
  split; [exact Hdone |]. split; [exact Hpar |].
  rewrite Hpar. Z.div_mod_to_equations. lia.
Qed.

Lemma current_buffer_parity_witness :
  (steps [step_ok; wait_fails; step_ok] engine444).1 = Done tt
  /\ currentBuffer (game (steps [step_ok; wait_fails; step_ok] engine444).2)
     = Z.of_nat 3 mod 2
  /\ (currentBuffer (game (steps [step_ok; wait_fails; step_ok] engine444).2)
      = 0
      \/ currentBuffer
           (game (steps [step_ok; wait_fails; step_ok] engine444).2) = 1).
Proof.
  apply (proj2 (proj2 current_buffer_parity)
           [step_ok; wait_fails; step_ok] engine444);
    reflexivity.
Defined.

(** ** Descriptor wiring *)

(** What a successful [init] leaves behind. *)
Lemma init_result a sx sy sz w w1 :
  init a sx sy sz w = (Done tt, w1) ->
  exists b0 b1 ds0 ds1,
    ds0 <> ds1
    /\ gridBuffers (game w1) = (b0, b1)
    /\ descriptorSets (game w1) = (ds0, ds1)
    /\ descriptors (device w1) =
         <[(ds1, 1) := whole b0]>
           (<[(ds1, 0) := whole b1]>
              (<[(ds0, 1) := whole b1]>
                 (<[(ds0, 0) := whole b0]> (descriptors (device w)))))
    /\ gridSizeX (game w1) = sx
    /\ gridSizeY (game w1) = sy
    /\ gridSizeZ (game w1) = sz
    /\ currentBuffer (game w1) = currentBuffer (game w)
    /\ gridState (game w1) =
         resize (Z.to_nat (wrap32 (wrap32 (sx * sy) * sz))) 0
           (gridState (game w))
    /\ initialised (game w1).
Proof.
  run_init. cbn. intros H.
  destruct (growGrid a);
    [destruct (has_to_grow _ _); cbn in H; [discriminate H |] |];
    (destruct (shaderFile a); [| discriminate H]);
    (destruct (codeBuffer a); [discriminate H |]);
    (destruct (failed (createShaderModule a)); cbn in H;
       [discriminate H |]);
    (destruct (failed (createDescriptorSetLayout a)); cbn in H;
       [discriminate H |]);
    (destruct (failed (createPipelineLayout a)); cbn in H;
       [discriminate H |]);
    (destruct (failed (createComputePipelines a)); cbn in H;
       [discriminate H |]);
    (destruct (failed (createBuffer a 0)); cbn in H; [discriminate H |]);
    (destruct (failed (createBuffer a 1)); cbn in H; [discriminate H |]);
    (destruct (failed (createDescriptorPool a)); cbn in H;
       [discriminate H |]);
    (destruct (failed (allocateDescriptorSets a 0)); cbn in H;
       [discriminate H |]);
    (destruct (failed (allocateDescriptorSets a 1)); cbn in H;
       [discriminate H |]);
    apply (f_equal snd) in H; cbn [snd] in H; subst w1; cbn;
    do 4 eexists; (split; [| repeat split]); lia.
Qed.

Lemma init_wired a sx sy sz w w1 :
  init a sx sy sz w = (Done tt, w1) -> wired w1.
Proof.
  intros H.
  destruct (init_result a sx sy sz w w1 H)
    as (b0 & b1 & ds0 & ds1 & Hne & Hb & Hs & Hd & _).
  intros i Hi. rewrite Hb, Hs, Hd. unfold at2.
  destruct Hi as [-> | ->]; cbn.
  - exists ds0, b0, b1. repeat split.
    + rewrite !lookup_insert_ne by congruence. apply lookup_insert_eq.
    + rewrite !lookup_insert_ne by congruence. apply lookup_insert_eq.
  - exists ds1, b1, b0. repeat split.
    + rewrite lookup_insert_ne by congruence. apply lookup_insert_eq.
    + apply lookup_insert_eq.
Qed.

Lemma same_wiring_wired w w' : same_wiring w w' -> wired w -> wired w'.
Proof.
  intros (Hs & Hb & Hd) Hw i Hi. rewrite Hs, Hb, Hd. exact (Hw i Hi).
Qed.

(** However a call ends, it leaves the wiring and the assignment marks
    alone and the index at 0 or 1. *)
Lemma call_frame c w :
  index_ok w ->
  same_wiring w (call c w).2 /\ index_ok (call c w).2
  /\ assigned (game (call c w).2) = assigned (game w).
Proof.
  intros Hcb. destruct c as [a | x y z st |].
  - cbn [call]. destruct (update_frame a w) as ([G | G] & D & _).
    + unfold same_wiring, index_ok. rewrite G, D. repeat split. exact Hcb.
    + unfold same_wiring, index_ok. rewrite G, D. repeat split.
      apply swapBuffers_flip, Hcb.
  - cbn [call]. unfold bind, the_game, setCell.
    destruct (negb _); [repeat split; exact Hcb |].
    destruct (_ || _); [repeat split; exact Hcb |].
    destruct (_ <? _); repeat split; exact Hcb.
  - repeat split; exact Hcb.
Qed.

Lemma calls_cons c cs w :
  calls (c :: cs) w =
    match call c w with
    | (Done _, w') => calls cs w'
    | (Throws s, w') => (Throws s, w')
    | (Undefined, w') => (Undefined, w')
    end.
Proof. reflexivity. Qed.

Lemma calls_frame cs : forall w,
  index_ok w ->
  same_wiring w (calls cs w).2 /\ index_ok (calls cs w).2
  /\ assigned (game (calls cs w).2) = assigned (game w).
Proof.
  induction cs as [| c cs IH]; intros w Hcb.
  - repeat split; exact Hcb.
  - destruct (call_frame c w Hcb) as (Hw & Hi & Ha).
    rewrite calls_cons.
    destruct (call c w) as [[[] | what |] w1]; cbn [snd] in *;
      [| split; [exact Hw | split; assumption]
       | split; [exact Hw | split; assumption]].
    destruct (IH w1 Hi) as ((Hs & Hb & Hd) & Hi' & Ha').
    destruct Hw as (Hs1 & Hb1 & Hd1).
    split; [| split; [exact Hi' | congruence]].
    repeat split; congruence.
Qed.

Lemma update_submission a w ds :
  initialised (game w) -> index_ok w ->
  at2 (descriptorSets (game w)) (currentBuffer (game w)) = Some ds ->
  recorded a = true ->
  failed (queueSubmit a) = false ->
  submissions (device (update a w).2) =
    submissions (device w) ++ [stepCommands (game w) ds].
Proof.
  intros Hinit Hcb Hds Hrec Hq.
  destruct (update_result a w Hinit Hcb Hrec)
    as (ds' & dev' & Hds' & -> & _ & _ & _ & Hsub & _).
  cbn [snd device]. rewrite Hsub, Hq. congruence.
Qed.

(** C6. After a successful [init] of a freshly constructed engine,
    descriptor set [i] (i = 0, 1) holds buffer [i] at binding 0 and
    buffer [1 - i] at binding 1; whatever calls follow ([update],
    [setCell], [reset]) and however they end, the two sets, the two
    buffers and the descriptor store stay as [init] left them; and each
    step that the queue accepts binds [descriptorSets[currentBuffer]]:
    only that index changes. *)
Theorem descriptor_wiring a sx sy sz w w1 :
  currentBuffer (game w) = 0 ->
  init a sx sy sz w = (Done tt, w1) ->
  wiring_contract w1.
Proof.
  intros H0 Hinit.
  assert (Hidx : index_ok w1).
  { left. rewrite <- H0, <- (init_keeps_currentBuffer a sx sy sz w).
    rewrite Hinit. reflexivity. }
  pose proof (init_wired a sx sy sz w w1 Hinit) as Hw.
  assert (Hall : initialised (game w1)).
  { destruct (init_result a sx sy sz w w1 Hinit)
      as (b0 & b1 & ds0 & ds1 & _ & _ & _ & _ & _ & _ & _ & _ & _ & Hall).
    exact Hall. }
  split; [exact Hw |]. split.
  - intros cs. destruct (calls_frame cs w1 Hidx) as (Hs & _ & _).
    split; [exact Hs | exact (same_wiring_wired _ _ Hs Hw)].
  - intros cs a' Hrec Hq.
    destruct (calls_frame cs w1 Hidx) as ((Hs & _ & _) & Hi & Ha).
    assert (Hds : exists ds,
               at2 (descriptorSets (game w1))
                   (currentBuffer (game (calls cs w1).2)) = Some ds).
    { unfold at2. destruct Hi as [-> | ->]; cbn; eauto. }
    destruct Hds as [ds Hds]. exists ds. split; [exact Hds |].
    apply update_submission; [| exact Hi | | exact Hrec | exact Hq].
    + unfold initialised, holds in *. rewrite Ha. exact Hall.
    + rewrite Hs. exact Hds.
Qed.

Lemma descriptor_wiring_witness : wiring_contract engine444.
Proof.
  apply (descriptor_wiring init_ok 4 4 4 new_world engine444);
    vm_compute; reflexivity.
Defined.

(** The 4x4x4 engine, concretely: set 10 pairs buffers 5 and 7, set 11
    pairs them the other way round. *)
Example engine444_wiring :
  gridBuffers (game engine444) = (5, 7)
  /\ descriptorSets (game engine444) = (10, 11)
  /\ descriptors (device engine444) !! (10, 0) = Some (whole 5)
  /\ descriptors (device engine444) !! (10, 1) = Some (whole 7)
  /\ descriptors (device engine444) !! (11, 0) = Some (whole 7)
  /\ descriptors (device engine444) !! (11, 1) = Some (whole 5).
Proof. vm_compute. repeat split. Qed.

(** The scenario of the specification: one step on the seeded 4x4x4
    grid submits one dispatch of a single workgroup on set 10 and leaves
    the index at 1. *)
Example engine444_one_step :
  let seed := [SetCell 0 0 0 1; SetCell 1 0 0 1; SetCell 2 0 0 1;
               SetCell 1 1 0 1; SetCell 2 1 0 1; SetCell 2 2 0 1] in
  let r := calls (seed ++ [Update step_ok]) engine444 in
  r.1 = Done tt
  /\ currentBuffer (game r.2) = 1
  /\ submissions (device r.2) =
       [[CmdBindPipeline 4; CmdBindDescriptorSets 3 0 [10];
         CmdPushConstants 3 0 [4; 4; 4]; CmdDispatch 1 1 1]].
Proof. vm_compute. repeat split. Qed.

(** ** Dispatch group counts *)

(** [init] with [init_ok] succeeds for every size. *)
Lemma init_ok_done sx sy sz w : (init init_ok sx sy sz w).1 = Done tt.
Proof. run_init. reflexivity. Qed.

Lemma init_ok_run sx sy sz w :
  init init_ok sx sy sz w = (Done tt, (init init_ok sx sy sz w).2).
Proof.
  rewrite (surjective_pairing (init init_ok sx sy sz w)) at 1.
  rewrite init_ok_done. reflexivity.
Qed.

(** Where the sum does not wrap, the group count is the ceiling of
    [d / 8]. *)
Lemma groupCount_ceil d :
  1 <= d <= 2 ^ 32 - 8 ->
  8 * (groupCount d - 1) < d <= 8 * groupCount d.
Proof.
  intros Hd. unfold groupCount. rewrite wrap32_small by lia.
  Z.div_mod_to_equations. lia.
Qed.

Example groupCount_100 : groupCount 100 = 13.
Proof. reflexivity. Qed.

Example groupCount_64 : groupCount 64 = 8.
Proof. reflexivity. Qed.

(** The counts a step dispatches are [groupCount] of the three sizes
    given to [init]. *)
Lemma update_dispatch a sx sy sz w w1 a' :
  currentBuffer (game w) = 0 ->
  init a sx sy sz w = (Done tt, w1) ->
  recorded a' = true ->
  failed (queueSubmit a') = false ->
  exists pipeline layout ds,
    submissions (device (update a' w1).2) =
      submissions (device w1)
      ++ [[CmdBindPipeline pipeline;
           CmdBindDescriptorSets layout 0 [ds];
           CmdPushConstants layout 0 [sx; sy; sz];
           CmdDispatch (groupCount sx) (groupCount sy) (groupCount sz)]].
Proof.
  intros H0 Hinit Ha Hq.
  destruct (init_result a sx sy sz w w1 Hinit)
    as (b0 & b1 & ds0 & ds1 & _ & _ & Hs & _ & Hx & Hy & Hz & Hc & _ & Hall).
  exists (computePipeline (game w1)), (pipelineLayout (game w1)), ds0.
  rewrite (update_submission a' w1 ds0);
    [| exact Hall | left; congruence | | exact Ha | exact Hq].
  - unfold stepCommands. rewrite Hx, Hy, Hz. reflexivity.
  - rewrite Hs, Hc, H0. reflexivity.
Qed.

(** C8 at the top of the [uint32_t] range.  For a grid dimension of
    4294967295 the ceiling of [d / 8] is 536870912, but [d + 7] wraps to
    6 and the group count is 0: after [init(4294967295, 1, 1)] a step
    dispatches no workgroup along X. *)
Theorem groupCount_wraps_near_uint32_max :
  1 <= 4294967295 < 2 ^ 32
  /\ 8 * (536870912 - 1) < 4294967295 <= 8 * 536870912
  /\ groupCount 4294967295 = 0
  /\ (init init_ok 4294967295 1 1 new_world).1 = Done tt
  /\ exists pipeline layout ds,
       submissions (device (update step_ok long_engine).2) =
         submissions (device long_engine)
         ++ [[CmdBindPipeline pipeline;
              CmdBindDescriptorSets layout 0 [ds];
              CmdPushConstants layout 0 [4294967295; 1; 1];
              CmdDispatch 0 1 1]].
Proof.
  split; [lia |]. split; [lia |]. split; [reflexivity |].
  split; [apply init_ok_done |].
  apply (update_dispatch init_ok 4294967295 1 1 new_world long_engine
           step_ok); [reflexivity | apply init_ok_run | reflexivity ..].
Qed.

(** ** setCell *)

Lemma setCell_out_of_bounds x y z state g :
  holds GridSizes g = true ->
  gridSizeX g <= x \/ gridSizeY g <= y \/ gridSizeZ g <= z ->
  setCell x y z state g = Done g.
Proof.
  intros Hh H. unfold setCell. rewrite Hh. cbn [negb].
  destruct (Z.leb_spec (gridSizeX g) x); [reflexivity |].
  destruct (Z.leb_spec (gridSizeY g) y); [reflexivity |].
  destruct (Z.leb_spec (gridSizeZ g) z); [reflexivity |].
  lia.
Qed.

Lemma linear_index_bound sx sy sz x y z :
  0 <= x < sx -> 0 <= y < sy -> 0 <= z < sz ->
  0 <= y * sx /\ 0 <= z * sx /\ 0 <= z * sx * sy
  /\ x + y * sx < sx * sy
  /\ z * sx < sx * sy * sz
  /\ y * sx < sx * sy * sz
  /\ x + y * sx + z * sx * sy < sx * sy * sz.
Proof.
  intros Hx Hy Hz.
  assert (H1 : y * sx <= (sy - 1) * sx)
    by (apply Z.mul_le_mono_nonneg_r; lia).
  assert (H3 : 0 < sx * sy) by (apply Z.mul_pos_pos; lia).
  assert (H2 : z * (sx * sy) <= (sz - 1) * (sx * sy))
    by (apply Z.mul_le_mono_nonneg_r; lia).
  assert (H4 : z * sx <= (sz - 1) * sx)
    by (apply Z.mul_le_mono_nonneg_r; lia).
  assert (H5 : sx * 1 <= sx * sy) by (apply Z.mul_le_mono_nonneg_l; lia).
  assert (H6 : (sx * sy) * 1 <= (sx * sy) * sz)
    by (apply Z.mul_le_mono_nonneg_l; lia).
  assert (H7 : (sz - 1) * sx <= (sz - 1) * (sx * sy))
    by (apply Z.mul_le_mono_nonneg_l; lia).
  assert (H8 : 0 <= y * sx) by (apply Z.mul_nonneg_nonneg; lia).
  assert (H9 : 0 <= z * sx) by (apply Z.mul_nonneg_nonneg; lia).
  assert (H10 : 0 <= z * sx * sy) by (apply Z.mul_nonneg_nonneg; lia).
  replace (z * sx * sy) with (z * (sx * sy)) in * by ring.
  replace (sx * sy * sz) with ((sz - 1) * (sx * sy) + sx * sy) by ring.
  replace ((sy - 1) * sx) with (sx * sy - sx) in H1 by ring.
  replace ((sz - 1) * sx) with (sx * sz - sx) in H4 by ring.
  repeat split; lia.
Qed.

Lemma cellIndex_linear g x y z :
  sized g ->
  0 <= x < gridSizeX g -> 0 <= y < gridSizeY g -> 0 <= z < gridSizeZ g ->
  cellIndex g x y z = x + y * gridSizeX g + z * gridSizeX g * gridSizeY g
  /\ 0 <= cellIndex g x y z < Z.of_nat (length (gridState g)).
Proof.
  intros (_ & Hsx & Hsy & Hsz & Hfit & Hlen) Hx Hy Hz.
  destruct (linear_index_bound _ _ _ x y z Hx Hy Hz)
    as (B1 & B2 & B3 & B4 & B5 & B6 & B7).
  unfold cellIndex.
  rewrite (wrap32_small (y * gridSizeX g)) by lia.
  rewrite (wrap32_small (x + y * gridSizeX g)) by lia.
  rewrite (wrap32_small (z * gridSizeX g)) by lia.
  rewrite (wrap32_small (z * gridSizeX g * gridSizeY g)) by lia.
  rewrite wrap32_small by lia.
  split; [reflexivity | lia].
Qed.

(** On a grid whose cell count fits in 32 bits, an in-bounds [setCell]
    stores the state at the linear index and touches nothing else. *)
Lemma setCell_in_bounds x y z state g :
  sized g ->
  0 <= x < gridSizeX g -> 0 <= y < gridSizeY g -> 0 <= z < gridSizeZ g ->
  let i := Z.to_nat (x + y * gridSizeX g + z * gridSizeX g * gridSizeY g) in
  exists g',
    setCell x y z state g = Done g'
    /\ gridState g' !! i = Some state
    /\ (forall j, j <> i -> gridState g' !! j = gridState g !! j)
    /\ length (gridState g') = length (gridState g)
    /\ gridSizeX g' = gridSizeX g /\ gridSizeY g' = gridSizeY g
    /\ gridSizeZ g' = gridSizeZ g
    /\ currentBuffer g' = currentBuffer g.
Proof.
  intros Hs Hx Hy Hz i.
  destruct (cellIndex_linear g x y z Hs Hx Hy Hz) as [Hidx Hrange].
  unfold setCell. rewrite (proj1 Hs). cbn [negb].
  destruct (Z.leb_spec (gridSizeX g) x); [lia |].
  destruct (Z.leb_spec (gridSizeY g) y); [lia |].
  destruct (Z.leb_spec (gridSizeZ g) z); [lia |].
  cbn [orb].
  destruct (Z.ltb_spec (cellIndex g x y z) (Z.of_nat (length (gridState g))));
    [| lia].
  eexists. split; [reflexivity |]. cbn. rewrite Hidx. fold i.
  repeat split.
  - apply list_lookup_insert_eq. subst i. lia.
  - intros j Hj. apply list_lookup_insert_ne. congruence.
  - apply length_insert.
Qed.

(** [init] on a fresh engine sizes the mirror to the cell count when that
    count fits in 32 bits. *)
Lemma init_sized a sx sy sz storage dev w1 :
  0 <= sx -> 0 <= sy -> 0 <= sz -> sx * sy * sz < 2 ^ 32 ->
  init a sx sy sz {| device := dev; game := construct storage |}
    = (Done tt, w1) ->
  sized (game w1).
Proof.
  intros Hx Hy Hz Hfit Hinit.
  destruct (init_result a sx sy sz _ w1 Hinit)
    as (b0 & b1 & ds0 & ds1 & _ & _ & _ & _ & Ex & Ey & Ez & _ & Hst & Hall).
  unfold sized. rewrite Ex, Ey, Ez, Hst. cbn [game construct gridState
    set_gridState set_assigned].
  split; [apply (initialised_holds _ Hall) |].
  repeat split; try assumption.
  rewrite length_resize.
  assert (Hxy : 0 <= sx * sy) by (apply Z.mul_nonneg_nonneg; lia).
  assert (Hw : wrap32 (wrap32 (sx * sy) * sz) = sx * sy * sz).
  { destruct (Z.eq_dec sz 0) as [-> | Hnz].
    - rewrite !Z.mul_0_r. reflexivity.
    - assert (sx * sy * 1 <= sx * sy * sz)
        by (apply Z.mul_le_mono_nonneg_l; lia).
      rewrite (wrap32_small (sx * sy)) by lia.
      apply wrap32_small. split; [apply Z.mul_nonneg_nonneg; lia | lia]. }
  rewrite Hw. apply Z2Nat.id. apply Z.mul_nonneg_nonneg; lia.
Qed.

(** The seeding of src/src/main.cpp on the 4x4x4 engine: the six cells
    are set, the others stay dead. *)
Example engine444_seeded :
  let seed := [SetCell 0 0 0 1; SetCell 1 0 0 1; SetCell 2 0 0 1;
               SetCell 1 1 0 1; SetCell 2 1 0 1; SetCell 2 2 0 1] in
  take 16 (gridState (game (calls seed engine444).2))
  = [1; 1; 1; 0; 0; 1; 1; 0; 0; 0; 1; 0; 0; 0; 0; 0]
  /\ drop 16 (gridState (game (calls seed engine444).2)) = replicate 48 0.
Proof. vm_compute. split; reflexivity. Qed.

(** C3 on the wide grid.  [init(256, 16777217, 1)] succeeds and sizes
    the mirror to 256 cells.  The coordinate (0, 16777216, 0) is in
    bounds, its linear index is 4294967296, and [setCell] returns
    normally; but the index it computes wraps to 0, so the state goes to
    cell 0 and the mirror has no cell at the linear index to read back. *)
Theorem setCell_wide_grid_wraps :
  (init init_ok 256 16777217 1 new_world).1 = Done tt
  /\ gridSizeX (game wide_engine) = 256
  /\ gridSizeY (game wide_engine) = 16777217
  /\ gridSizeZ (game wide_engine) = 1
  /\ length (gridState (game wide_engine)) = 256%nat
  /\ 0 + 16777216 * gridSizeX (game wide_engine)
       + 0 * gridSizeX (game wide_engine) * gridSizeY (game wide_engine)
     = 4294967296
  /\ cellIndex (game wide_engine) 0 16777216 0 = 0
  /\ (length <$> (gridState <$>
        returned (setCell 0 16777216 0 1 (game wide_engine))))
     = Some 256%nat
  /\ (gridState <$> returned (setCell 0 16777216 0 1 (game wide_engine)))
       ≫= (fun l => l !! 0%nat)
     = Some 1.
Proof. vm_compute. repeat split. Qed.

(** C9 on the wide grid.  The same call changes cell 0, the cell of
    coordinate (0, 0, 0), from 0 to 1, although the linear index of the
    coordinate written, (0, 16777216, 0), is 4294967296. *)
Theorem setCell_wide_grid_hits_other_cell :
  0 + 16777216 * gridSizeX (game wide_engine)
    + 0 * gridSizeX (game wide_engine) * gridSizeY (game wide_engine)
  = 4294967296
  /\ 0 + 0 * gridSizeX (game wide_engine)
       + 0 * gridSizeX (game wide_engine) * gridSizeY (game wide_engine)
     = 0
  /\ gridState (game wide_engine) !! 0%nat = Some 0
  /\ (gridState <$> returned (setCell 0 16777216 0 1 (game wide_engine)))
       ≫= (fun l => l !! 0%nat)
     = Some 1.
Proof. vm_compute. repeat split. Qed.

End EngineFacts.

(** * Further properties of the debugger *)

Module DebuggerMore.
Import Debugger DebuggerSpec DebuggerNotions.

(** ** Tracking tables *)

(** X1. On an enabled debugger, tracking a handle that is not in the
    table and untracking it again gives back the debugger as it was, for
    buffers and for images.  Untracking a handle that is not in the table
    changes nothing, whether the debugger is enabled or not. *)
Theorem track_untrack_round_trip d :
  (m_enabled d = true ->
   (forall b sz n t,
       m_trackedBuffers d !! b = None ->
       untrackBuffer b (trackBuffer b sz n t d) = d)
   /\ (forall i e f n t,
         m_trackedImages d !! i = None ->
         untrackImage i (trackImage i e f n t d) = d))
  /\ (forall b, m_trackedBuffers d !! b = None -> untrackBuffer b d = d)
  /\ (forall i, m_trackedImages d !! i = None -> untrackImage i d = d).
Proof.
  unfold untrackBuffer, untrackImage, trackBuffer, trackImage.
  split; [intros He; rewrite He; destruct d; cbn in *; split; intros |
          destruct d; cbn in *; split; intros].
  - unfold set_trackedBuffers; cbn. f_equal. by apply delete_insert_id.
  - unfold set_trackedImages; cbn. f_equal. by apply delete_insert_id.
  - unfold set_trackedBuffers; cbn. f_equal. by apply delete_id.
  - unfold set_trackedImages; cbn. f_equal. by apply delete_id.
Qed.

Lemma track_untrack_round_trip_witness :
  untrackBuffer 8 (trackBuffer 8 2048 "next" 12 fresh_debugger)
  = fresh_debugger
  /\ untrackBuffer 8 switched_off = switched_off.
Proof.
  split.
  - apply (proj1 (proj1 (track_untrack_round_trip fresh_debugger) eq_refl)).
    reflexivity.
  - apply (proj1 (proj2 (track_untrack_round_trip switched_off))).
    reflexivity.
Defined.

(** ** Statistics over the tracking tables *)

Lemma wrap64_add_l a b : wrap64 (wrap64 a + b) = wrap64 (a + b).
Proof. unfold wrap64. apply Zplus_mod_idemp_l. Qed.

Lemma stats_bytes d :
  totalBufferBytes (getStatistics d) =
    map_fold (fun _ info acc => wrap64 (acc + bi_size info)) 0
      (m_trackedBuffers d).
Proof. unfold getStatistics. destruct (m_dispatchHistory d); reflexivity. Qed.

Lemma stats_pixels d :
  totalImagePixels (getStatistics d) =
    map_fold (fun _ info acc => wrap64 (acc + pixels (ii_extent info))) 0
      (m_trackedImages d).
Proof. unfold getStatistics. destruct (m_dispatchHistory d); reflexivity. Qed.

(** Adding one entry to a table adds its weight to the wrapped sum. *)
Lemma wrapped_sum_insert {A} (weight : A -> Z) (m : gmap Z A) k x :
  m !! k = None ->
  map_fold (fun _ v acc => wrap64 (acc + weight v)) 0 (<[k := x]> m)
  = wrap64 (map_fold (fun _ v acc => wrap64 (acc + weight v)) 0 m
            + weight x).
Proof.
  intros Hk.
  rewrite (map_fold_insert_L (fun _ v acc => wrap64 (acc + weight v)) 0 k x m);
    [reflexivity | | exact Hk].
  intros j1 j2 z1 z2 y _ _ _. rewrite !wrap64_add_l. f_equal. lia.
Qed.

(** X2. On an enabled debugger, tracking a buffer whose handle is not in
    the table raises [totalBufferBytes] by its size (modulo 2^64), and
    the total of a table holding a handle is the total without it plus
    the size recorded for it.  The same holds for images and
    [totalImagePixels], an image weighing the 32-bit product of its three
    extents. *)
Theorem statistics_table_accounting d :
  (m_enabled d = true ->
     forall b sz n t,
       m_trackedBuffers d !! b = None ->
       totalBufferBytes (getStatistics (trackBuffer b sz n t d))
       = wrap64 (totalBufferBytes (getStatistics d) + sz))
  /\ (forall b info,
        m_trackedBuffers d !! b = Some info ->
        totalBufferBytes (getStatistics d)
        = wrap64 (totalBufferBytes (getStatistics (untrackBuffer b d))
                  + bi_size info))
  /\ (m_enabled d = true ->
     forall i e f n t,
       m_trackedImages d !! i = None ->
       totalImagePixels (getStatistics (trackImage i e f n t d))
       = wrap64 (totalImagePixels (getStatistics d)
                 + wrap32 (wrap32 (width e * height e) * depth e)))
  /\ (forall i info,
        m_trackedImages d !! i = Some info ->
        totalImagePixels (getStatistics d)
        = wrap64 (totalImagePixels (getStatistics (untrackImage i d))
                  + pixels (ii_extent info))).
Proof.
  repeat split.
  - intros He b sz n t Hb. rewrite !stats_bytes. unfold trackBuffer.
    rewrite He. cbn.
    rewrite (wrapped_sum_insert bi_size _ b _ Hb). reflexivity.
  - intros b info Hb. rewrite !stats_bytes. unfold untrackBuffer. cbn.
    rewrite <- (wrapped_sum_insert bi_size (delete b (m_trackedBuffers d))
                  b info) by apply lookup_delete_eq.
    rewrite insert_delete_id by exact Hb. reflexivity.
  - intros He i e f n t Hi. rewrite !stats_pixels. unfold trackImage.
    rewrite He. cbn.
    rewrite (wrapped_sum_insert (fun v => pixels (ii_extent v)) _ i _ Hi).
    reflexivity.
  - intros i info Hi. rewrite !stats_pixels. unfold untrackImage. cbn.
    rewrite <- (wrapped_sum_insert (fun v => pixels (ii_extent v))
                  (delete i (m_trackedImages d)) i info)
      by apply lookup_delete_eq.
    rewrite insert_delete_id by exact Hi. reflexivity.
Qed.

Lemma statistics_table_accounting_witness :
  totalBufferBytes
    (getStatistics (trackBuffer 8 2048 "next" 12 fresh_debugger))
  = wrap64 (totalBufferBytes (getStatistics fresh_debugger) + 2048).
Proof.
  apply (proj1 (statistics_table_accounting fresh_debugger) eq_refl).
  reflexivity.
Defined.

(** ** Statistics over the history *)

Lemma dispatches_named_cons name c h :
  dispatches_named name (c :: h) =
    (if decide (shaderName c = name) then 1 else 0) + dispatches_named name h.
Proof.
  unfold dispatches_named. rewrite filter_cons.
  destruct (decide (shaderName c = name)); cbn [length]; lia.
Qed.

Lemma dispatches_named_nonneg name h : 0 <= dispatches_named name h.
Proof. unfold dispatches_named. lia. Qed.

(** The loop of [getStatistics], started from any accumulator. *)
Lemma account_counts name h : forall acc,
  (fold_left account h acc).1.2 !! name =
    if dispatches_named name h =? 0 then acc.1.2 !! name
    else Some (wrap64 (default 0 (acc.1.2 !! name)
                       + dispatches_named name h)).
Proof.
  induction h as [| c h IH]; intros acc; [reflexivity |].
  cbn [fold_left]. rewrite IH, dispatches_named_cons.
  pose proof (dispatches_named_nonneg name h) as Hn.
  unfold account. cbn [fst snd].
  destruct (decide (shaderName c = name)) as [-> | Hne].
  - rewrite lookup_insert_eq. cbn [default]. unfold id.
    destruct (Z.eqb_spec (dispatches_named name h) 0) as [-> | Hnz].
    + rewrite Z.add_0_r. reflexivity.
    + destruct (Z.eqb_spec (1 + dispatches_named name h) 0); [lia |].
      rewrite wrap64_add_l. do 2 f_equal. lia.
  - rewrite lookup_insert_ne by exact Hne. rewrite Z.add_0_l. reflexivity.
Qed.

Lemma account_timings name h : forall acc,
  is_Some ((fold_left account h acc).2 !! name) <->
  is_Some (acc.2 !! name) \/ 0 < dispatches_named name h.
Proof.
  induction h as [| c h IH]; intros acc.
  - cbn. unfold dispatches_named. cbn. intuition lia.
  - cbn [fold_left]. rewrite IH, dispatches_named_cons.
    pose proof (dispatches_named_nonneg name h) as Hn.
    unfold account. cbn [fst snd].
    destruct (decide (shaderName c = name)) as [-> | Hne].
    + rewrite lookup_insert_eq. split; [intros _; right; lia |].
      intros _. left. eauto.
    + rewrite lookup_insert_ne by exact Hne. rewrite Z.add_0_l. reflexivity.
Qed.

(** X3. For every debugger state and shader name, [getStatistics]
    reports as [totalDispatches] the number of records in the history, and
    under [dispatchCounts] the number of those records that carry the name
    (modulo 2^64), with no entry at all for a name no record carries;
    [shaderTimings] has an entry for exactly the same names. *)
Theorem statistics_dispatch_counts d name :
  totalDispatches (getStatistics d) = Z.of_nat (length (m_dispatchHistory d))
  /\ dispatchCounts (getStatistics d) !! name =
       (if dispatches_named name (m_dispatchHistory d) =? 0 then None
        else Some (wrap64 (dispatches_named name (m_dispatchHistory d))))
  /\ (is_Some (shaderTimings (getStatistics d) !! name) <->
      0 < dispatches_named name (m_dispatchHistory d)).
Proof.
  unfold getStatistics.
  destruct (m_dispatchHistory d) as [| c h] eqn:Hh.
  - cbn. rewrite !lookup_empty. repeat split.
    + intros [x Hx]. discriminate Hx.
    + unfold dispatches_named. cbn. lia.
  - cbn [totalDispatches dispatchCounts shaderTimings].
    split; [reflexivity |]. split.
    + rewrite account_counts. cbn [fst snd]. rewrite lookup_empty.
      reflexivity.
    + rewrite account_timings. cbn [snd]. rewrite lookup_empty.
      split; [intros [[x Hx] | H]; [discriminate Hx | exact H] | auto].
Qed.

(** ** Timestamps *)

Ltac split_ifs :=
  repeat match goal with
    | |- context [if ?b then _ else _] => destruct b
    end.

(** Every call but [insertTimestamp] leaves the timestamp members alone
    and records at most debug labels. *)
Lemma exec_timestamp_frame o d cb :
  (forall n, o <> InsertTimestamp n) ->
  m_timestampQueryPool (exec o (d, cb)).1 = m_timestampQueryPool d
  /\ m_currentTimestampIndex (exec o (d, cb)).1 = m_currentTimestampIndex d
  /\ m_timestampMarkers (exec o (d, cb)).1 = m_timestampMarkers d
  /\ exists extra,
       (exec o (d, cb)).2 = cb ++ extra /\ timestamp_writes extra = [].
Proof.
  intros Hno.
  destruct o; try (exfalso; eapply Hno; reflexivity); cbn [exec fst snd];
    unfold validateShaderModule, validateComputePipeline, trackBuffer,
      trackImage, beginDispatch, endDispatch, validateMemoryBarrier,
      validateBufferMemoryBarrier, validateImageMemoryBarrier,
      checkSynchronizationHazards, beginDebugLabel, endDebugLabel,
      insertDebugLabel;
    split_ifs; cbn;
    (repeat split;
     first [ exists []; split; [symmetry; apply app_nil_r | reflexivity]
           | eexists; split; reflexivity ]).
Qed.

Lemma timestamp_writes_app cs1 cs2 :
  timestamp_writes (cs1 ++ cs2) = timestamp_writes cs1 ++ timestamp_writes cs2.
Proof. apply omap_app. Qed.

Lemma stamped_snoc pool n :
  0 <= n ->
  stamped pool (n + 1)
  = stamped pool n ++ [(VK_PIPELINE_STAGE_BOTTOM_OF_PIPE_BIT, pool, n)].
Proof.
  intros Hn. unfold stamped.
  rewrite seqZ_app by lia. rewrite fmap_app. reflexivity.
Qed.

(** X4. From construction on, whatever calls are made: the timestamp
    index stays between 0 and 1000; the markers are numbered 0, 1, ...,
    index - 1 in the order they were requested; the caller's command
    buffer is only ever appended to; and the appended timestamp writes
    fill the query slots 0 .. index - 1 of the debugger's pool, each once
    and in order, so no write names a slot outside the pool of 1000. *)
Theorem timestamps_fill_slots_in_order junk a ops cb :
  let d0 := construct junk a in
  let s := run ops (d0, cb) in
  m_timestampQueryPool s.1 = m_timestampQueryPool d0
  /\ 0 <= m_currentTimestampIndex s.1 <= 1000
  /\ (m_timestampMarkers s.1).*1 = seqZ 0 (m_currentTimestampIndex s.1)
  /\ exists extra,
       s.2 = cb ++ extra
       /\ timestamp_writes extra =
            stamped (m_timestampQueryPool d0) (m_currentTimestampIndex s.1).
Proof.
  cbv zeta. set (d0 := construct junk a).
  assert (Hinit :
    m_timestampQueryPool (d0, cb).1 = m_timestampQueryPool d0
    /\ 0 <= m_currentTimestampIndex (d0, cb).1 <= 1000
    /\ (m_timestampMarkers (d0, cb).1).*1
       = seqZ 0 (m_currentTimestampIndex (d0, cb).1)
    /\ exists extra,
         (d0, cb).2 = cb ++ extra
         /\ timestamp_writes extra =
              stamped (m_timestampQueryPool d0)
                (m_currentTimestampIndex (d0, cb).1)).
  { subst d0. unfold construct.
    destruct (failed (queryPoolResult a)); cbn;
      (split; [reflexivity |]); (split; [lia |]); (split; [reflexivity |]);
      exists []; split; try reflexivity; symmetry; apply app_nil_r. }
  generalize dependent (d0, cb). generalize (m_timestampQueryPool d0).
  clear d0. intros pool. unfold run.
  induction ops as [| o ops IH]; intros s Hs; [exact Hs |].
  cbn [fold_left]. apply IH. clear IH.
  destruct s as [d out]. cbn [fst snd] in Hs.
  destruct Hs as (Hpool & Hidx & Hmarks & extra & Hout & Hw).
  destruct o;
    try (match goal with
         | |- context [exec ?o _] =>
             destruct (exec_timestamp_frame o d out ltac:(discriminate))
               as (E1 & E2 & E3 & more & E4 & E5);
             rewrite E1, E2, E3, E4;
             split; [exact Hpool |]; split; [exact Hidx |];
             split; [exact Hmarks |];
             exists (extra ++ more); split;
             [rewrite Hout, app_assoc; reflexivity
             | rewrite timestamp_writes_app, E5, app_nil_r; exact Hw]
         end).
  cbn [exec]. unfold insertTimestamp.
  destruct (negb (m_enabled d)); cbn [orb fst snd].
  { split; [exact Hpool |]; split; [exact Hidx |]; split; [exact Hmarks |].
    exists extra. split; assumption. }
  destruct (Z.leb_spec 1000 (m_currentTimestampIndex d)) as [Hfull | Hroom];
    cbn [fst snd].
  { split; [exact Hpool |]; split; [exact Hidx |]; split; [exact Hmarks |].
    exists extra. split; assumption. }
  cbn. rewrite (wrap32_small (m_currentTimestampIndex d + 1)) by lia.
  split; [exact Hpool |]. split; [lia |]. split.
  - rewrite fmap_app, Hmarks. cbn. rewrite seqZ_app by lia.
    reflexivity.
  - exists (extra ++ [CmdWriteTimestamp VK_PIPELINE_STAGE_BOTTOM_OF_PIPE_BIT
                        (m_timestampQueryPool d) (m_currentTimestampIndex d)]).
    split; [rewrite Hout, app_assoc; reflexivity |].
    rewrite timestamp_writes_app, Hw, stamped_snoc by lia.
    rewrite Hpool. reflexivity.
Qed.

(** ** Message ledgers *)

Lemma exec_messages_grow o d cb :
  keeps_messages o = true ->
  m_errors d `prefix_of` m_errors (exec o (d, cb)).1
  /\ m_warnings d `prefix_of` m_warnings (exec o (d, cb)).1.
Proof.
  intros Hk.
  destruct o; try discriminate Hk; cbn [exec fst snd];
    unfold validateShaderModule, validateComputePipeline, trackBuffer,
      trackImage, beginDispatch, endDispatch, insertTimestamp,
      validateMemoryBarrier, validateBufferMemoryBarrier,
      validateImageMemoryBarrier, checkSynchronizationHazards;
    split_ifs; cbn;
    split; first [ reflexivity | apply prefix_app_r; reflexivity ].
Qed.

(** X5. The two ledgers are append-only: over any sequence of calls that
    does not contain [clearMessages], the errors and the warnings present
    before are still there afterwards, in the same order, as the first
    entries of the ledgers. *)
Theorem messages_append_only ops : forall d cb,
  forallb keeps_messages ops = true ->
  m_errors d `prefix_of` m_errors (run ops (d, cb)).1
  /\ m_warnings d `prefix_of` m_warnings (run ops (d, cb)).1.
Proof.
  unfold run. induction ops as [| o ops IH]; intros d cb Hk.
  - split; reflexivity.
  - cbn [forallb] in Hk. apply andb_prop in Hk as [Ho Hops].
    cbn [fold_left].
    destruct (exec_messages_grow o d cb Ho) as [He Hw].
    destruct (exec o (d, cb)) as [d1 cb1]. cbn [fst] in He, Hw.
    destruct (IH d1 cb1 Hops) as [He' Hw'].
    split; etransitivity; eassumption.
Qed.

Lemma messages_append_only_witness :
  m_errors fresh_debugger
    `prefix_of`
    m_errors (run [ValidateShaderModule 0 "life";
                   CheckSynchronizationHazards 0 2048 64 64;
                   SetEnabled false]
                (fresh_debugger, [])).1
  /\ m_warnings fresh_debugger
       `prefix_of`
       m_warnings (run [ValidateShaderModule 0 "life";
                        CheckSynchronizationHazards 0 2048 64 64;
                        SetEnabled false]
                     (fresh_debugger, [])).1.
Proof.
  apply (messages_append_only
           [ValidateShaderModule 0 "life";
            CheckSynchronizationHazards 0 2048 64 64;
            SetEnabled false] fresh_debugger []).
  reflexivity.
Defined.

(** ** Validators *)

(** X6. A validator answers [false] exactly when the debugger is enabled
    and the handle it is given is null, and then the error ledger has
    grown by exactly one message; when it answers [true] the error ledger
    is as it was.  This holds for the shader-module, pipeline,
    buffer-barrier and image-barrier validators;
    [validateMemoryBarrier] never answers [false]. *)
Theorem validators_fail_with_one_error d :
  (forall m n,
      ((validateShaderModule m n d).1 = false
       <-> m_enabled d = true /\ m = VK_NULL_HANDLE)
      /\ ((validateShaderModule m n d).1 = false ->
          exists msg,
            m_errors (validateShaderModule m n d).2 = m_errors d ++ [msg])
      /\ ((validateShaderModule m n d).1 = true ->
          (validateShaderModule m n d).2 = d))
  /\ (forall p n,
      ((validateComputePipeline p n d).1 = false
       <-> m_enabled d = true /\ p = VK_NULL_HANDLE)
      /\ ((validateComputePipeline p n d).1 = false ->
          exists msg,
            m_errors (validateComputePipeline p n d).2 = m_errors d ++ [msg])
      /\ ((validateComputePipeline p n d).1 = true ->
          (validateComputePipeline p n d).2 = d))
  /\ (forall b,
      ((validateImageMemoryBarrier b d).1 = false
       <-> m_enabled d = true /\ ib_image b = VK_NULL_HANDLE)
      /\ ((validateImageMemoryBarrier b d).1 = false ->
          exists msg,
            m_errors (validateImageMemoryBarrier b d).2 = m_errors d ++ [msg])
      /\ ((validateImageMemoryBarrier b d).1 = true ->
          (validateImageMemoryBarrier b d).2 = d))
  /\ (forall b,
      ((validateBufferMemoryBarrier b d).1 = false
       <-> m_enabled d = true /\ bb_buffer b = VK_NULL_HANDLE)
      /\ ((validateBufferMemoryBarrier b d).1 = false ->
          exists msg,
            m_errors (validateBufferMemoryBarrier b d).2 = m_errors d ++ [msg]
            /\ m_warnings (validateBufferMemoryBarrier b d).2 = m_warnings d)
      /\ ((validateBufferMemoryBarrier b d).1 = true ->
          m_errors (validateBufferMemoryBarrier b d).2 = m_errors d))
  /\ (forall b,
      (validateMemoryBarrier b d).1 = true
      /\ m_errors (validateMemoryBarrier b d).2 = m_errors d).
Proof.
  unfold validateShaderModule, validateComputePipeline,
    validateImageMemoryBarrier, validateBufferMemoryBarrier,
    validateMemoryBarrier.
  repeat split; intros;
    repeat match goal with
      | |- context [?x =? ?y] => destruct (Z.eqb_spec x y)
      | H : context [?x =? ?y] |- _ => destruct (Z.eqb_spec x y)
      | |- context [m_enabled d] => destruct (m_enabled d)
      | H : context [m_enabled d] |- _ => destruct (m_enabled d)
      end;
    cbn in *;
    repeat match goal with H : _ /\ _ |- _ => destruct H end;
    try reflexivity; try discriminate; try congruence; eauto.
Qed.

(** ** Opening and closing dispatches *)

(** X7. On an enabled debugger whose history is not full, a
    [beginDispatch] followed by [endDispatch] files exactly one record, at
    the back of the history, carrying the name, the group counts and the
    two clock readings, and leaves no dispatch open.  A second
    [beginDispatch] before the [endDispatch] replaces the first: only the
    second is filed.  An [endDispatch] right after an [endDispatch]
    changes nothing, in any state. *)
Theorem dispatch_open_close d :
  m_enabled d = true ->
  (length (m_dispatchHistory d) < 1000)%nat ->
  (forall n gx gy gz t0 t1,
      m_dispatchHistory (endDispatch t1 (beginDispatch n gx gy gz t0 d))
      = m_dispatchHistory d ++ [filed n gx gy gz t0 t1]
      /\ m_inDispatch (endDispatch t1 (beginDispatch n gx gy gz t0 d))
         = false)
  /\ (forall n1 x1 y1 z1 ta n2 x2 y2 z2 tb t1,
        m_dispatchHistory
          (endDispatch t1
             (beginDispatch n2 x2 y2 z2 tb (beginDispatch n1 x1 y1 z1 ta d)))
        = m_dispatchHistory d ++ [filed n2 x2 y2 z2 tb t1])
  /\ (forall d1 t1 t2, endDispatch t2 (endDispatch t1 d1) = endDispatch t1 d1).
Proof.
  intros He Hlen. split; [| split].
  - intros n gx gy gz t0 t1.
    unfold endDispatch, beginDispatch. rewrite He. cbn. rewrite He. cbn.
    rewrite length_app. cbn [length].
    destruct (Z.ltb_spec 1000 (Z.of_nat (length (m_dispatchHistory d) + 1)));
      [lia | split; reflexivity].
  - intros n1 x1 y1 z1 ta n2 x2 y2 z2 tb t1.
    unfold endDispatch, beginDispatch. rewrite He. cbn. rewrite He. cbn.
    rewrite He. cbn. rewrite length_app. cbn [length].
    destruct (Z.ltb_spec 1000 (Z.of_nat (length (m_dispatchHistory d) + 1)));
      [lia | reflexivity].
  - intros d1 t1 t2. unfold endDispatch at 1.
    destruct (negb (m_enabled (endDispatch t1 d1))
              || negb (m_inDispatch (endDispatch t1 d1))) eqn:E;
      [reflexivity |].
    exfalso. revert E. unfold endDispatch.
    destruct (m_enabled d1) eqn:E1; destruct (m_inDispatch d1) eqn:E2; cbn;
      rewrite ?E1, ?E2; cbn; discriminate.
Qed.

Lemma dispatch_open_close_witness :
  m_dispatchHistory
    (endDispatch 9 (beginDispatch "life" 4 4 4 2 fresh_debugger))
  = m_dispatchHistory fresh_debugger ++ [filed "life" 4 4 4 2 9]
  /\ m_inDispatch
       (endDispatch 9 (beginDispatch "life" 4 4 4 2 fresh_debugger))
     = false.
Proof.
  apply (proj1 (dispatch_open_close fresh_debugger eq_refl
                  ltac:(vm_compute; lia))).
Defined.

(** ** Hazard check *)

Lemma land_bit6 a : Z.land a 64 = if Z.testbit a 6 then 64 else 0.
Proof.
  apply Z.bits_inj'. intros n Hn. rewrite Z.land_spec.
  change 64 with (2 ^ 6). rewrite Z.pow2_bits_eqb by lia.
  destruct (Z.eqb_spec 6 n) as [<- | Hne].
  - rewrite andb_true_r. destruct (Z.testbit a 6) eqn:E.
    + rewrite Z.pow2_bits_true by lia. reflexivity.
    + rewrite Z.bits_0. reflexivity.
  - rewrite andb_false_r. destruct (Z.testbit a 6).
    + rewrite Z.pow2_bits_false by lia. reflexivity.
    + rewrite Z.bits_0. reflexivity.
Qed.

(** X8. On an enabled debugger [checkSynchronizationHazards] adds one
    warning exactly when both access masks have the shader-write bit
    (bit 6) set, and one error exactly when one of the two stage masks is
    0; the two findings do not exclude each other, and the call changes
    nothing but the two ledgers. *)
Theorem hazard_check_findings d srcStage dstStage srcAccess dstAccess :
  m_enabled d = true ->
  m_warnings (checkSynchronizationHazards srcStage dstStage srcAccess
                dstAccess d)
  = m_warnings d
    ++ (if Z.testbit srcAccess 6 && Z.testbit dstAccess 6
        then ["Potential write-after-write hazard detected"] else [])
  /\ m_errors (checkSynchronizationHazards srcStage dstStage srcAccess
                 dstAccess d)
     = m_errors d
       ++ (if (srcStage =? 0) || (dstStage =? 0)
           then ["Pipeline barrier has invalid stage flags"] else [])
  /\ set_messages (m_errors d) (m_warnings d)
       (checkSynchronizationHazards srcStage dstStage srcAccess dstAccess d)
     = d.
Proof.
  intros He. unfold checkSynchronizationHazards, VK_ACCESS_SHADER_WRITE_BIT.
  rewrite He, !land_bit6. cbn [negb].
  destruct (Z.testbit srcAccess 6), (Z.testbit dstAccess 6);
    destruct (srcStage =? 0), (dstStage =? 0); destruct d; cbn in *;
    rewrite ?app_nil_r; repeat split.
Qed.

Lemma hazard_check_findings_witness :
  m_warnings (checkSynchronizationHazards 0 2048 64 96 fresh_debugger)
  = m_warnings fresh_debugger
    ++ (if Z.testbit 64 6 && Z.testbit 96 6
        then ["Potential write-after-write hazard detected"] else [])
  /\ m_errors (checkSynchronizationHazards 0 2048 64 96 fresh_debugger)
     = m_errors fresh_debugger
       ++ (if (0 =? 0) || (2048 =? 0)
           then ["Pipeline barrier has invalid stage flags"] else [])
  /\ set_messages (m_errors fresh_debugger) (m_warnings fresh_debugger)
       (checkSynchronizationHazards 0 2048 64 96 fresh_debugger)
     = fresh_debugger.
Proof.
  apply (hazard_check_findings fresh_debugger 0 2048 64 96). reflexivity.
Defined.

End DebuggerMore.

(** * Further properties of the engine *)

Module EngineMore.
Import Engine EngineSpec EngineNotions EngineFacts.
Local Open Scope host_scope.

(** ** The host mirror on grids whose cell count fits in 32 bits *)

Lemma setCell_keeps_sized x y z state g g' :
  sized g -> setCell x y z state g = Done g' -> sized g'.
Proof.
  intros Hs. unfold setCell. rewrite (proj1 Hs). cbn [negb].
  destruct (_ || _); [intros [= <-]; exact Hs |].
  destruct (_ <? _); [| discriminate].
  intros [= <-]. unfold sized, holds in *. cbn. rewrite length_insert.
  exact Hs.
Qed.

(** X9. After a successful [init] of a freshly constructed engine whose
    cell count sizeX * sizeY * sizeZ is below 2^32, [setCell] on an
    in-bounds coordinate returns normally, the mirror then holds the state
    at linear index x + y * sizeX + z * sizeX * sizeY, and every other
    cell, the length of the mirror, the three sizes and the current-buffer
    index are as before. *)
Theorem grid_write_read a sx sy sz storage dev w1 x y z state :
  0 <= sx -> 0 <= sy -> 0 <= sz -> sx * sy * sz < 2 ^ 32 ->
  init a sx sy sz {| device := dev; game := construct storage |}
    = (Done tt, w1) ->
  0 <= x < sx -> 0 <= y < sy -> 0 <= z < sz ->
  exists g',
    setCell x y z state (game w1) = Done g'
    /\ getGridState g' !! Z.to_nat (x + y * sx + z * sx * sy) = Some state
    /\ (forall j, j <> Z.to_nat (x + y * sx + z * sx * sy) ->
          getGridState g' !! j = getGridState (game w1) !! j)
    /\ Z.of_nat (length (getGridState g')) = sx * sy * sz
    /\ gridSizeX g' = sx /\ gridSizeY g' = sy /\ gridSizeZ g' = sz
    /\ currentBuffer g' = 0.
Proof.
  intros Hsx Hsy Hsz Hfit Hinit Hx Hy Hz.
  pose proof (init_sized a sx sy sz storage dev w1 Hsx Hsy Hsz Hfit Hinit)
    as Hsized.
  destruct (init_result a sx sy sz _ w1 Hinit)
    as (b0 & b1 & ds0 & ds1 & _ & _ & _ & _ & Ex & Ey & Ez & Ec & _).
  cbn in Ec.
  destruct (setCell_in_bounds x y z state (game w1) Hsized)
    as (g' & Hset & Hread & Hother & Hlen & Gx & Gy & Gz & Gc);
    rewrite ?Ex, ?Ey, ?Ez; try assumption.
  rewrite Ex, Ey in Hread, Hother.
  exists g'. unfold getGridState.
  destruct Hsized as (_ & _ & _ & _ & _ & Hcells).
  rewrite Ex, Ey, Ez in Hcells.
  repeat split; try congruence; assumption.
Qed.

Lemma grid_write_read_witness :
  exists g',
    setCell 2 1 0 1 (game engine444) = Done g'
    /\ getGridState g' !! Z.to_nat (2 + 1 * 4 + 0 * 4 * 4) = Some 1
    /\ (forall j, j <> Z.to_nat (2 + 1 * 4 + 0 * 4 * 4) ->
          getGridState g' !! j = getGridState (game engine444) !! j)
    /\ Z.of_nat (length (getGridState g')) = 4 * 4 * 4
    /\ gridSizeX g' = 4 /\ gridSizeY g' = 4 /\ gridSizeZ g' = 4
    /\ currentBuffer g' = 0.
Proof.
  apply (grid_write_read init_ok 4 4 4 blank_storage blank_device engine444
           2 1 0 1); first [lia | apply init_ok_run].
Defined.

(** Distinct in-bounds coordinates have distinct linear indices. *)
Lemma linear_index_injective sx sy sz x1 y1 z1 x2 y2 z2 :
  0 <= x1 < sx -> 0 <= y1 < sy -> 0 <= z1 < sz ->
  0 <= x2 < sx -> 0 <= y2 < sy -> 0 <= z2 < sz ->
  x1 + y1 * sx + z1 * sx * sy = x2 + y2 * sx + z2 * sx * sy ->
  x1 = x2 /\ y1 = y2 /\ z1 = z2.
Proof.
  intros Hx1 Hy1 Hz1 Hx2 Hy2 Hz2 E.
  assert (E1 : sx * (y1 + sy * z1) + x1 = sx * (y2 + sy * z2) + x2)
    by (ring_simplify; ring_simplify in E; lia).
  destruct (Z.div_mod_unique sx _ _ x1 x2 (or_introl Hx1) (or_introl Hx2) E1)
    as [Eq Ex].
  assert (E2 : sy * z1 + y1 = sy * z2 + y2) by lia.
  destruct (Z.div_mod_unique sy _ _ y1 y2 (or_introl Hy1) (or_introl Hy2) E2)
    as [Ez Ey].
  auto.
Qed.

(** X10. On a grid whose cell count fits in 32 bits, two different
    in-bounds coordinates address two different cells, so seeding one
    cell never clobbers another: after [setCell] on the first and then on
    the second, the mirror holds the first state at the first
    coordinate's cell and the second state at the second's. *)
Theorem setCell_distinct_cells g x1 y1 z1 s1 x2 y2 z2 s2 :
  sized g ->
  0 <= x1 < gridSizeX g -> 0 <= y1 < gridSizeY g -> 0 <= z1 < gridSizeZ g ->
  0 <= x2 < gridSizeX g -> 0 <= y2 < gridSizeY g -> 0 <= z2 < gridSizeZ g ->
  (x1, y1, z1) <> (x2, y2, z2) ->
  cellIndex g x1 y1 z1 <> cellIndex g x2 y2 z2
  /\ exists g1 g2,
       setCell x1 y1 z1 s1 g = Done g1
       /\ setCell x2 y2 z2 s2 g1 = Done g2
       /\ getGridState g2 !! Z.to_nat (cellIndex g x1 y1 z1) = Some s1
       /\ getGridState g2 !! Z.to_nat (cellIndex g x2 y2 z2) = Some s2.
Proof.
  intros Hs Hx1 Hy1 Hz1 Hx2 Hy2 Hz2 Hne.
  destruct (cellIndex_linear g x1 y1 z1 Hs Hx1 Hy1 Hz1) as [E1 R1].
  destruct (cellIndex_linear g x2 y2 z2 Hs Hx2 Hy2 Hz2) as [E2 R2].
  assert (Hidx : cellIndex g x1 y1 z1 <> cellIndex g x2 y2 z2).
  { rewrite E1, E2. intros E.
    destruct (linear_index_injective _ _ _ _ _ _ _ _ _
                Hx1 Hy1 Hz1 Hx2 Hy2 Hz2 E) as (-> & -> & ->).
    apply Hne. reflexivity. }
  split; [exact Hidx |].
  destruct (setCell_in_bounds x1 y1 z1 s1 g Hs Hx1 Hy1 Hz1)
    as (g1 & Hset1 & Hread1 & _ & Hlen1 & Gx & Gy & Gz & _).
  pose proof (setCell_keeps_sized _ _ _ _ _ _ Hs Hset1) as Hs1.
  destruct (setCell_in_bounds x2 y2 z2 s2 g1 Hs1)
    as (g2 & Hset2 & Hread2 & Hother2 & _); rewrite ?Gx, ?Gy, ?Gz;
    try assumption.
  rewrite Gx, Gy in Hread2, Hother2.
  exists g1, g2. unfold getGridState. rewrite E1, E2.
  repeat split; try assumption.
  rewrite Hother2; [exact Hread1 |].
  rewrite <- E1, <- E2. intros E. apply Hidx. apply Z2Nat.inj; lia.
Qed.

Lemma setCell_distinct_cells_witness :
  cellIndex (game engine444) 0 0 0 <> cellIndex (game engine444) 1 0 0
  /\ exists g1 g2,
       setCell 0 0 0 1 (game engine444) = Done g1
       /\ setCell 1 0 0 1 g1 = Done g2
       /\ getGridState g2 !! Z.to_nat (cellIndex (game engine444) 0 0 0)
          = Some 1
       /\ getGridState g2 !! Z.to_nat (cellIndex (game engine444) 1 0 0)
          = Some 1.
Proof.
  apply (setCell_distinct_cells (game engine444) 0 0 0 1 1 0 0 1);
    try (vm_compute; split; [discriminate | reflexivity]);
    try discriminate.
  vm_compute. repeat split; discriminate.
Defined.

(** X11. [reset] sets every cell of the mirror to 0 and keeps its
    length, the three sizes and the current-buffer index; it forgets every
    earlier [setCell] (resetting after a [setCell] gives the same engine as
    resetting before it), and resetting twice is resetting once. *)
Theorem reset_clears g :
  (forall i, (i < length (getGridState g))%nat ->
     getGridState (reset g) !! i = Some 0)
  /\ length (getGridState (reset g)) = length (getGridState g)
  /\ gridSizeX (reset g) = gridSizeX g
  /\ gridSizeY (reset g) = gridSizeY g
  /\ gridSizeZ (reset g) = gridSizeZ g
  /\ currentBuffer (reset g) = currentBuffer g
  /\ (forall x y z state g',
        setCell x y z state g = Done g' -> reset g' = reset g)
  /\ reset (reset g) = reset g.
Proof.
  unfold reset, getGridState. cbn. repeat split.
  - intros i Hi. apply lookup_replicate_2. exact Hi.
  - apply length_replicate.
  - intros x y z state g'. unfold setCell.
    destruct (negb _); [discriminate |].
    destruct (_ || _); [intros [= <-]; reflexivity |].
    destruct (_ <? _); [| discriminate].
    intros [= <-]. unfold set_gridState. cbn. rewrite length_insert.
    reflexivity.
  - unfold set_gridState. cbn. rewrite length_replicate. reflexivity.
Qed.

(** ** How [init] ends *)

Ltac init_case :=
  repeat split; intros; try discriminate; try congruence; eauto.

Lemma init_ends a sx sy sz w :
  (init a sx sy sz w).1 <> Undefined
  /\ ((init a sx sy sz w).1 = Done tt
      <-> grid_fits a sx sy sz (game w) && all_succeed a = true).
Proof.
  unfold grid_fits, all_succeed. run_init. cbn.
  destruct (growGrid a) as [what |];
    [destruct (has_to_grow _ _); cbn; [init_case |] |];
    (destruct (shaderFile a); cbn; [| init_case]);
    (destruct (codeBuffer a); cbn; [init_case |]);
    (destruct (failed (createShaderModule a)); cbn; [init_case |]);
    (destruct (failed (createDescriptorSetLayout a)); cbn; [init_case |]);
    (destruct (failed (createPipelineLayout a)); cbn; [init_case |]);
    (destruct (failed (createComputePipelines a)); cbn; [init_case |]);
    (destruct (failed (createBuffer a 0)); cbn; [init_case |]);
    (destruct (failed (createBuffer a 1)); cbn; [init_case |]);
    (destruct (failed (createDescriptorPool a)); cbn; [init_case |]);
    (destruct (failed (allocateDescriptorSets a 0)); cbn; [init_case |]);
    destruct (failed (allocateDescriptorSets a 1)); cbn; init_case.
Qed.



(** ** What a step leaves on the device *)

Ltac keep_handles H :=
  first [ exact H
        | split; [destruct H; cbn; lia |];
          intros k Hk; destruct H as [_ H]; specialize (H k Hk); cbn; lia ].

Lemma init_keeps_handles_ok a sx sy sz w :
  handles_ok (device w) -> handles_ok (device (init a sx sy sz w).2).
Proof.
  unfold handles_ok. run_init. cbn. intros H.
  destruct (growGrid a) as [what |];
    [destruct (has_to_grow _ _); cbn; [keep_handles H |] |];
    (destruct (shaderFile a); cbn; [| keep_handles H]);
    (destruct (codeBuffer a); cbn; [keep_handles H |]);
    (destruct (failed (createShaderModule a)); cbn; [keep_handles H |]);
    (destruct (failed (createDescriptorSetLayout a)); cbn;
       [keep_handles H |]);
    (destruct (failed (createPipelineLayout a)); cbn; [keep_handles H |]);
    (destruct (failed (createComputePipelines a)); cbn; [keep_handles H |]);
    (destruct (failed (createBuffer a 0)); cbn; [keep_handles H |]);
    (destruct (failed (createBuffer a 1)); cbn; [keep_handles H |]);
    (destruct (failed (createDescriptorPool a)); cbn; [keep_handles H |]);
    (destruct (failed (allocateDescriptorSets a 0)); cbn;
       [keep_handles H |]);
    destruct (failed (allocateDescriptorSets a 1)); cbn; keep_handles H.
Qed.

Lemma null_names_nothing d :
  handles_ok d -> commandBuffers d !! VK_NULL_HANDLE = None.
Proof.
  intros [_ Hok].
  destruct (commandBuffers d !! VK_NULL_HANDLE) eqn:E; [| reflexivity].
  assert (0 < VK_NULL_HANDLE) by (apply (Hok VK_NULL_HANDLE); eauto).
  unfold VK_NULL_HANDLE in *. lia.
Qed.

(** A step leaves the device with its handles in order, however it
    ends. *)
Lemma update_step a w :
  handles_ok (device w) -> initialised (game w) -> index_ok w ->
  recorded a = true ->
  exists ds dev',
    at2 (descriptorSets (game w)) (currentBuffer (game w)) = Some ds
    /\ update a w =
         (Done tt, {| device := dev'; game := swapBuffers (game w) |})
    /\ commandBuffers dev' = commandBuffers (device w)
    /\ handles_ok dev'
    /\ submissions dev' =
         submissions (device w)
         ++ (if failed (queueSubmit a) then []
             else [stepCommands (game w) ds]).
Proof.
  intros Hok Hinit Hcb Hrec.
  destruct (update_result a w Hinit Hcb Hrec)
    as (ds & dev' & Hds & Hupd & _ & _ & Hnext & Hsub & Hfree).
  exists ds, dev'. split; [exact Hds |]. split; [exact Hupd |].
  assert (Hfresh : commandBuffers (device w) !! nextHandle (device w) = None).
  { destruct (commandBuffers (device w) !! nextHandle (device w)) eqn:E;
      [| reflexivity].
    assert (nextHandle (device w) < nextHandle (device w))
      by (apply (proj2 Hok (nextHandle (device w))); eauto).
    lia. }
  assert (Hcbs : commandBuffers dev' = commandBuffers (device w)).
  { rewrite Hfree; [apply delete_id, Hfresh |].
    destruct Hok as [Hpos _]. unfold VK_NULL_HANDLE. lia. }
  split; [exact Hcbs |]. split; [| exact Hsub].
  split; [destruct Hok; lia |].
  intros k Hk. rewrite Hcbs in Hk. apply (proj2 Hok) in Hk. lia.
Qed.



(** ** Dispatch sizes inside the 32-bit range *)

(** X14. After a successful [init] of a fresh engine whose three sizes
    lie between 1 and 2^32 - 8, a step that is recorded and accepted by
    the queue dispatches, along each
    axis, the least number of 8-wide workgroups that covers the size:
    counts gx, gy, gz with 8 * (g - 1) < size <= 8 * g; and it pushes the
    three sizes as constants. *)
Theorem dispatch_covers_grid a sx sy sz w w1 a' :
  currentBuffer (game w) = 0 ->
  init a sx sy sz w = (Done tt, w1) ->
  1 <= sx <= 2 ^ 32 - 8 -> 1 <= sy <= 2 ^ 32 - 8 -> 1 <= sz <= 2 ^ 32 - 8 ->
  recorded a' = true ->
  failed (queueSubmit a') = false ->
  exists pipeline layout ds gx gy gz,
    submissions (device (update a' w1).2) =
      submissions (device w1)
      ++ [[CmdBindPipeline pipeline;
           CmdBindDescriptorSets layout 0 [ds];
           CmdPushConstants layout 0 [sx; sy; sz];
           CmdDispatch gx gy gz]]
    /\ 8 * (gx - 1) < sx <= 8 * gx
    /\ 8 * (gy - 1) < sy <= 8 * gy
    /\ 8 * (gz - 1) < sz <= 8 * gz.
Proof.
  intros H0 Hinit Hx Hy Hz Ha Hq.
  destruct (update_dispatch a sx sy sz w w1 a' H0 Hinit Ha Hq)
    as (pipeline & layout & ds & Hsub).
  exists pipeline, layout, ds, (groupCount sx), (groupCount sy),
    (groupCount sz).
  split; [exact Hsub |].
  split; [| split]; unfold groupCount; rewrite wrap32_small by lia;
    Z.div_mod_to_equations; lia.
Qed.

Lemma dispatch_covers_grid_witness :
  exists pipeline layout ds gx gy gz,
    submissions (device (update step_ok engine444).2) =
      submissions (device engine444)
      ++ [[CmdBindPipeline pipeline;
           CmdBindDescriptorSets layout 0 [ds];
           CmdPushConstants layout 0 [4; 4; 4];
           CmdDispatch gx gy gz]]
    /\ 8 * (gx - 1) < 4 <= 8 * gx
    /\ 8 * (gy - 1) < 4 <= 8 * gy
    /\ 8 * (gz - 1) < 4 <= 8 * gz.
Proof.
  apply (dispatch_covers_grid init_ok 4 4 4 new_world engine444 step_ok);
    first [lia | apply init_ok_run | reflexivity].
Defined.

(** ** Call sequences on an initialised engine *)

Lemma setCell_sized_done x y z state g :
  sized g ->
  0 <= x < gridSizeX g -> 0 <= y < gridSizeY g -> 0 <= z < gridSizeZ g ->
  setCell x y z state g =
    Done (set_gridState
            (<[Z.to_nat (x + y * gridSizeX g + z * gridSizeX g * gridSizeY g)
               := state]> (gridState g)) g).
Proof.
  intros Hs Hx Hy Hz.
  destruct (cellIndex_linear g x y z Hs Hx Hy Hz)
    as [Hidx Hrange].
  unfold setCell. rewrite (proj1 Hs). cbn [negb].
  destruct (Z.leb_spec (gridSizeX g) x); [lia |].
  destruct (Z.leb_spec (gridSizeY g) y); [lia |].
  destruct (Z.leb_spec (gridSizeZ g) z); [lia |].
  cbn [orb].
  destruct (Z.ltb_spec (cellIndex g x y z) (Z.of_nat (length (gridState g))));
    [| lia].
  cbv zeta. rewrite Hidx. reflexivity.
Qed.

Lemma call_keeps_sized c w :
  sized (game w) -> initialised (game w) -> index_ok w ->
  uint32_args c -> step_recorded c ->
  exists w',
    call c w = (Done tt, w')
    /\ sized (game w') /\ initialised (game w') /\ index_ok w'
    /\ gridSizeX (game w') = gridSizeX (game w)
    /\ gridSizeY (game w') = gridSizeY (game w)
    /\ gridSizeZ (game w') = gridSizeZ (game w).
Proof.
  intros Hs Hall Hi Hargs Hrec. destruct c as [a | x y z st |].
  - cbn [call]. cbn in Hrec.
    destruct (update_result a w Hall Hi Hrec) as (ds & dev' & _ & -> & _).
    eexists. split; [reflexivity |]. cbn [game].
    split; [exact Hs |]. split; [exact Hall |].
    split; [apply swapBuffers_flip, Hi |].
    repeat split.
  - cbn in Hargs. destruct Hargs as (Hx & Hy & Hz).
    assert (Hset : exists cells,
      setCell x y z st (game w) = Done (set_gridState cells (game w))
      /\ length cells = length (gridState (game w))).
    { destruct ((gridSizeX (game w) <=? x) || (gridSizeY (game w) <=? y)
                || (gridSizeZ (game w) <=? z)) eqn:E.
      - exists (gridState (game w)). split; [| reflexivity].
        unfold setCell. rewrite (proj1 Hs), E. destruct (game w); reflexivity.
      - apply orb_false_elim in E as [E Ez].
        apply orb_false_elim in E as [Ex Ey].
        apply Z.leb_gt in Ex, Ey, Ez.
        eexists. split; [apply setCell_sized_done; try assumption; lia |].
        apply length_insert. }
    destruct Hset as (cells & Hset & Hlen).
    cbn [call]. unfold bind, the_game. rewrite Hset.
    eexists. split; [reflexivity |]. cbn.
    split; [unfold sized, holds in *; cbn; rewrite Hlen; exact Hs |].
    split; [exact Hall |].
    split; [exact Hi |]. repeat split.
  - eexists. split; [reflexivity |]. cbn.
    split; [unfold sized, holds in *; cbn; rewrite length_replicate;
            exact Hs |].
    split; [exact Hall |].
    split; [exact Hi |]. repeat split.
Qed.



(** ** What [init] does to the mirror and to the buffers *)

(** X24. [init] does not clear the mirror: it resizes it to the (32-bit)
    cell count, so on an engine that already holds cells the first cells
    keep their states and only the cells added at the end are 0. *)
Theorem init_keeps_old_cells a sx sy sz w w1 :
  init a sx sy sz w = (Done tt, w1) ->
  let n := Z.to_nat (wrap32 (wrap32 (sx * sy) * sz)) in
  length (getGridState (game w1)) = n
  /\ (forall j, (j < n)%nat -> (j < length (getGridState (game w)))%nat ->
        getGridState (game w1) !! j = getGridState (game w) !! j)
  /\ (forall j, (length (getGridState (game w)) <= j < n)%nat ->
        getGridState (game w1) !! j = Some 0).
Proof.
  intros Hinit n.
  destruct (init_result a sx sy sz _ w1 Hinit)
    as (b0 & b1 & ds0 & ds1 & _ & _ & _ & _ & _ & _ & _ & _ & Hst & _).
  unfold getGridState. rewrite Hst. fold n. split; [| split].
  - apply length_resize.
  - intros j Hn Hold. apply lookup_resize; assumption.
  - intros j [Hold Hn]. apply lookup_resize_new; assumption.
Qed.

Lemma init_keeps_old_cells_witness :
  let w := (calls [SetCell 1 0 0 1] engine444).2 in
  let n := Z.to_nat (wrap32 (wrap32 (4 * 4) * 5)) in
  length (getGridState (game (init init_ok 4 4 5 w).2)) = n
  /\ (forall j, (j < n)%nat -> (j < length (getGridState (game w)))%nat ->
        getGridState (game (init init_ok 4 4 5 w).2) !! j
        = getGridState (game w) !! j)
  /\ (forall j, (length (getGridState (game w)) <= j < n)%nat ->
        getGridState (game (init init_ok 4 4 5 w).2) !! j = Some 0).
Proof.
  intros w.
  apply (init_keeps_old_cells init_ok 4 4 5 w).
  apply init_ok_run.
Defined.

Lemma init_buffers a sx sy sz w w1 :
  init a sx sy sz w = (Done tt, w1) ->
  exists b0 b1,
    b0 <> b1
    /\ gridBuffers (game w1) = (b0, b1)
    /\ bufferSizes (device w1) =
         <[b1 := wrap64 (Z.of_nat (length (gridState (game w1))) * 4)]>
           (<[b0 := wrap64 (Z.of_nat (length (gridState (game w1))) * 4)]>
              (bufferSizes (device w))).
Proof.
  run_init. cbn. intros H.
  destruct (growGrid a);
    [destruct (has_to_grow _ _); cbn in H; [discriminate H |] |];
    (destruct (shaderFile a); [| discriminate H]);
    (destruct (codeBuffer a); [discriminate H |]);
    (destruct (failed (createShaderModule a)); cbn in H;
       [discriminate H |]);
    (destruct (failed (createDescriptorSetLayout a)); cbn in H;
       [discriminate H |]);
    (destruct (failed (createPipelineLayout a)); cbn in H;
       [discriminate H |]);
    (destruct (failed (createComputePipelines a)); cbn in H;
       [discriminate H |]);
    (destruct (failed (createBuffer a 0)); cbn in H; [discriminate H |]);
    (destruct (failed (createBuffer a 1)); cbn in H; [discriminate H |]);
    (destruct (failed (createDescriptorPool a)); cbn in H;
       [discriminate H |]);
    (destruct (failed (allocateDescriptorSets a 0)); cbn in H;
       [discriminate H |]);
    (destruct (failed (allocateDescriptorSets a 1)); cbn in H;
       [discriminate H |]);
    apply (f_equal snd) in H; cbn [snd] in H; subst w1; cbn;
    do 2 eexists; (split; [| split; reflexivity]); lia.
Qed.

(** X25. After a successful [init] of a freshly constructed engine whose
    cell count is below 2^32, the two grid buffers are two different
    buffers, each created with 4 * sizeX * sizeY * sizeZ bytes: one
    [uint32_t] for every cell of the mirror.  [init] creates no other
    buffer. *)
Theorem init_buffer_sizes a sx sy sz storage dev w1 :
  0 <= sx -> 0 <= sy -> 0 <= sz -> sx * sy * sz < 2 ^ 32 ->
  init a sx sy sz {| device := dev; game := construct storage |}
    = (Done tt, w1) ->
  exists b0 b1,
    gridBuffers (game w1) = (b0, b1) /\ b0 <> b1
    /\ bufferSizes (device w1) !! b0 = Some (4 * (sx * sy * sz))
    /\ bufferSizes (device w1) !! b1 = Some (4 * (sx * sy * sz))
    /\ 4 * Z.of_nat (length (getGridState (game w1))) = 4 * (sx * sy * sz)
    /\ forall b, b <> b0 -> b <> b1 ->
         bufferSizes (device w1) !! b = bufferSizes dev !! b.
Proof.
  intros Hsx Hsy Hsz Hfit Hinit.
  destruct (init_sized a sx sy sz storage dev w1 Hsx Hsy Hsz Hfit Hinit)
    as (_ & _ & _ & _ & _ & Hlen).
  destruct (init_result a sx sy sz _ w1 Hinit)
    as (_ & _ & _ & _ & _ & _ & _ & _ & Ex & Ey & Ez & _ & _).
  destruct (init_buffers a sx sy sz _ w1 Hinit) as (b0 & b1 & Hne & Hb & Hsize).
  rewrite Ex, Ey, Ez in Hlen. rewrite Hlen in Hsize. cbn [device] in Hsize.
  assert (Hcells : 0 <= sx * sy * sz) by lia.
  rewrite wrap64_small in Hsize by lia.
  exists b0, b1. unfold getGridState. rewrite Hsize, Hlen.
  split; [exact Hb |]. split; [exact Hne |].
  split; [rewrite lookup_insert_ne by congruence;
          rewrite lookup_insert_eq; f_equal; lia |].
  split; [rewrite lookup_insert_eq; f_equal; lia |].
  split; [reflexivity |].
  intros b N0 N1. rewrite !lookup_insert_ne by congruence. reflexivity.
Qed.

Lemma init_buffer_sizes_witness :
  exists b0 b1,
    gridBuffers (game engine444) = (b0, b1) /\ b0 <> b1
    /\ bufferSizes (device engine444) !! b0 = Some (4 * (4 * 4 * 4))
    /\ bufferSizes (device engine444) !! b1 = Some (4 * (4 * 4 * 4))
    /\ 4 * Z.of_nat (length (getGridState (game engine444)))
       = 4 * (4 * 4 * 4)
    /\ forall b, b <> b0 -> b <> b1 ->
         bufferSizes (device engine444) !! b = bufferSizes blank_device !! b.
Proof.
  apply (init_buffer_sizes init_ok 4 4 4 blank_storage blank_device
           engine444); try lia.
  apply init_ok_run.
Defined.

End EngineMore.

(** * Properties of the context *)

Module ContextFacts.
Import Engine Context AppNotions.

Lemma layerFound_elem name available :
  layerFound name available = true <-> name ∈ available.
Proof.
  induction available as [| p rest IH]; cbn.
  - split; [discriminate | intros H; inversion H].
  - destruct (String.eqb_spec name p) as [-> | Hne].
    + split; [intros _; left | reflexivity].
    + rewrite IH. split; [intros H; right; exact H |].
      intros H. inversion H; subst; [contradiction | assumption].
Qed.

(** X15. The validation layer and the debug-utils extension go together:
    [checkValidationLayerSupport] holds exactly when
    "VK_LAYER_KHRONOS_validation" is among the layers on offer, and then
    [createInstance] asks for that layer and for "VK_EXT_debug_utils";
    otherwise it asks for no layer and no extension. *)
Theorem validation_goes_with_debug_utils a :
  (checkValidationLayerSupport a = true
   <-> "VK_LAYER_KHRONOS_validation" ∈ availableLayers a)
  /\ ("VK_LAYER_KHRONOS_validation" ∈ availableLayers a ->
      instanceRequest a =
        {| enabledExtensions := ["VK_EXT_debug_utils"];
           enabledLayers := ["VK_LAYER_KHRONOS_validation"] |})
  /\ ("VK_LAYER_KHRONOS_validation" ∉ availableLayers a ->
      instanceRequest a =
        {| enabledExtensions := []; enabledLayers := [] |}).
Proof.
  assert (H : checkValidationLayerSupport a = true
              <-> "VK_LAYER_KHRONOS_validation" ∈ availableLayers a).
  { unfold checkValidationLayerSupport, validationLayers. cbn.
    rewrite <- layerFound_elem.
    destruct (layerFound _ _); cbn; split; auto. }
  split; [exact H |]. unfold instanceRequest, getRequiredExtensions. split.
  - intros Hin. apply H in Hin. rewrite Hin. reflexivity.
  - intros Hout. destruct (checkValidationLayerSupport a) eqn:E;
      [| reflexivity].
    exfalso. apply Hout, H. reflexivity.
Qed.

Lemma validation_goes_with_debug_utils_witness :
  instanceRequest context_ok =
    {| enabledExtensions := ["VK_EXT_debug_utils"];
       enabledLayers := ["VK_LAYER_KHRONOS_validation"] |}.
Proof.
  apply (proj1 (proj2 (validation_goes_with_debug_utils context_ok))).
  left.
Defined.

Lemma findComputeFamily_none families : forall i,
  Forall (fun f => ~ computes f) families ->
  findComputeFamily families i = None.
Proof.
  induction families as [| f rest IH]; intros i H; [reflexivity |].
  inversion H as [| ? ? Hf Hrest]; subst. cbn.
  destruct (Z.eqb_spec (Z.land f VK_QUEUE_COMPUTE_BIT) 0) as [E | E];
    [apply IH; exact Hrest | contradiction].
Qed.

Lemma findComputeFamily_first before f after : forall i,
  Forall (fun f => ~ computes f) before -> computes f ->
  findComputeFamily (before ++ f :: after) i
  = Some (i + Z.of_nat (length before)).
Proof.
  induction before as [| g rest IH]; intros i Hb Hf; cbn.
  - destruct (Z.eqb_spec (Z.land f VK_QUEUE_COMPUTE_BIT) 0) as [E | E];
      [contradiction | f_equal; lia].
  - inversion Hb as [| ? ? Hg Hrest]; subst.
    destruct (Z.eqb_spec (Z.land g VK_QUEUE_COMPUTE_BIT) 0) as [E | E];
      [| contradiction].
    rewrite IH by assumption. f_equal. lia.
Qed.

Lemma findComputeDevice_none devices :
  Forall no_compute devices -> findComputeDevice devices = None.
Proof.
  induction devices as [| [dev fams] rest IH]; intros H; [reflexivity |].
  inversion H as [| ? ? Hd Hrest]; subst. cbn.
  rewrite (findComputeFamily_none fams 0 Hd). apply IH, Hrest.
Qed.

(** X16. [pickPhysicalDevice] throws "Failed to find GPUs with Vulkan
    support" when the driver lists no device, and "Failed to find a
    suitable GPU" when no listed device has a queue family with the
    compute bit, leaving the context as it was in both cases.  Otherwise
    it picks the first device, in the driver's order, that has such a
    family, and the lowest index of such a family on that device; the
    other members of the context are untouched. *)
Theorem pickPhysicalDevice_first_compute a c :
  (physicalDevices a = [] ->
     pickPhysicalDevice a c
     = (Throws "Failed to find GPUs with Vulkan support", c))
  /\ (physicalDevices a <> [] -> Forall no_compute (physicalDevices a) ->
     pickPhysicalDevice a c = (Throws "Failed to find a suitable GPU", c))
  /\ (forall skipped dev before f after others,
        physicalDevices a = skipped ++ (dev, before ++ f :: after) :: others ->
        Forall no_compute skipped ->
        Forall (fun g => ~ computes g) before -> computes f ->
        pickPhysicalDevice a c =
          (Done tt,
           {| instance := instance c; physicalDevice := dev;
              device := device c; commandPool := commandPool c;
              computeQueueFamily := Z.of_nat (length before) |})).
Proof.
  unfold pickPhysicalDevice. split; [| split].
  - intros ->. reflexivity.
  - intros Hne Hall. rewrite (findComputeDevice_none _ Hall).
    destruct (physicalDevices a); [congruence | reflexivity].
  - intros skipped dev before f after others -> Hskip Hbefore Hf.
    rewrite length_app. cbn [length].
    destruct (Z.eqb_spec (Z.of_nat (length skipped + S (length others))) 0);
      [lia |].
    assert (E : findComputeDevice
                  (skipped ++ (dev, before ++ f :: after) :: others)
                = Some (dev, Z.of_nat (length before))).
    { clear -Hskip Hbefore Hf.
      induction skipped as [| [d fams] rest IH]; cbn.
      - rewrite (findComputeFamily_first before f after 0 Hbefore Hf).
        reflexivity.
      - inversion Hskip as [| ? ? Hd Hrest]; subst.
        rewrite (findComputeFamily_none fams 0 Hd). apply IH, Hrest. }
    rewrite E. reflexivity.
Qed.

Lemma pickPhysicalDevice_first_compute_witness :
  pickPhysicalDevice
    {| availableLayers := []; createInstanceResult := VK_SUCCESS;
       instanceHandle := 1;
       physicalDevices := [(7, [1; 4]); (8, [1; 3; 2]); (9, [2])];
       createDeviceResult := VK_SUCCESS; deviceHandle := 2;
       createCommandPoolResult := VK_SUCCESS; commandPoolHandle := 3 |}
    construct
  = (Done tt,
     {| instance := instance construct; physicalDevice := 8;
        device := device construct; commandPool := commandPool construct;
        computeQueueFamily := Z.of_nat (length [1]) |}).
Proof.
  apply (proj2 (proj2 (pickPhysicalDevice_first_compute _ construct))
           [(7, [1; 4])] 8 [1] 3 [2] [(9, [2])]).
  - reflexivity.
  - repeat constructor; cbn; intros H; apply H; reflexivity.
  - repeat constructor; cbn; intros H; apply H; reflexivity.
  - discriminate.
Defined.

Lemma initVulkan_ends a :
  (initVulkan a construct).1 <> Undefined
  /\ ((initVulkan a construct).1 = Done tt <-> pool_made a = true).
Proof.
  unfold pool_made, device_made, device_picked, instance_made, initVulkan,
    andThen, createInstance, pickPhysicalDevice, createLogicalDevice,
    createCommandPool, construct.
  destruct (failed (createInstanceResult a)); cbn;
    [repeat split; intros; discriminate |].
  remember (findComputeDevice (physicalDevices a)) as found eqn:Hfound.
  destruct (physicalDevices a) as [| first others];
    [change (Z.of_nat (length (@nil (Z * list Z))) =? 0) with true
    | change (Z.of_nat (length (first :: others)) =? 0) with false]; cbn.
  { subst found. cbn. repeat split; intros; discriminate. }
  clear Hfound. destruct found as [[dev i] |]; cbn;
    [| repeat split; intros; discriminate].
  destruct (failed (createDeviceResult a)); cbn;
    [repeat split; intros; discriminate |].
  destruct (failed (createCommandPoolResult a)); cbn;
    repeat split; intros; try discriminate; reflexivity.
Qed.

(** X17. [initVulkan] on a new context never runs into undefined
    behaviour and returns normally exactly when the instance is created,
    a compute-capable device is found, and the logical device and the
    command pool are created; the first step that fails throws and the
    later ones are not run.  Provided the driver hands out non-null
    handles, the destructor then gives back exactly the objects that
    were created, latest first, and never a null handle: after a failed
    [initVulkan] as well as after a successful one. *)
Theorem initVulkan_creates_what_destroy_releases a :
  (initVulkan a construct).1 <> Undefined
  /\ ((initVulkan a construct).1 = Done tt <-> pool_made a = true)
  /\ (instanceHandle a <> VK_NULL_HANDLE ->
      deviceHandle a <> VK_NULL_HANDLE ->
      commandPoolHandle a <> VK_NULL_HANDLE ->
      destroy (initVulkan a construct).2 =
        (if pool_made a
         then [DestroyCommandPool (deviceHandle a) (commandPoolHandle a)]
         else [])
        ++ (if device_made a then [DestroyDevice (deviceHandle a)] else [])
        ++ (if instance_made a
            then [DestroyInstance (instanceHandle a)] else [])).
Proof.
  unfold pool_made, device_made, device_picked, instance_made, initVulkan,
    andThen, createInstance, pickPhysicalDevice, createLogicalDevice,
    createCommandPool, destroy, construct.
  destruct (failed (createInstanceResult a)); cbn;
    [repeat split; intros; try discriminate; reflexivity |].
  remember (findComputeDevice (physicalDevices a)) as found eqn:Hfound.
  destruct (physicalDevices a) as [| first others];
    [change (Z.of_nat (length (@nil (Z * list Z))) =? 0) with true
    | change (Z.of_nat (length (first :: others)) =? 0) with false]; cbn.
  { subst found. cbn. repeat split; intros; try discriminate.
    destruct (Z.eqb_spec (instanceHandle a) VK_NULL_HANDLE);
      [contradiction | reflexivity]. }
  clear Hfound. destruct found as [[dev i] |]; cbn.
  2: { repeat split; intros; try discriminate.
       destruct (Z.eqb_spec (instanceHandle a) VK_NULL_HANDLE);
         [contradiction | reflexivity]. }
  destruct (failed (createDeviceResult a)); cbn.
  { repeat split; intros; try discriminate.
    destruct (Z.eqb_spec (instanceHandle a) VK_NULL_HANDLE);
      [contradiction | reflexivity]. }
  destruct (failed (createCommandPoolResult a)); cbn;
    repeat split; intros; try discriminate;
    destruct (Z.eqb_spec (instanceHandle a) VK_NULL_HANDLE);
    destruct (Z.eqb_spec (deviceHandle a) VK_NULL_HANDLE);
    try destruct (Z.eqb_spec (commandPoolHandle a) VK_NULL_HANDLE);
    try contradiction; reflexivity.
Qed.

Lemma initVulkan_creates_what_destroy_releases_witness :
  destroy (initVulkan context_ok construct).2 =
    (if pool_made context_ok
     then [DestroyCommandPool (deviceHandle context_ok)
             (commandPoolHandle context_ok)]
     else [])
    ++ (if device_made context_ok
        then [DestroyDevice (deviceHandle context_ok)] else [])
    ++ (if instance_made context_ok
        then [DestroyInstance (instanceHandle context_ok)] else []).
Proof.
  apply (proj2 (proj2 (initVulkan_creates_what_destroy_releases context_ok)));
    discriminate.
Defined.

End ContextFacts.

(** * Properties of the text output *)

Module TextFacts.
Import Text.

Lemma string_app_assoc (s1 s2 s3 : string) :
  (s1 +:+ s2) +:+ s3 = s1 +:+ s2 +:+ s3.
Proof.
  induction s1 as [| c s1 IH]; [reflexivity |].
  change (String c ((s1 +:+ s2) +:+ s3) = String c (s1 +:+ s2 +:+ s3)).
  f_equal. exact IH.
Qed.

Lemma string_app_nil_r (s : string) : s +:+ "" = s.
Proof.
  induction s as [| c s IH]; [reflexivity |].
  change (String c (s +:+ "") = String c s). f_equal. exact IH.
Qed.

Lemma written_cons piece pieces :
  written (piece :: pieces) = piece +:+ written pieces.
Proof. reflexivity. Qed.

End TextFacts.

Module ReportFacts.
Import Debugger Engine Text Report DebuggerSpec TextFacts.

Lemma printDispatches_lines show h : forall count i,
  (i + count <= length h)%nat ->
  printDispatches show h i count =
    Done (written (imap (fun k r => dispatchLine show (i + k) r)
                     (take count (drop i h)))).
Proof.
  induction count as [| count IH]; intros i Hle; [reflexivity |].
  destruct (lookup_lt_is_Some_2 h i ltac:(lia)) as [r Hr].
  cbn [printDispatches]. rewrite Hr.
  rewrite (IH (S i)) by lia.
  rewrite (drop_S h r i Hr). cbn [take imap]. rewrite written_cons.
  rewrite Nat.add_0_r. do 3 f_equal.
  apply imap_ext. intros k x _. cbn. f_equal. lia.
Qed.

Lemma label_widths :
  forallb (fun i => Nat.eqb (String.length (setw 3 (decimal (Z.of_nat i)))) 3)
    (seq 0 1000) = true.
Proof. vm_compute. reflexivity. Qed.

(** X18. [printDispatchHistory] never reads outside the history: it
    prints the heading and then one line for each of the last ten records
    (all of them when there are at most ten), oldest first, each labelled
    with the index the record has in the history. *)
Theorem printDispatchHistory_last_ten show d :
  let h := m_dispatchHistory d in
  let start := (length h - 10)%nat in
  printDispatchHistory show d =
    Done ("=== Dispatch History (last 10) ===" +:+ endl
          +:+ written (imap (fun k r => dispatchLine show (start + k) r)
                         (drop start h))).
Proof.
  intros h start. unfold printDispatchHistory. fold h.
  assert (Hs : (if (10 <? length h)%nat then (length h - 10)%nat else O)
               = start).
  { unfold start. destruct (Nat.ltb_spec 10 (length h)); lia. }
  rewrite Hs. rewrite printDispatches_lines by lia.
  rewrite take_ge by (rewrite length_drop; lia). reflexivity.
Qed.

(** X19. In every state reached from construction the history holds at
    most 1000 records, so every index label printed by
    [printDispatchHistory], set in a field of width 3, is exactly three
    characters wide and the lines stay aligned. *)
Theorem history_labels_aligned junk a ops cb i :
  (i < length (m_dispatchHistory (run ops (Debugger.construct junk a, cb)).1))%nat ->
  String.length (setw 3 (decimal (Z.of_nat i))) = 3%nat.
Proof.
  intros Hi.
  assert (Hb : (length (m_dispatchHistory (run ops (Debugger.construct junk a, cb)).1)
                <= 1000)%nat).
  { apply DebuggerFacts.run_history_bound. simpl.
    rewrite DebuggerFacts.construct_history. simpl. lia. }
  pose proof label_widths as Hall.
  rewrite forallb_forall in Hall.
  apply Nat.eqb_eq, Hall, in_seq. lia.
Qed.

Lemma history_labels_aligned_witness :
  String.length (setw 3 (decimal (Z.of_nat 0))) = 3%nat.
Proof.
  apply (history_labels_aligned (0, 0, 0) plain_driver
           [BeginDispatch "life" 4 4 4 10; EndDispatch 20] [] 0).
  vm_compute. lia.
Defined.

End ReportFacts.

(** * Properties of main.cpp *)

Module AppFacts.
Import Engine Context Text App EngineSpec EngineNotions AppNotions TextFacts.

Lemma printEach_done (f : Z -> string) body : forall range,
  (forall i, i ∈ range -> body i = Done (f i)) ->
  printEach range body = Done (written (f <$> range)).
Proof.
  induction range as [| i rest IH]; intros H; [reflexivity |].
  cbn [printEach]. rewrite (H i) by left.
  rewrite IH by (intros j Hj; apply H; right; exact Hj). reflexivity.
Qed.

Lemma printIndex_linear size x y z :
  0 <= x < size -> 0 <= y < size -> 0 <= z < size ->
  size * size * size <= 2 ^ 32 ->
  printIndex size x y z = x + y * size + z * size * size
  /\ 0 <= x + y * size + z * size * size < size * size * size.
Proof.
  intros Hx Hy Hz Hfit.
  destruct (EngineFacts.linear_index_bound size size size x y z Hx Hy Hz)
    as (B1 & B2 & B3 & B4 & B5 & B6 & B7).
  unfold printIndex.
  rewrite (wrap32_small (z * size)) by lia.
  rewrite (wrap32_small (z * size * size)) by lia.
  rewrite (wrap32_small (y * size)) by lia.
  rewrite (wrap32_small (z * size * size + y * size)) by lia.
  rewrite wrap32_small by lia.
  split; lia.
Qed.

Lemma add3_mod_l a b c m : (a mod m + b + c) mod m = (a + b + c) mod m.
Proof. rewrite <- !Z.add_assoc. apply Zplus_mod_idemp_l. Qed.

Lemma add3_mod_m a b c m : (a + b mod m + c) mod m = (a + b + c) mod m.
Proof.
  rewrite (Z.add_comm a (b mod m)), add3_mod_l. f_equal. ring.
Qed.

Lemma printIndex_cellIndex g size x y z :
  gridSizeX g = size -> gridSizeY g = size ->
  printIndex size x y z = cellIndex g x y z.
Proof.
  intros Hsx Hsy. unfold printIndex, cellIndex, wrap32. rewrite Hsx, Hsy.
  repeat (rewrite ?Zmult_mod_idemp_l, ?Zmult_mod_idemp_r, ?Zplus_mod_idemp_l,
            ?Zplus_mod_idemp_r).
  rewrite !add3_mod_m, add3_mod_l.
  f_equal. ring.
Qed.

Lemma printGrid_cells grid size cell :
  (forall x y z, 0 <= x < size -> 0 <= y < size -> 0 <= z < size ->
     grid !! Z.to_nat (printIndex size x y z) = Some (cell x y z)) ->
  printGrid grid size = Done (render cell size).
Proof.
  intros Hcell. unfold printGrid, render.
  apply printEach_done. intros z Hz. apply elem_of_seqZ in Hz.
  rewrite (printEach_done
             (fun y => written ((fun x => glyph (cell x y z)) <$> seqZ 0 size)
                       +:+ endl)); [reflexivity |].
  intros y Hy. apply elem_of_seqZ in Hy.
  rewrite (printEach_done (fun x => glyph (cell x y z))); [reflexivity |].
  intros x Hx. apply elem_of_seqZ in Hx. cbv zeta.
  rewrite Hcell by lia. reflexivity.
Qed.

(** X20. Given a vector that holds at least size^3 cells, with size^3 at
    most 2^32, [printGrid] never reads outside the vector and prints the
    cube layer by layer and row by row, showing in column x of row y of
    layer z the cell at index x + y * size + z * size^2.  That is the cell
    [setCell] addresses on an engine whose X and Y sizes are [size]: the
    two index computations agree for every coordinate, wrapped or not. *)
Theorem printGrid_shows_grid grid size :
  size * size * size <= 2 ^ 32 ->
  size * size * size <= Z.of_nat (length grid) ->
  printGrid grid size = Done (render (cellAt grid size) size)
  /\ (forall g x y z,
        gridSizeX g = size -> gridSizeY g = size ->
        printIndex size x y z = cellIndex g x y z).
Proof.
  intros Hfit Hlen. split.
  - apply printGrid_cells. intros x y z Hx Hy Hz.
    destruct (printIndex_linear size x y z Hx Hy Hz Hfit) as [-> Hrange].
    unfold cellAt.
    destruct (lookup_lt_is_Some_2 grid
                (Z.to_nat (x + y * size + z * size * size)) ltac:(lia))
      as [v ->].
    reflexivity.
  - intros g x y z. apply printIndex_cellIndex.
Qed.

Lemma printGrid_shows_grid_witness :
  printGrid [1; 0; 0; 1; 0; 1; 1; 0] 2
  = Done (render (cellAt [1; 0; 0; 1; 0; 1; 1; 0] 2) 2).
Proof.
  apply (proj1 (printGrid_shows_grid [1; 0; 0; 1; 0; 1; 1; 0] 2
                  ltac:(vm_compute; discriminate)
                  ltac:(vm_compute; discriminate))).
Defined.

(** ** A run of [main] *)

Lemma glider_cells x y z :
  0 <= x < 32 -> 0 <= y < 32 -> 0 <= z < 32 ->
  let j := Z.to_nat (x + y * 32 + z * 32 * 32) in
  (glider x y z = 1
   /\ (j = 0 \/ j = 1 \/ j = 2 \/ j = 33 \/ j = 34 \/ j = 66)%nat)
  \/ (glider x y z = 0
      /\ j <> 0%nat /\ j <> 1%nat /\ j <> 2%nat /\ j <> 33%nat
      /\ j <> 34%nat /\ j <> 66%nat).
Proof.
  intros Hx Hy Hz j. unfold glider.
  destruct (bool_decide_reflect ((x, y, z) ∈ seeds)) as [Hin | Hout].
  - left. split; [reflexivity |]. unfold seeds in Hin. subst j.
    repeat (apply elem_of_cons in Hin as [[= -> -> ->] | Hin];
            [vm_compute; tauto |]).
    inversion Hin.
  - right. split; [reflexivity |].
    assert (Hne : forall c, c ∈ seeds -> (x, y, z) <> c)
      by (intros c Hc E; subst c; contradiction).
    pose proof (Hne (0, 0, 0) (list_elem_of_lookup_2 seeds 0 _ eq_refl)) as H0.
    pose proof (Hne (1, 0, 0) (list_elem_of_lookup_2 seeds 1 _ eq_refl)) as H1.
    pose proof (Hne (2, 0, 0) (list_elem_of_lookup_2 seeds 2 _ eq_refl)) as H2.
    pose proof (Hne (1, 1, 0) (list_elem_of_lookup_2 seeds 3 _ eq_refl)) as H3.
    pose proof (Hne (2, 1, 0) (list_elem_of_lookup_2 seeds 4 _ eq_refl)) as H4.
    pose proof (Hne (2, 2, 0) (list_elem_of_lookup_2 seeds 5 _ eq_refl)) as H5.
    subst j.
    repeat split; intros E;
      [apply H0 | apply H1 | apply H2 | apply H3 | apply H4 | apply H5];
      repeat f_equal; lia.
Qed.

(** The six [setCell] calls of [main] on a blank 32 x 32 x 32 engine. *)
Lemma seed_cells g :
  sized g -> gridSizeX g = 32 -> gridSizeY g = 32 -> gridSizeZ g = 32 ->
  (forall j, (j < length (gridState g))%nat -> gridState g !! j = Some 0) ->
  exists cells,
    seed g = Done (set_gridState cells g)
    /\ Z.of_nat (length cells) = 32 * 32 * 32
    /\ forall x y z, 0 <= x < 32 -> 0 <= y < 32 -> 0 <= z < 32 ->
         cells !! Z.to_nat (x + y * 32 + z * 32 * 32) = Some (glider x y z).
Proof.
  destruct g as [sx sy sz cp pl gb ga cb dl dp dss cs gs marks].
  intros Hs Ex Ey Ez Hzero. cbn in Ex, Ey, Ez. subst sx sy sz.
  set (g := {| gridSizeX := 32; gridState := gs |}) in *.
  assert (Hlen : Z.of_nat (length (gridState g)) = 32 * 32 * 32).
  { destruct Hs as (_ & _ & _ & _ & _ & Hl). exact Hl. }
  assert (Hstep : forall cells x y z,
    length cells = length (gridState g) ->
    0 <= x < 32 -> 0 <= y < 32 -> 0 <= z < 32 ->
    setCell x y z 1 (set_gridState cells g) =
      Done (set_gridState (<[Z.to_nat (x + y * 32 + z * 32 * 32) := 1]> cells)
              g)).
  { intros cells x y z Hc Hx Hy Hz.
    rewrite EngineMore.setCell_sized_done.
    - reflexivity.
    - unfold sized, holds in *. cbn in *. rewrite Hc. exact Hs.
    - cbn. lia.
    - cbn. lia.
    - cbn. lia. }
  unfold seed.
  change (setCell 0 0 0 1 g) with (setCell 0 0 0 1 (set_gridState (gridState g) g)).
  rewrite Hstep by (reflexivity || lia).
  rewrite Hstep by (rewrite ?length_insert; reflexivity || lia).
  rewrite Hstep by (rewrite ?length_insert; reflexivity || lia).
  rewrite Hstep by (rewrite ?length_insert; reflexivity || lia).
  rewrite Hstep by (rewrite ?length_insert; reflexivity || lia).
  rewrite Hstep by (rewrite ?length_insert; reflexivity || lia).
  eexists. split; [reflexivity |]. split.
  - rewrite !length_insert. exact Hlen.
  - intros x y z Hx Hy Hz.
    change (Z.to_nat (0 + 0 * 32 + 0 * 32 * 32)) with 0%nat.
    change (Z.to_nat (1 + 0 * 32 + 0 * 32 * 32)) with 1%nat.
    change (Z.to_nat (2 + 0 * 32 + 0 * 32 * 32)) with 2%nat.
    change (Z.to_nat (1 + 1 * 32 + 0 * 32 * 32)) with 33%nat.
    change (Z.to_nat (2 + 1 * 32 + 0 * 32 * 32)) with 34%nat.
    change (Z.to_nat (2 + 2 * 32 + 0 * 32 * 32)) with 66%nat.
    assert (Hj : (Z.to_nat (x + y * 32 + z * 32 * 32)
                  < length (gridState g))%nat).
    { destruct (EngineFacts.linear_index_bound 32 32 32 x y z Hx Hy Hz)
        as (_ & _ & _ & _ & _ & _ & B). lia. }
    destruct (glider_cells x y z Hx Hy Hz) as [[-> Hin] | [-> Hout]];
      cbv zeta in *.
    + remember (Z.to_nat (x + y * 32 + z * 32 * 32)) as j.
      rewrite !list_lookup_insert, !length_insert.
      repeat match goal with
             | |- context [decide ?P] => destruct (decide P)
             end; try reflexivity; lia.
    + remember (Z.to_nat (x + y * 32 + z * 32 * 32)) as j.
      rewrite !list_lookup_insert_ne by lia. apply Hzero, Hj.
Qed.

(** The loop, when every step is recorded: each iteration prints the same
    mirror, and the engine stays initialised. *)
Lemma simulate_frames a gridText : forall count i w out,
  initialised (game w) -> index_ok w ->
  printGrid (gridState (game w)) GRID_SIZE = Done gridText ->
  (forall k, 0 <= k < Z.of_nat count ->
     recorded (stepAnswers a (i + k)) = true) ->
  exists w',
    simulate a i count w out
    = (Done tt, w', out +:+ frames gridText i count)
    /\ initialised (game w').
Proof.
  induction count as [| count IH]; intros i w out Hall Hcb Hprint Hrec.
  - exists w. cbn [simulate frames]. rewrite string_app_nil_r. auto.
  - assert (Hi : recorded (stepAnswers a i) = true).
    { rewrite <- (Z.add_0_r i). apply Hrec. lia. }
    destruct (EngineFacts.update_result (stepAnswers a i) w Hall Hcb Hi)
      as (ds & dev' & _ & Hupd & _).
    cbn [simulate]. rewrite Hupd.
    change (getGridState
              (game {| Engine.device := dev'; game := swapBuffers (game w) |}))
      with (gridState (game w)).
    rewrite Hprint.
    destruct (IH (i + 1)
                {| Engine.device := dev'; game := swapBuffers (game w) |}
                ((out +:+ clearScreen +:+ "Step " +:+ decimal i +:+ endl)
                 +:+ gridText))
      as (w' & Hsim & Hall').
    + exact Hall.
    + apply (EngineFacts.swapBuffers_flip (game w) Hcb).
    + exact Hprint.
    + intros k Hk. replace (i + 1 + k) with (i + (k + 1)) by lia.
      apply Hrec. lia.
    + exists w'. split; [| exact Hall'].
      rewrite Hsim. cbn [frames]. rewrite !string_app_assoc. reflexivity.
Qed.

(** The loop, when some step is not recorded: the first such step makes
    a driver call outside the valid usage of the API. *)
Lemma simulate_undefined a gridText : forall count i w out,
  handles_ok (Engine.device w) -> initialised (game w) -> index_ok w ->
  printGrid (gridState (game w)) GRID_SIZE = Done gridText ->
  (exists k, 0 <= k < Z.of_nat count
             /\ recorded (stepAnswers a (i + k)) = false) ->
  (simulate a i count w out).1.1 = Undefined.
Proof.
  induction count as [| count IH]; intros i w out Hok Hall Hcb Hprint Hbad.
  - destruct Hbad as (k & Hk & _). cbn in Hk. lia.
  - cbn [simulate].
    destruct (recorded (stepAnswers a i)) eqn:Hi.
    + destruct (EngineMore.update_step (stepAnswers a i) w Hok Hall Hcb Hi)
        as (ds & dev' & _ & Hupd & _ & Hok' & _).
      rewrite Hupd.
      change (getGridState
                (game {| Engine.device := dev';
                         game := swapBuffers (game w) |}))
        with (gridState (game w)).
      rewrite Hprint. apply IH.
      * exact Hok'.
      * exact Hall.
      * apply (EngineFacts.swapBuffers_flip (game w) Hcb).
      * exact Hprint.
      * destruct Hbad as (k & Hk & Hbad).
        assert (k <> 0).
        { intros ->. rewrite Z.add_0_r in Hbad. congruence. }
        exists (k - 1). split; [lia |].
        replace (i + 1 + (k - 1)) with (i + k) by lia. exact Hbad.
    + pose proof (EngineFacts.update_undefined (stepAnswers a i) w
                    (EngineMore.null_names_nothing _ Hok) Hi) as Hun.
      destruct (update (stepAnswers a i) w) as [o w'].
      cbn [fst] in Hun. subst o. reflexivity.
Qed.

Lemma forallb_elem {A} (f : A -> bool) (l : list A) :
  forallb f l = true -> forall x, x ∈ l -> f x = true.
Proof.
  induction l as [| y l IH]; intros H x Hx; [inversion Hx |].
  cbn in H. apply andb_prop in H as [Hy Hl].
  apply elem_of_cons in Hx as [-> | Hx]; [exact Hy | apply IH; assumption].
Qed.

Lemma forallb_fails {A} (f : A -> bool) (l : list A) :
  forallb f l = false -> exists x, x ∈ l /\ f x = false.
Proof.
  induction l as [| y l IH]; intros H; [discriminate H |].
  cbn in H. destruct (f y) eqn:Hy.
  - destruct (IH H) as (x & Hx & Hfx). exists x. split; [right |]; assumption.
  - exists y. split; [left | exact Hy].
Qed.

(** The destructor of an engine that [init] has set up reads only
    members that have their values. *)
Lemma destroyGame_done c allocator g :
  initialised g -> exists gone, destroyGame c allocator g = Done gone.
Proof.
  intros Hall.
  destruct (EngineFacts.initialised_holds g Hall)
    as (_ & H1 & H2 & H3 & H4 & H5 & H6 & H7 & _).
  unfold destroyGame. cbn [forallb].
  rewrite H1, H2, H3, H4, H5, H6, H7. eexists. reflexivity.
Qed.

(** The destructor of an engine whose descriptor pool was never created
    reads a member that has no value. *)
Lemma destroyGame_undefined c allocator g :
  holds DescriptorPool g = false -> destroyGame c allocator g = Undefined.
Proof.
  intros H. unfold destroyGame. cbn [forallb]. rewrite H.
  destruct (holds ComputePipeline g), (holds PipelineLayout g),
    (holds DescriptorSetLayout g); reflexivity.
Qed.

Ltac early_throw :=
  first [ do 2 eexists; split; [reflexivity | reflexivity]
        | intros [? | ?]; [congruence | discriminate] ].

(** [init] of a freshly constructed engine, when it throws before the
    descriptor pool exists. *)
Lemma init_throws_early a sx sy sz dev storage :
  has_to_grow [] (Z.to_nat (wrap32 (wrap32 (sx * sy) * sz))) = true ->
  growGrid a <> None \/ pool_reached a = false ->
  exists what w1,
    init a sx sy sz {| Engine.device := dev;
                       game := Engine.construct storage |}
    = (Throws what, w1)
    /\ holds DescriptorPool (game w1) = false.
Proof.
  intros Hgrow. unfold pool_reached. EngineFacts.run_init. cbn. rewrite Hgrow.
  destruct (growGrid a) as [what |]; cbn; [intros _; early_throw |];
    (destruct (shaderFile a); cbn; [| intros _; early_throw]);
    (destruct (codeBuffer a); cbn; [intros _; early_throw |]);
    (destruct (failed (createShaderModule a)); cbn;
       [intros _; early_throw |]);
    (destruct (failed (createDescriptorSetLayout a)); cbn;
       [intros _; early_throw |]);
    (destruct (failed (createPipelineLayout a)); cbn;
       [intros _; early_throw |]);
    (destruct (failed (createComputePipelines a)); cbn;
       [intros _; early_throw |]);
    (destruct (failed (createBuffer a 0)); cbn; [intros _; early_throw |]);
    (destruct (failed (createBuffer a 1)); cbn; [intros _; early_throw |]);
    (destruct (failed (createDescriptorPool a)); cbn;
       [intros _; early_throw |]);
    intros [H | H]; [congruence | discriminate H].
Qed.

(** [init], when it throws after the descriptor pool was created: one of
    the two descriptor sets could not be allocated. *)
Lemma init_throws_late a sx sy sz w :
  grid_fits a sx sy sz (game w) = true ->
  pool_reached a = true -> all_succeed a = false ->
  exists w1,
    init a sx sy sz w = (Throws "Failed to allocate descriptor set", w1)
    /\ forallb (fun m => holds m (game w1))
         [ComputePipeline; PipelineLayout; DescriptorSetLayout;
          DescriptorPool; ComputeShader; GridBuffer 0; GridBuffer 1] = true.
Proof.
  unfold grid_fits, pool_reached, all_succeed. EngineFacts.run_init. cbn.
  destruct (growGrid a) as [what |];
    [destruct (has_to_grow _ _); cbn; [discriminate |] |];
    (destruct (shaderFile a); cbn; [| discriminate]);
    (destruct (codeBuffer a); cbn; [discriminate |]);
    (destruct (failed (createShaderModule a)); cbn; [discriminate |]);
    (destruct (failed (createDescriptorSetLayout a)); cbn; [discriminate |]);
    (destruct (failed (createPipelineLayout a)); cbn; [discriminate |]);
    (destruct (failed (createComputePipelines a)); cbn; [discriminate |]);
    (destruct (failed (createBuffer a 0)); cbn; [discriminate |]);
    (destruct (failed (createBuffer a 1)); cbn; [discriminate |]);
    (destruct (failed (createDescriptorPool a)); cbn; [discriminate |]);
    (destruct (failed (allocateDescriptorSets a 0)); cbn;
       [intros _ _ _; eexists; split; reflexivity |]);
    (destruct (failed (allocateDescriptorSets a 1)); cbn;
       [intros _ _ _; eexists; split; reflexivity |]);
    discriminate.
Qed.

Lemma main_grid_grows :
  has_to_grow [] (Z.to_nat (wrap32 (wrap32 (GRID_SIZE * GRID_SIZE) * GRID_SIZE)))
  = true.
Proof. reflexivity. Qed.





End AppFacts.
